(** * Weather data pipeline: ingestion and yearly statistics

    A shallow embedding of [ingest_data.py], [weather_statistics.py], the
    table declarations and [create_database] of [models.py], and the two
    [get] methods of [app.py].

    - Measurements are IEEE doubles (primitive floats), as in pandas and in
      the [Float] columns; what is proved of their values is stated against
      the IEEE specification of the standard library ([SpecFloat]).
    - A source file is given by its path and by the lines of its text, each
      empty or split into its four fields, or by the exception [read_csv]
      raises for it.  The numeric fields are integers; [read_csv] holds them
      as [int64].
    - Two functions of libraries are parameters of the development:
      [pd.to_datetime], and the order in which the server returns the groups
      of a [GROUP BY].
    - The database session is an explicit state, threaded through a small
      state-and-exception monad; Python exceptions are values of
      [py_exception].
    - Wall-clock time ([datetime.now()]) is left out of the log messages. *)

From Stdlib Require Import ZArith List String Ascii Bool Lia Permutation.
From Stdlib Require Import Floats Uint63.
Import ListNotations.

Local Open Scope Z_scope.

(** ** Values *)

(** Python [int] (or numpy [int64]) to [float]: the double nearest to the
    integer, ties to even.  Every [int64] is within the range of the
    doubles. *)
Definition float_of_Z (z : Z) : float :=
  SF2Prim (binary_normalize prec emax z 0 false).

(** The values of an [int64]. *)
Definition int64 (z : Z) : Prop := - 2 ^ 63 <= z < 2 ^ 63.

(** A calendar date, the value of a [Date] column. *)
Record Timestamp : Type := mkTimestamp {
  ts_year : Z;
  ts_month : Z;
  ts_day : Z
}.

Definition Timestamp_eqb (a b : Timestamp) : bool :=
  (ts_year a =? ts_year b) && (ts_month a =? ts_month b) && (ts_day a =? ts_day b).

(** The exceptions that occur in the pipeline.  [IntegrityError],
    [OperationalError] and [DataError] are SQLAlchemy's; [ParserError] is
    what [read_csv] raises for a text it cannot split into the columns. *)
Inductive py_exception : Type :=
| IntegrityError
| OperationalError
| DataError
| ParserError.

Definition is_IntegrityError (e : py_exception) : bool :=
  match e with IntegrityError => true | _ => false end.

(** ** Source files *)

(** One line of a source file: [YYYYMMDD\tmax\tmin\tprecipitation], the
    date as its text and the three measurements as the integers they
    write. *)
Record raw_line : Type := mkLine {
  raw_date : string;
  raw_max_temp : Z;
  raw_min_temp : Z;
  raw_precipitation : Z
}.

(** One line of the text of a file: an empty line, or a line of four
    fields. *)
Inductive text_line : Type :=
| BlankLine
| Fields (l : raw_line).

(** A file as [pd.read_csv] meets it: the lines of its text, or the exception
    that reading it raises.  A file without any line is [Text []]. *)
Inductive file_body : Type :=
| Text (lines : list text_line)
| Unreadable (e : py_exception).

Record source_file : Type := mkFile {
  file_path : string;
  body : file_body
}.

(** ** [parse_weather_data] *)

(** [os.path.basename]: what follows the last slash. *)
Fixpoint basename_from (p cur : string) : string :=
  match p with
  | EmptyString => cur
  | String c rest =>
      if Ascii.eqb c "/"%char then basename_from rest rest
      else basename_from rest cur
  end.

Definition basename (p : string) : string := basename_from p p.

(** [s.split(sep)[0]]: what precedes the first separator. *)
Fixpoint split_first (sep : ascii) (s : string) : string :=
  match s with
  | EmptyString => EmptyString
  | String c rest =>
      if Ascii.eqb c sep then EmptyString else String c (split_first sep rest)
  end.

Definition station_id_of_path (path : string) : string :=
  split_first "."%char (basename path).

(** [data.replace(-9999, None)] on one cell. *)
Definition replace_sentinel (v : Z) : option Z :=
  if v =? -9999 then None else Some v.

(** [np.where(pd.notnull(col), col / 10.0, None)] on one cell. *)
Definition scale (v : option Z) : option float :=
  match v with
  | Some z => Some (PrimFloat.div (float_of_Z z) 10%float)
  | None => None
  end.

(** One row of the data frame that [parse_weather_data] returns. *)
Record Row : Type := mkRow {
  row_date : option Timestamp;
  row_max_temp : option float;
  row_min_temp : option float;
  row_precipitation : option float;
  row_station_id : string
}.

Inductive outcome (A : Type) : Type :=
| Returns (a : A)
| Raises (e : py_exception).
Arguments Returns {A} a.
Arguments Raises {A} e.

(** [pd.read_csv(file_path, delimiter='\t', header=None, names=[...])]: one
    row of the frame for each line that is not empty ([skip_blank_lines] is
    left at its default), in the order of the lines. *)
Definition read_csv (f : source_file) : outcome (list raw_line) :=
  match body f with
  | Unreadable e => Raises e
  | Text lines =>
      Returns (flat_map (fun t => match t with
                                  | BlankLine => []
                                  | Fields l => [l]
                                  end) lines)
  end.

(** ** Tables ([models.py]) *)

(** The surrogate key [id] is assigned by the database and never read by the
    pipeline; a table is the list of its rows in insertion order. *)
Record WeatherData : Type := mkWeatherData {
  date : option Timestamp;
  station_id : string;
  max_temp : option float;
  min_temp : option float;
  precipitation : option float
}.

Record WeatherStatistics : Type := mkWeatherStatistics {
  year : option Z;
  ws_station_id : string;
  avg_max_temp : option float;
  avg_min_temp : option float;
  total_precipitation : option float
}.

(** [UniqueConstraint('station_id', 'date', name='station_date_uc')]. *)
Definition same_station_date (s : string) (d : Timestamp) (r : WeatherData) : bool :=
  String.eqb (station_id r) s &&
  match date r with Some d' => Timestamp_eqb d' d | None => false end.

Definition station_date_taken (s : string) (d : Timestamp) (table : list WeatherData) : bool :=
  existsb (same_station_date s d) table.

(** ** The session and the database behind it *)

(** An object handed to [session.add]. *)
Inductive orm_object : Type :=
| NewData (r : WeatherData)
| NewStat (s : WeatherStatistics).

(** The messages of the two loggers, without their timestamps. *)
Inductive log_message : Type :=
| StartingIngestion
| StartingFile (file_name : string)
| FinishedFile
| InsertedFromFile (file_name : string) (record_count : nat)
| TotalDuplicates (total_duplicate_count : nat)
| FinishedIngestion
| TotalIngested (total_record_count : nat)
| StartingStatistics
| FinishedStatistics
| ErrorCalculatingStatistics (e : py_exception).

(** The state a run acts on.
    - [weather_data], [weather_statistics]: the committed rows of the two
      tables;
    - [session_new]: the objects added to the session and not yet committed;
    - [link]: what the connection will do at the coming round trips to the
      server, [true] for a round trip that fails; past the end of the list
      every round trip succeeds;
    - [log]: the messages logged so far, oldest first. *)
Record World : Type := mkWorld {
  weather_data : list WeatherData;
  weather_statistics : list WeatherStatistics;
  session_new : list orm_object;
  link : list bool;
  log : list log_message
}.

Definition set_tables (t : list WeatherData * list WeatherStatistics) (w : World) : World :=
  mkWorld (fst t) (snd t) (session_new w) (link w) (log w).

Definition set_session_new (objs : list orm_object) (w : World) : World :=
  mkWorld (weather_data w) (weather_statistics w) objs (link w) (log w).

Definition set_link (l : list bool) (w : World) : World :=
  mkWorld (weather_data w) (weather_statistics w) (session_new w) l (log w).

Definition add_log (m : log_message) (w : World) : World :=
  mkWorld (weather_data w) (weather_statistics w) (session_new w) (link w) (log w ++ [m]).

(** Computations that read and change the [World] and may raise. *)
Definition M (A : Type) : Type := World -> World * outcome A.

Definition ret {A : Type} (a : A) : M A := fun w => (w, Returns a).

Definition raise {A : Type} (e : py_exception) : M A := fun w => (w, Raises e).

Definition bind {A B : Type} (m : M A) (k : A -> M B) : M B :=
  fun w =>
    match m w with
    | (w', Returns a) => k a w'
    | (w', Raises e) => (w', Raises e)
    end.

Definition lift {A : Type} (o : outcome A) : M A := fun w => (w, o).

Definition get : M World := fun w => (w, Returns w).

Definition modify (f : World -> World) : M unit := fun w => (f w, Returns tt).

(** [try: body except <the exceptions catches accepts> as e: handler e]. *)
Definition try_except {A : Type} (body : M A) (catches : py_exception -> bool)
    (handler : py_exception -> M A) : M A :=
  fun w =>
    match body w with
    | (w', Returns a) => (w', Returns a)
    | (w', Raises e) => if catches e then handler e w' else (w', Raises e)
    end.

Declare Scope py_scope.
Delimit Scope py_scope with py.
Notation "x <- c1 ;; c2" := (bind c1 (fun x => c2))
  (at level 61, c1 at next level, right associativity) : py_scope.
Notation "c1 ;; c2" := (bind c1 (fun _ => c2))
  (at level 61, right associativity) : py_scope.
Local Open Scope py_scope.

Definition logger_info (m : log_message) : M unit := modify (add_log m).
Definition logger_error (m : log_message) : M unit := modify (add_log m).

Definition tables : Type := (list WeatherData * list WeatherStatistics)%type.

(** One round trip to the server. *)
Definition execute : M unit :=
  fun w =>
    match link w with
    | [] => (w, Returns tt)
    | false :: l => (set_link l w, Returns tt)
    | true :: l => (set_link l w, Raises OperationalError)
    end.

(** [get_session()]: a new session, with nothing added to it. *)
Definition get_session : M unit := modify (set_session_new []).

(** [session.add(obj)]. *)
Definition session_add (o : orm_object) : M unit :=
  modify (fun w => set_session_new (session_new w ++ [o]) w).

(** [session.rollback()]: the open transaction and the objects added in it
    are given up. *)
Definition session_rollback : M unit := modify (set_session_new []).

(** ** The aggregates of the server

    [avg] and [sum] over the values of one column in one group: [NULL]s are
    skipped, and a group without a value gives [NULL].  PostgreSQL refuses a
    result that is infinite where its inputs are finite ("value out of
    range: overflow"), which the driver raises as a [DataError]. *)

(** [float8pl], the transition function of [sum(double precision)]. *)
Definition float8pl (val1 val2 : float) : outcome float :=
  let result := (val1 + val2)%float in
  if is_infinity result && negb (is_infinity val1) && negb (is_infinity val2)
  then Raises DataError
  else Returns result.

Fixpoint sum_from (vs : list (option float)) (st : option float)
    : outcome (option float) :=
  match vs with
  | [] => Returns st
  | None :: rest => sum_from rest st
  | Some x :: rest =>
      match st with
      | None => sum_from rest (Some x)
      | Some s =>
          match float8pl s x with
          | Returns s' => sum_from rest (Some s')
          | Raises e => Raises e
          end
      end
  end.

Definition sql_sum (vs : list (option float)) : outcome (option float) :=
  sum_from vs None.

(** [float8_accum], the transition function of [avg(double precision)], on
    the state [(N, Sx, Sxx)]: the number of values, their sum, and the sum of
    the squares of their distances to the mean (by Youngs and Cramer's
    update), which the server keeps for the other aggregates of the family
    and checks with the sum.  The count is exact here; the server holds it
    in a double, which is exact below [2 ^ 53] values. *)
Definition float8_accum (st : Z * float * float) (newval : float)
    : outcome (Z * float * float) :=
  let '(n, Sx0, Sxx0) := st in
  let N0 := float_of_Z n in
  let N := float_of_Z (n + 1) in
  let Sx := (Sx0 + newval)%float in
  if 0 <? n then
    let tmp := (newval * N - Sx)%float in
    let Sxx := (Sxx0 + tmp * tmp / (N * N0))%float in
    if is_infinity Sx || is_infinity Sxx then
      if negb (is_infinity Sx0) && negb (is_infinity newval)
      then Raises DataError
      else Returns (n + 1, Sx, nan)
    else Returns (n + 1, Sx, Sxx)
  else
    if is_nan newval || is_infinity newval
    then Returns (n + 1, Sx, nan)
    else Returns (n + 1, Sx, Sxx0).

Fixpoint avg_from (vs : list (option float)) (st : Z * float * float)
    : outcome (Z * float * float) :=
  match vs with
  | [] => Returns st
  | None :: rest => avg_from rest st
  | Some x :: rest =>
      match float8_accum st x with
      | Returns st' => avg_from rest st'
      | Raises e => Raises e
      end
  end.

(** [float8_avg], the final function of [avg]. *)
Definition float8_avg (st : Z * float * float) : option float :=
  let '(n, Sx, _) := st in
  if n =? 0 then None else Some (Sx / float_of_Z n)%float.

Definition sql_avg (vs : list (option float)) : outcome (option float) :=
  match avg_from vs (0, 0%float, 0%float) with
  | Returns st => Returns (float8_avg st)
  | Raises e => Raises e
  end.

(** The key of [GROUP BY station_id, extract('year', date)]. *)
Definition group_key : Type := (string * option Z)%type.

Definition key_of (r : WeatherData) : group_key :=
  (station_id r, option_map ts_year (date r)).

Definition option_Z_eqb (a b : option Z) : bool :=
  match a, b with
  | Some x, Some y => x =? y
  | None, None => true
  | _, _ => false
  end.

Definition key_eqb (a b : group_key) : bool :=
  String.eqb (fst a) (fst b) && option_Z_eqb (snd a) (snd b).

(** The keys of a list, each once. *)
Fixpoint distinct (ks : list group_key) : list group_key :=
  match ks with
  | [] => []
  | k :: rest => k :: filter (fun k' => negb (key_eqb k' k)) (distinct rest)
  end.

Definition group_of (k : group_key) (table : list WeatherData) : list WeatherData :=
  filter (fun r => key_eqb (key_of r) k) table.

(** One row of the result of the query of [calculate_statistics]. *)
Record result_row : Type := mkResult {
  res_year : option Z;
  res_station_id : string;
  res_avg_max_temp : option float;
  res_avg_min_temp : option float;
  res_total_precipitation : option float
}.

(** The row of one group; an aggregate that overflows fails the query. *)
Definition aggregate (table : list WeatherData) (k : group_key) : outcome result_row :=
  let g := group_of k table in
  match sql_avg (map max_temp g) with
  | Raises e => Raises e
  | Returns avg_max =>
      match sql_avg (map min_temp g) with
      | Raises e => Raises e
      | Returns avg_min =>
          match sql_sum (map precipitation g) with
          | Raises e => Raises e
          | Returns total =>
              Returns {| res_year := snd k;
                         res_station_id := fst k;
                         res_avg_max_temp := avg_max;
                         res_avg_min_temp := avg_min;
                         res_total_precipitation := total |}
          end
      end
  end.

Fixpoint aggregate_all (table : list WeatherData) (ks : list group_key)
    : outcome (list result_row) :=
  match ks with
  | [] => Returns []
  | k :: rest =>
      match aggregate table k with
      | Raises e => Raises e
      | Returns result =>
          match aggregate_all table rest with
          | Raises e => Raises e
          | Returns results => Returns (result :: results)
          end
      end
  end.

Definition returned {A : Type} (o : outcome A) : bool :=
  match o with
  | Returns _ => true
  | Raises _ => false
  end.

Definition new_statistic (result : result_row) : WeatherStatistics :=
  {| year := res_year result;
     ws_station_id := res_station_id result;
     avg_max_temp := res_avg_max_temp result;
     avg_min_temp := res_avg_min_temp result;
     total_precipitation := res_total_precipitation result |}.

Definition new_record (row : Row) : WeatherData :=
  {| station_id := row_station_id row;
     date := row_date row;
     max_temp := row_max_temp row;
     min_temp := row_min_temp row;
     precipitation := row_precipitation row |}.

(** ** The query layer ([app.py]) *)

Definition DEFAULT_PAGE : Z := 1.
Definition DEFAULT_PAGE_SIZE : Z := 10.

(** The query parameters of a request to [/weather/]; [None] is a parameter
    that is not given. *)
Record weather_request : Type := mkWeatherRequest {
  req_date : option string;
  req_station_id : option string;
  req_page : option Z;
  req_page_size : option Z
}.

(** The query parameters of a request to [/weather/stats/]. *)
Record stats_request : Type := mkStatsRequest {
  sreq_year : option Z;
  sreq_station_id : option string;
  sreq_page : option Z;
  sreq_page_size : option Z
}.

(** The second component of what the two [get] methods return. *)
Record pagination : Type := mkPagination {
  total_items : nat;
  page : Z;
  page_size : Z
}.

(** Python's truth value of an argument: [None], the empty string and [0]
    are false. *)
Definition truthy_string (a : option string) : option string :=
  match a with
  | Some EmptyString => None
  | other => other
  end.

Definition truthy_int (a : option Z) : option Z :=
  match a with
  | Some 0 => None
  | other => other
  end.

(** [parse_args()] puts the default where [page] or [page_size] is absent. *)
Definition arg_or_default (a : option Z) (default : Z) : Z :=
  match a with
  | Some v => v
  | None => default
  end.

(** [LIMIT] and [OFFSET] are [bigint]s that are not negative: the server
    refuses any other number. *)
Definition bigint_count (n : Z) : bool := (0 <=? n) && (n <? 2 ^ 63).

(** [query.limit(limit).offset(offset)] on the rows of a query, here in the
    order of the table: the query has no [ORDER BY], and nothing below
    depends on which rows a page holds. *)
Definition limit_offset {A : Type} (limit offset : Z) (rows : list A) : outcome (list A) :=
  if bigint_count limit && bigint_count offset
  then Returns (firstn (Z.to_nat limit) (skipn (Z.to_nat offset) rows))
  else Raises DataError.

(** [query.filter(WeatherStatistics.year == year)] and
    [query.filter(WeatherStatistics.station_id == station_id)], each applied
    when its argument is true. *)
Definition stats_matching (request : stats_request) (table : list WeatherStatistics)
    : list WeatherStatistics :=
  let by_year :=
    match truthy_int (sreq_year request) with
    | Some y => filter (fun s => option_Z_eqb (year s) (Some y)) table
    | None => table
    end in
  match truthy_string (sreq_station_id request) with
  | Some station => filter (fun s => String.eqb (ws_station_id s) station) by_year
  | None => by_year
  end.

(** [WeatherStatsAPI.get]: [query.count()] and [query.all()] are one round
    trip each. *)
Definition stats_get (request : stats_request) : M (list WeatherStatistics * pagination) :=
  let page := arg_or_default (sreq_page request) DEFAULT_PAGE in
  let page_size := arg_or_default (sreq_page_size request) DEFAULT_PAGE_SIZE in
  get_session ;;
  execute ;;
  w <- get ;;
  let total_items := List.length (stats_matching request (weather_statistics w)) in
  execute ;;
  w' <- get ;;
  items <- lift (limit_offset page_size ((page - 1) * page_size)
                   (stats_matching request (weather_statistics w'))) ;;
  ret (items, mkPagination total_items page page_size).

Section QueryLayer.

(** How the server reads the text of the [date] parameter as a date; [None]
    for a text it does not accept. *)
Variable date_literal : string -> option Timestamp.

Definition date_is (d : Timestamp) (r : WeatherData) : bool :=
  match date r with
  | Some d' => Timestamp_eqb d' d
  | None => false
  end.

(** [query.filter(WeatherData.date == date)] and
    [query.filter(WeatherData.station_id == station_id)], each applied when
    its argument is true; a text that is no date makes the statement fail. *)
Definition weather_matching (request : weather_request) (table : list WeatherData)
    : outcome (list WeatherData) :=
  let by_station (rows : list WeatherData) :=
    match truthy_string (req_station_id request) with
    | Some station => filter (fun r => String.eqb (station_id r) station) rows
    | None => rows
    end in
  match truthy_string (req_date request) with
  | Some text =>
      match date_literal text with
      | Some d => Returns (by_station (filter (date_is d) table))
      | None => Raises DataError
      end
  | None => Returns (by_station table)
  end.

(** [WeatherAPI.get]. *)
Definition weather_get (request : weather_request) : M (list WeatherData * pagination) :=
  let page := arg_or_default (req_page request) DEFAULT_PAGE in
  let page_size := arg_or_default (req_page_size request) DEFAULT_PAGE_SIZE in
  get_session ;;
  execute ;;
  w <- get ;;
  matching <- lift (weather_matching request (weather_data w)) ;;
  let total_items := List.length matching in
  execute ;;
  w' <- get ;;
  matching' <- lift (weather_matching request (weather_data w')) ;;
  items <- lift (limit_offset page_size ((page - 1) * page_size) matching') ;;
  ret (items, mkPagination total_items page page_size).

End QueryLayer.

(** ** [create_database] ([models.py]) *)

Definition DB_NAME : string := "weather_db".

Inductive setup_message : Type :=
| DatabaseCreated (name : string)
| DatabaseAlreadyExists (name : string)
| ErrorCreatingDatabase.

(** The PostgreSQL server as [create_database] sees it.
    - [databases]: the names in [pg_database];
    - [connections]: the connections that are open;
    - [server_link]: what the connection attempt and the statements to come
      will do, [true] for one that raises a [psycopg2.Error]; past the end
      of the list all succeed;
    - [server_log]: the messages logged so far, oldest first. *)
Record Server : Type := mkServer {
  databases : list string;
  connections : nat;
  server_link : list bool;
  server_log : list setup_message
}.

(** How a call of [create_database] ends: it returns, or the [finally]
    clause reads [conn] before any assignment to it. *)
Inductive setup_outcome : Type :=
| SetupReturns
| SetupRaisesUnboundLocalError.

(** One connection attempt or statement: the rest of the schedule, and
    whether it raised. *)
Definition server_step (s : Server) : Server * bool :=
  match server_link s with
  | [] => (s, false)
  | b :: l => (mkServer (databases s) (connections s) l (server_log s), b)
  end.

Definition server_logs (m : setup_message) (s : Server) : Server :=
  mkServer (databases s) (connections s) (server_link s) (server_log s ++ [m]).

Definition connection_opened (s : Server) : Server :=
  mkServer (databases s) (S (connections s)) (server_link s) (server_log s).

Definition connection_closed (s : Server) : Server :=
  mkServer (databases s) (Nat.pred (connections s)) (server_link s) (server_log s).

Definition database_added (name : string) (s : Server) : Server :=
  mkServer (databases s ++ [name]) (connections s) (server_link s) (server_log s).

Definition database_exists (name : string) (s : Server) : bool :=
  existsb (String.eqb name) (databases s).

Definition create_database (s : Server) : Server * setup_outcome :=
  let (s1, failed) := server_step s in
  if failed then
    (server_logs ErrorCreatingDatabase s1, SetupRaisesUnboundLocalError)
  else
    let s2 := connection_opened s1 in
    let (s3, failed) := server_step s2 in
    if failed then
      (connection_closed (server_logs ErrorCreatingDatabase s3), SetupReturns)
    else if database_exists DB_NAME s3 then
      (connection_closed (server_logs (DatabaseAlreadyExists DB_NAME) s3), SetupReturns)
    else
      let (s4, failed) := server_step s3 in
      if failed then
        (connection_closed (server_logs ErrorCreatingDatabase s4), SetupReturns)
      else
        (connection_closed
           (server_logs (DatabaseCreated DB_NAME) (database_added DB_NAME s4)),
         SetupReturns).

(** ** Characters of a path *)

Fixpoint contains (c : ascii) (s : string) : bool :=
  match s with
  | EmptyString => false
  | String c' rest => Ascii.eqb c' c || contains c rest
  end.

(** ** Sample data *)

Set Warnings "-inexact-float".

(** A database without rows, a session without objects, a connection that
    works, an empty log. *)
Definition no_data : World := mkWorld [] [] [] [] [].

(** The file of the end-to-end scenario: one line, with a missing minimum. *)
Definition USC00111280 : source_file :=
  mkFile "/srv/weather/src/../wx_data/USC00111280.txt"
    (Text [Fields (mkLine "20030101" 211 (-9999) 5)]).

(** A file that gives the same day twice. *)
Definition USC00110072 : source_file :=
  mkFile "/srv/weather/src/../wx_data/USC00110072.txt"
    (Text [Fields (mkLine "19850101" (-22) (-128) 94);
           Fields (mkLine "19850101" (-22) (-128) 94)]).

(** A file of one line whose date is not numeric and one valid line. *)
Definition USC00110187 : source_file :=
  mkFile "/srv/weather/src/../wx_data/USC00110187.txt"
    (Text [Fields (mkLine "2003010x" 100 50 0);
           Fields (mkLine "20030102" 211 (-9999) 5)]).

(** A file with a line of five fields after a line of four: [read_csv]
    raises [ParserError]. *)
Definition USC00110338 : source_file :=
  mkFile "/srv/weather/src/../wx_data/USC00110338.txt" (Unreadable ParserError).

(** A file of three lines, the second one empty. *)
Definition USC00112140 : source_file :=
  mkFile "/srv/weather/src/../wx_data/USC00112140.txt"
    (Text [Fields (mkLine "20030101" 150 (-9999) 0);
           BlankLine;
           Fields (mkLine "20030102" 161 44 12)]).

(** [pd.to_datetime(_, format='%Y%m%d', errors='coerce')] on the date fields
    of the sample files: three of them are dates, [2003010x] gives [NaT].
    It is applied to these four fields only. *)
Definition to_datetime_of_samples (s : string) : option Timestamp :=
  if String.eqb s "20030101" then Some (mkTimestamp 2003 1 1)
  else if String.eqb s "20030102" then Some (mkTimestamp 2003 1 2)
  else if String.eqb s "19850101" then Some (mkTimestamp 1985 1 1)
  else None.

(** A server that returns the groups in the order of their first rows. *)
Definition groups_as_found (table : list WeatherData) (ks : list group_key)
    : list group_key := ks.


(** Three days of one station in one year, with maximum temperatures
    20.0, null and 30.0, and no precipitation reading at all. *)
Definition three_days : World :=
  mkWorld
    [mkWeatherData (Some (mkTimestamp 2003 1 1)) "USC00111280"
       (Some 20%float) (Some 5%float) None;
     mkWeatherData (Some (mkTimestamp 2003 1 2)) "USC00111280"
       None (Some 7%float) None;
     mkWeatherData (Some (mkTimestamp 2003 1 3)) "USC00111280"
       (Some 30%float) None None]
    [] [] [] [].

(** Two days of one station in one year whose precipitations are finite and
    add up to more than a double holds. *)
Definition two_floods : World :=
  mkWorld
    [mkWeatherData (Some (mkTimestamp 2003 1 1)) "USC00111280"
       (Some 20%float) (Some 5%float) (Some 0x1p+1023%float);
     mkWeatherData (Some (mkTimestamp 2003 1 2)) "USC00111280"
       (Some 30%float) (Some 7%float) (Some 0x1p+1023%float)]
    [] [] [] [].

Ltac step_monad :=
  unfold bind, ret, lift, raise, get, modify, logger_info, logger_error,
    session_add, session_rollback, get_session, try_except in *.

Section Pipeline.

(** [pd.to_datetime(_, format='%Y%m%d', errors='coerce')] on one value of
    the date column: the date it reads, or [NaT] ([None]). *)
Variable to_datetime : string -> option Timestamp.

(** What [session.commit()] raises for a [WeatherData] whose date is [NaT].
    The column is declared [nullable=False]: the row is refused, with
    [DataError] where the driver sends [NaT] as a literal that is no date
    (psycopg2 does), with [IntegrityError] where it sends it as [NULL]. *)
Variable null_date_error : py_exception.

(** The order in which the server returns the groups of the query of
    [calculate_statistics] over a table: the query has no [ORDER BY]. *)
Variable group_order : list WeatherData -> list group_key -> list group_key.

Hypothesis group_order_permutes :
  forall table ks, Permutation (group_order table ks) ks.

(** ** [parse_weather_data] on the frame *)

Definition clean_line (station : string) (l : raw_line) : Row :=
  {| row_date := to_datetime (raw_date l);
     row_max_temp := scale (replace_sentinel (raw_max_temp l));
     row_min_temp := scale (replace_sentinel (raw_min_temp l));
     row_precipitation := scale (replace_sentinel (raw_precipitation l));
     row_station_id := station |}.

Definition parse_weather_data (f : source_file) : outcome (list Row) :=
  match read_csv f with
  | Raises e => Raises e
  | Returns data => Returns (map (clean_line (station_id_of_path (file_path f))) data)
  end.

(** ** The session's commit *)

(** The constraints of the two tables, checked when a row is inserted. *)
Definition insert (o : orm_object) (t : tables) : outcome tables :=
  match o with
  | NewData r =>
      match date r with
      | None => Raises null_date_error
      | Some d =>
          if station_date_taken (station_id r) d (fst t)
          then Raises IntegrityError
          else Returns (fst t ++ [r], snd t)
      end
  | NewStat s =>
      match year s with
      | None => Raises IntegrityError
      | Some _ => Returns (fst t, snd t ++ [s])
      end
  end.

(** The [INSERT]s of a flush, inside the open transaction: [t] is the state
    of the tables as the transaction sees it. *)
Fixpoint flush (objs : list orm_object) (t : tables) : M tables :=
  match objs with
  | [] => ret t
  | o :: rest =>
      execute ;;
      t' <- lift (insert o t) ;;
      flush rest t'
  end.

(** [session.commit()]: the added objects are inserted and the transaction
    is committed; the tables change only when every step has succeeded. *)
Definition session_commit : M unit :=
  w <- get ;;
  t <- flush (session_new w) (weather_data w, weather_statistics w) ;;
  execute ;;
  modify (fun w' => set_session_new [] (set_tables t w')).

(** ** [ingest_data] *)

(** The body of the loop over the rows; [counts] is
    [(record_count, duplicate_count)]. *)
Definition load_record (record : WeatherData) (counts : nat * nat) : M (nat * nat) :=
  try_except
    (session_add (NewData record) ;;
     session_commit ;;
     ret (S (fst counts), snd counts))
    is_IntegrityError
    (fun _ =>
       session_rollback ;;
       ret (fst counts, S (snd counts))).

Fixpoint ingest_rows (data : list Row) (counts : nat * nat) : M (nat * nat) :=
  match data with
  | [] => ret counts
  | row :: rest =>
      counts' <- load_record (new_record row) counts ;;
      ingest_rows rest counts'
  end.

(** The body of the loop over the files; it returns the file's
    [(record_count, duplicate_count)]. *)
Definition ingest_file (f : source_file) : M (nat * nat) :=
  let file_name := basename (file_path f) in
  logger_info (StartingFile file_name) ;;
  data <- lift (parse_weather_data f) ;;
  counts <- ingest_rows data (0%nat, 0%nat) ;;
  logger_info FinishedFile ;;
  logger_info (InsertedFromFile file_name (fst counts)) ;;
  ret counts.

(** The loop over the files; [totals] is
    [(total_record_count, total_duplicate_count)]. *)
Fixpoint ingest_files (files : list source_file) (totals : nat * nat) : M (nat * nat) :=
  match files with
  | [] => ret totals
  | f :: rest =>
      counts <- ingest_file f ;;
      ingest_files rest
        ((fst totals + fst counts)%nat, (snd totals + snd counts)%nat)
  end.

(** [ingest_data()], over the files that [glob] lists.  The source logs the
    two totals; here they are also the result. *)
Definition ingest_data (files : list source_file) : M (nat * nat) :=
  get_session ;;
  logger_info StartingIngestion ;;
  totals <- ingest_files files (0%nat, 0%nat) ;;
  logger_info (TotalDuplicates (snd totals)) ;;
  logger_info FinishedIngestion ;;
  logger_info (TotalIngested (fst totals)) ;;
  ret totals.

(** ** [calculate_statistics] *)

Fixpoint add_statistics (results : list result_row) : M unit :=
  match results with
  | [] => ret tt
  | result :: rest =>
      session_add (NewStat (new_statistic result)) ;;
      add_statistics rest
  end.

(** [SELECT extract(year from date), station_id, avg(max_temp), avg(min_temp),
    sum(precipitation) FROM weather_data GROUP BY station_id, extract(year
    from date)]. *)
Definition select_yearly (table : list WeatherData) : outcome (list result_row) :=
  aggregate_all table (group_order table (distinct (map key_of table))).

Definition run_query : M (list result_row) :=
  execute ;;
  w <- get ;;
  lift (select_yearly (weather_data w)).

Definition calculate_statistics : M unit :=
  logger_info StartingStatistics ;;
  get_session ;;
  try_except
    (results <- run_query ;;
     add_statistics results ;;
     session_commit ;;
     logger_info FinishedStatistics)
    (fun _ => true)
    (fun e =>
       session_rollback ;;
       logger_error (ErrorCalculatingStatistics e)).

(** ** Notions used to state the properties *)

(** No round trip still to come fails. *)
Definition healthy (w : World) : Prop := forallb negb (link w) = true.

(** The store refuses the record with [IntegrityError]: its date is null and
    that is an integrity error, or its [(station_id, date)] is taken. *)
Definition refused (r : WeatherData) (table : list WeatherData) : bool :=
  match date r with
  | None => is_IntegrityError null_date_error
  | Some d => station_date_taken (station_id r) d table
  end.

(** The counts of the files of a run, file by file, as long as the run goes
    on. *)
Fixpoint file_counts (files : list source_file) (w : World) : list (nat * nat) :=
  match files with
  | [] => []
  | f :: rest =>
      match ingest_file f w with
      | (w', Returns counts) => counts :: file_counts rest w'
      | (_, Raises _) => []
      end
  end.

(** The number of records the parser emits for a file. *)
Definition parsed_count (f : source_file) : nat :=
  match parse_weather_data f with
  | Returns data => List.length data
  | Raises _ => 0%nat
  end.

Definition sum_nat (l : list nat) : nat := fold_right Nat.add 0%nat l.

(** Modelled from the spec: the non-null values of a column. *)
Definition non_null (vs : list (option float)) : list float :=
  flat_map (fun v => match v with Some x => [x] | None => [] end) vs.


(** Modelled from the spec: the sum of [xs], null when there is no value. *)
Definition total (xs : list float) : option float :=
  match xs with
  | [] => None
  | x :: rest => Some (fold_left PrimFloat.add rest x)
  end.

(** No aggregate of a group of the table overflows. *)
Definition aggregates_in_range (table : list WeatherData) : Prop :=
  forallb (fun k => returned (aggregate table k)) (map key_of table) = true.

(** The observations of one station in one year. *)
Definition partition_of (station : string) (y : option Z) (table : list WeatherData)
    : list WeatherData :=
  filter (fun r => String.eqb (station_id r) station &&
                   option_Z_eqb (option_map ts_year (date r)) y) table.

Definition stat_key (s : WeatherStatistics) : group_key := (ws_station_id s, year s).

(** The statistic rows one run computes from a table; none when the query
    fails. *)
Definition yearly_statistics (table : list WeatherData) : list WeatherStatistics :=
  match select_yearly table with
  | Returns results => map new_statistic results
  | Raises _ => []
  end.

(** A file was attempted when the start of its ingestion was logged. *)
Definition attempted (f : source_file) (w : World) : Prop :=
  In (StartingFile (basename (file_path f))) (log w).

(** The tables a flush arrives at when no round trip fails: one [insert]
    after the other. *)
Fixpoint insert_all (objs : list orm_object) (t : tables) : outcome tables :=
  match objs with
  | [] => Returns t
  | obj :: rest =>
      match insert obj t with
      | Returns t' => insert_all rest t'
      | Raises x => Raises x
      end
  end.

(** The state in which [ingest_data] enters its loop over the files. *)
Definition run_start (w : World) : World :=
  add_log StartingIngestion (set_session_new [] w).

(** Modelled from the spec: the cleaning rule for one numeric field.  The
    sentinel gives a null; any other raw value gives the double that IEEE
    division makes of the raw value and 10.0, the raw value being rounded to
    a double first. *)
Definition cleaned_as_specified (raw : Z) (cleaned : option float) : Prop :=
  (raw = -9999 -> cleaned = None) /\
  (raw <> -9999 ->
     exists v, cleaned = Some v /\
       Prim2SF v = SF64div (binary_normalize prec emax raw 0 false)
                           (binary_normalize prec emax 10 0 false)).


(** The statistic rows of one station and year. *)
Definition rows_for (station : string) (y : option Z) (stats : list WeatherStatistics)
    : list WeatherStatistics :=
  filter (fun s => key_eqb (stat_key s) (station, y)) stats.

(** ** Notions used to state further properties *)

(** The key of the unique constraint. *)
Definition store_key (r : WeatherData) : string * option Timestamp :=
  (station_id r, date r).

(** What the constraints of [weather_data] demand of the table: every row
    has a date, and no two rows have the same station and date. *)
Definition store_ok (table : list WeatherData) : Prop :=
  Forall (fun r => date r <> None) table /\ NoDup (map store_key table).

(** The records a file gives to the loader. *)
Definition file_records (f : source_file) : list WeatherData :=
  match parse_weather_data f with
  | Returns data => map new_record data
  | Raises _ => []
  end.

(** The table the rows of a file lead to when no round trip fails, and the
    exception that ends the loop, if one does. *)
Fixpoint rows_table (data : list Row) (t : list WeatherData)
    : list WeatherData * option py_exception :=
  match data with
  | [] => (t, None)
  | row :: rest =>
      match insert (NewData (new_record row)) (t, []) with
      | Returns t' => rows_table rest (fst t')
      | Raises x => if is_IntegrityError x then rows_table rest t else (t, Some x)
      end
  end.

(** The same for the files of a run. *)
Fixpoint files_table (files : list source_file) (t : list WeatherData)
    : list WeatherData * option py_exception :=
  match files with
  | [] => (t, None)
  | f :: rest =>
      match parse_weather_data f with
      | Raises x => (t, Some x)
      | Returns data =>
          match rows_table data t with
          | (t', None) => files_table rest t'
          | (t', Some x) => (t', Some x)
          end
      end
  end.

(** ** Basic facts *)

Lemma is_IntegrityError_true (x : py_exception) :
  is_IntegrityError x = true <-> x = IntegrityError.
Proof. destruct x; simpl; split; intro H; congruence. Qed.

Lemma is_IntegrityError_false (x : py_exception) :
  is_IntegrityError x = false <-> x <> IntegrityError.
Proof. destruct x; simpl; split; intro H; congruence. Qed.

Lemma bind_returns {A B : Type} (m : M A) (k : A -> M B) w w' a :
  m w = (w', Returns a) -> bind m k w = k a w'.
Proof. intro H. unfold bind. now rewrite H. Qed.

Lemma bind_raises {A B : Type} (m : M A) (k : A -> M B) w w' x :
  m w = (w', Raises x) -> bind m k w = (w', Raises x).
Proof. intro H. unfold bind. now rewrite H. Qed.

Lemma bind_inv {A B : Type} (m : M A) (k : A -> M B) w w2 o :
  bind m k w = (w2, o) ->
  (exists w1 a, m w = (w1, Returns a) /\ k a w1 = (w2, o)) \/
  (exists x, m w = (w2, Raises x) /\ o = Raises x).
Proof.
  unfold bind. destruct (m w) as [w1 [a | x]]; intro H.
  - left. now exists w1, a.
  - right. exists x. injection H as <- <-. split; reflexivity.
Qed.

(** A round trip touches nothing but the connection. *)
Lemma execute_inv w w' (o : outcome unit) :
  execute w = (w', o) ->
  weather_data w' = weather_data w /\
  weather_statistics w' = weather_statistics w /\
  session_new w' = session_new w /\
  log w' = log w /\
  (healthy w -> healthy w' /\ o = Returns tt).
Proof.
  unfold execute, healthy. destruct w as [wd ws sn ln lg]; simpl.
  destruct ln as [| [] l]; intro H; injection H as <- <-; simpl;
    repeat split; auto; simpl in *; congruence.
Qed.

Lemma execute_healthy w :
  healthy w ->
  exists w', execute w = (w', Returns tt) /\ healthy w' /\
    weather_data w' = weather_data w /\
    weather_statistics w' = weather_statistics w /\
    session_new w' = session_new w /\ log w' = log w.
Proof.
  intro Hh. destruct (execute w) as [w' o] eqn:E.
  destruct (execute_inv _ _ _ E) as (H1 & H2 & H3 & H4 & H5).
  destruct (H5 Hh) as [Hh' ->]. exists w'. repeat split; assumption.
Qed.

Lemma execute_down w l :
  link w = true :: l -> execute w = (set_link l w, Raises OperationalError).
Proof. intro H. unfold execute. now rewrite H. Qed.

(** A flush runs inside the transaction: the committed tables, the session
    and the log stay as they are, whatever its outcome. *)
Lemma flush_inv objs : forall t w w' o,
  flush objs t w = (w', o) ->
  weather_data w' = weather_data w /\
  weather_statistics w' = weather_statistics w /\
  session_new w' = session_new w /\
  log w' = log w /\
  (healthy w -> healthy w').
Proof.
  induction objs as [| obj rest IH]; intros t w w' o H; simpl in H.
  - step_monad. injection H as <- <-. repeat split; auto.
  - apply bind_inv in H. destruct H as [(w1 & [] & He & H) | (x & He & _)].
    + destruct (execute_inv _ _ _ He) as (E1 & E2 & E3 & E4 & E5).
      apply bind_inv in H. destruct H as [(w2 & t' & Hl & H) | (x & Hl & _)].
      * unfold lift in Hl. injection Hl as <- _.
        destruct (IH _ _ _ _ H) as (F1 & F2 & F3 & F4 & F5).
        repeat split; try congruence. intro Hh. apply F5. now apply E5.
      * unfold lift in Hl. injection Hl as <- _.
        repeat split; try assumption. intro Hh. now apply E5.
    + destruct (execute_inv _ _ _ He) as (E1 & E2 & E3 & E4 & E5).
      repeat split; try assumption. intro Hh. now apply E5.
Qed.

Lemma flush_healthy objs : forall t w,
  healthy w ->
  exists w', flush objs t w = (w', insert_all objs t) /\ healthy w'.
Proof.
  induction objs as [| obj rest IH]; intros t w Hh; simpl.
  - exists w. split; [reflexivity | assumption].
  - destruct (execute_healthy w Hh) as (w1 & He & Hh1 & _).
    rewrite (bind_returns _ _ _ _ _ He).
    destruct (insert obj t) as [t' | x] eqn:Hi.
    + unfold bind at 1, lift. apply IH. assumption.
    + exists w1. split; [reflexivity | assumption].
Qed.

(** A flush that succeeds has computed the tables [insert] by [insert]. *)
Lemma flush_returns objs : forall t w w' t',
  flush objs t w = (w', Returns t') -> insert_all objs t = Returns t'.
Proof.
  induction objs as [| obj rest IH]; intros t w w' t' H; simpl in H |- *.
  - step_monad. congruence.
  - apply bind_inv in H. destruct H as [(w1 & [] & He & H) | (x & He & Hx)];
      [| discriminate].
    apply bind_inv in H. destruct H as [(w2 & t2 & Hl & H) | (x & Hl & Hx)];
      [| discriminate].
    unfold lift in Hl. injection Hl as <- Hi. rewrite Hi. eapply IH; eassumption.
Qed.

(** What a flush raises is a lost connection or what an [insert] raises. *)
Lemma flush_raises objs : forall t w w' x,
  flush objs t w = (w', Raises x) ->
  x = OperationalError \/ insert_all objs t = Raises x.
Proof.
  induction objs as [| obj rest IH]; intros t w w' x H; simpl in H |- *.
  - step_monad. discriminate.
  - apply bind_inv in H. destruct H as [(w1 & [] & He & H) | (y & He & Hy)].
    + apply bind_inv in H. destruct H as [(w2 & t2 & Hl & H) | (y & Hl & Hy)].
      * unfold lift in Hl. injection Hl as <- Hi. rewrite Hi. eapply IH; eassumption.
      * unfold lift in Hl. injection Hl as <- Hi. rewrite Hi. right. congruence.
    + left. injection Hy as ->.
      unfold execute in He. destruct (link w) as [| [] l]; congruence.
Qed.

(** [session.commit()] is all or nothing. *)
Lemma session_commit_inv w w' (o : outcome unit) :
  session_commit w = (w', o) ->
  log w' = log w /\ (healthy w -> healthy w') /\
  ((exists t, o = Returns tt /\
      insert_all (session_new w) (weather_data w, weather_statistics w) = Returns t /\
      weather_data w' = fst t /\ weather_statistics w' = snd t /\
      session_new w' = []) \/
   (exists x, o = Raises x /\
      (x = OperationalError \/
       insert_all (session_new w) (weather_data w, weather_statistics w) = Raises x) /\
      weather_data w' = weather_data w /\
      weather_statistics w' = weather_statistics w /\
      session_new w' = session_new w)).
Proof.
  unfold session_commit. intro H.
  apply bind_inv in H. destruct H as [(w0 & wv & Hg & H) | (x & Hg & _)];
    [| unfold get in Hg; discriminate].
  unfold get in Hg. injection Hg as <- <-.
  apply bind_inv in H. destruct H as [(w1 & t & Hf & H) | (x & Hf & Hx)].
  - destruct (flush_inv _ _ _ _ _ Hf) as (F1 & F2 & F3 & F4 & F5).
    apply flush_returns in Hf.
    apply bind_inv in H. destruct H as [(w2 & [] & He & H) | (x & He & Hx)].
    + destruct (execute_inv _ _ _ He) as (E1 & E2 & E3 & E4 & E5).
      unfold modify in H. injection H as <- <-. simpl.
      split; [congruence |]. split; [intro Hh; apply E5, F5, Hh |].
      left. exists t. repeat split; auto.
    + destruct (execute_inv _ _ _ He) as (E1 & E2 & E3 & E4 & E5).
      split; [congruence |]. split; [intro Hh; apply E5, F5, Hh |].
      right. exists x. repeat split; try congruence.
      left. unfold execute in He. destruct (link w1) as [| [] l]; congruence.
  - destruct (flush_inv _ _ _ _ _ Hf) as (F1 & F2 & F3 & F4 & F5).
    apply flush_raises in Hf.
    split; [congruence |]. split; [assumption |].
    right. exists x. repeat split; auto.
Qed.

Lemma session_commit_healthy w :
  healthy w ->
  exists w', healthy w' /\ log w' = log w /\
    match insert_all (session_new w) (weather_data w, weather_statistics w) with
    | Returns t =>
        session_commit w = (w', Returns tt) /\
        weather_data w' = fst t /\ weather_statistics w' = snd t /\
        session_new w' = []
    | Raises x =>
        session_commit w = (w', Raises x) /\
        weather_data w' = weather_data w /\
        weather_statistics w' = weather_statistics w /\
        session_new w' = session_new w
    end.
Proof.
  intro Hh.
  destruct (flush_healthy (session_new w) (weather_data w, weather_statistics w) w Hh)
    as (w1 & Hf & Hh1).
  destruct (flush_inv _ _ _ _ _ Hf) as (F1 & F2 & F3 & F4 & _).
  unfold session_commit, bind, get. rewrite Hf.
  destruct (insert_all (session_new w) (weather_data w, weather_statistics w))
    as [t | x] eqn:Hi.
  - destruct (execute_healthy w1 Hh1) as (w2 & He & Hh2 & E1 & E2 & E3 & E4).
    exists (set_session_new [] (set_tables t w2)).
    rewrite He. unfold modify. simpl.
    repeat split; auto; congruence.
  - exists w1. repeat split; auto.
Qed.

(** ** The loader *)

Lemma insert_all_one (r : WeatherData) (t : tables) :
  insert_all [NewData r] t = insert (NewData r) t.
Proof. unfold insert_all. destruct (insert (NewData r) t); reflexivity. Qed.

Lemma insert_data_returns (r : WeatherData) (t t' : tables) :
  insert (NewData r) t = Returns t' ->
  t' = (fst t ++ [r], snd t) /\ refused r (fst t) = false /\ date r <> None.
Proof.
  unfold insert, refused. destruct (date r) as [d |]; [| discriminate].
  destruct (station_date_taken (station_id r) d (fst t)); [discriminate |].
  intro H. injection H as <-. repeat split; congruence.
Qed.

Lemma insert_data_raises (r : WeatherData) (t : tables) (x : py_exception) :
  insert (NewData r) t = Raises x ->
  (x = IntegrityError /\ refused r (fst t) = true) \/
  (x <> IntegrityError /\ date r = None /\ x = null_date_error).
Proof.
  unfold insert, refused. destruct (date r) as [d |].
  - destruct (station_date_taken (station_id r) d (fst t)); [| discriminate].
    intro H. injection H as <-. left. split; reflexivity.
  - intro H. injection H as <-.
    destruct (is_IntegrityError null_date_error) eqn:E.
    + left. split; [now apply is_IntegrityError_true | reflexivity].
    + right. repeat split. now apply is_IntegrityError_false.
Qed.

Lemma insert_data_refused (r : WeatherData) (t : tables) :
  refused r (fst t) = true -> insert (NewData r) t = Raises IntegrityError.
Proof.
  unfold insert, refused. destruct (date r) as [d |]; intro H.
  - now rewrite H.
  - apply is_IntegrityError_true in H. now rewrite H.
Qed.

(** The three ways one pass of the loop over the rows can end. *)
Lemma load_record_inv (r : WeatherData) (c : nat * nat) w w' o :
  session_new w = [] ->
  load_record r c w = (w', o) ->
  weather_statistics w' = weather_statistics w /\
  log w' = log w /\
  (healthy w -> healthy w') /\
  ((o = Returns (S (fst c), snd c) /\
    weather_data w' = weather_data w ++ [r] /\ session_new w' = [] /\
    refused r (weather_data w) = false /\ date r <> None) \/
   (o = Returns (fst c, S (snd c)) /\
    weather_data w' = weather_data w /\ session_new w' = [] /\
    refused r (weather_data w) = true) \/
   (exists x, o = Raises x /\ x <> IntegrityError /\
    weather_data w' = weather_data w /\
    (x = OperationalError \/ (date r = None /\ x = null_date_error)))).
Proof.
  intros Hn H. unfold load_record, try_except in H.
  set (wa := set_session_new (session_new w ++ [NewData r]) w) in *.
  assert (Ha : session_add (NewData r) w = (wa, Returns tt)) by reflexivity.
  assert (Hna : session_new wa = [NewData r]) by (subst wa; simpl; now rewrite Hn).
  rewrite (bind_returns _ _ _ _ _ Ha) in H.
  destruct (session_commit wa) as [wb ob] eqn:Hc.
  destruct (session_commit_inv _ _ _ Hc) as (L & Hh & Hcases).
  rewrite Hna, insert_all_one in Hcases.
  destruct Hcases as [(t & -> & Hi & T1 & T2 & T3) | (x & -> & Hx & T1 & T2 & T3)].
  - rewrite (bind_returns _ _ _ _ _ Hc) in H. unfold ret in H.
    injection H as <- <-.
    apply insert_data_returns in Hi. destruct Hi as (-> & Hr & Hd). simpl in *.
    repeat split; auto. left. repeat split; auto.
  - rewrite (bind_raises _ _ _ _ _ Hc) in H.
    destruct (is_IntegrityError x) eqn:Ex.
    + apply is_IntegrityError_true in Ex. subst x.
      step_monad. injection H as <- <-. simpl.
      repeat split; auto. right. left.
      destruct Hx as [Hx | Hx]; [discriminate |].
      apply insert_data_raises in Hx. simpl in Hx.
      destruct Hx as [[_ Hr] | [Hne _]]; [| congruence].
      repeat split; auto.
    + apply is_IntegrityError_false in Ex. injection H as <- <-.
      repeat split; auto. right. right. exists x. repeat split; auto.
      destruct Hx as [Hx | Hx]; [now left |].
      apply insert_data_raises in Hx.
      destruct Hx as [[Hx _] | (_ & Hd & Hx)]; [congruence | now right].
Qed.

(** With a working connection the pass is decided by the tables alone. *)
Lemma load_record_healthy (r : WeatherData) (c : nat * nat) w :
  session_new w = [] ->
  healthy w ->
  exists w', healthy w' /\ log w' = log w /\
    weather_statistics w' = weather_statistics w /\
    match insert (NewData r) (weather_data w, weather_statistics w) with
    | Returns _ =>
        load_record r c w = (w', Returns (S (fst c), snd c)) /\
        weather_data w' = weather_data w ++ [r] /\ session_new w' = []
    | Raises x =>
        if is_IntegrityError x
        then load_record r c w = (w', Returns (fst c, S (snd c))) /\
             weather_data w' = weather_data w /\ session_new w' = []
        else load_record r c w = (w', Raises x) /\
             weather_data w' = weather_data w
    end.
Proof.
  intros Hn Hh. unfold load_record, try_except.
  set (wa := set_session_new (session_new w ++ [NewData r]) w) in *.
  assert (Ha : session_add (NewData r) w = (wa, Returns tt)) by reflexivity.
  assert (Hna : session_new wa = [NewData r]) by (subst wa; simpl; now rewrite Hn).
  rewrite (bind_returns _ _ _ _ _ Ha).
  destruct (session_commit_healthy wa Hh) as (wb & Hhb & L & Hc).
  rewrite Hna, insert_all_one in Hc.
  change (weather_data wa) with (weather_data w) in Hc.
  change (weather_statistics wa) with (weather_statistics w) in Hc.
  destruct (insert (NewData r) (weather_data w, weather_statistics w)) as [t | x] eqn:Hi.
  - destruct Hc as (Hc & T1 & T2 & T3).
    apply insert_data_returns in Hi. destruct Hi as (-> & _). simpl in *.
    exists wb. rewrite (bind_returns _ _ _ _ _ Hc). repeat split; auto.
  - destruct Hc as (Hc & T1 & T2 & T3).
    rewrite (bind_raises _ _ _ _ _ Hc).
    destruct (is_IntegrityError x).
    + exists (set_session_new [] wb). step_monad. simpl. repeat split; auto.
    + exists wb. repeat split; auto.
Qed.

Lemma refused_app (r : WeatherData) (table more : list WeatherData) :
  refused r table = true -> refused r (table ++ more) = true.
Proof.
  unfold refused, station_date_taken. destruct (date r); [| auto].
  rewrite existsb_app. intros ->. reflexivity.
Qed.

Lemma refused_self (r : WeatherData) (table : list WeatherData) :
  date r <> None -> refused r (table ++ [r]) = true.
Proof.
  unfold refused, station_date_taken. destruct (date r) as [d |] eqn:Hd; [| congruence].
  intros _. rewrite existsb_app. simpl. unfold same_station_date. rewrite Hd.
  rewrite String.eqb_refl. unfold Timestamp_eqb. rewrite !Z.eqb_refl.
  simpl. apply orb_true_r.
Qed.

(** A loop over the rows that runs to its end has counted every row once,
    has only added rows, and leaves every row of the file refused. *)
Lemma ingest_rows_returns (data : list Row) : forall c w w' c',
  session_new w = [] ->
  ingest_rows data c w = (w', Returns c') ->
  session_new w' = [] /\
  (fst c' + snd c' = fst c + snd c + List.length data)%nat /\
  (exists added, weather_data w' = weather_data w ++ added /\
                 List.length added = (fst c' - fst c)%nat /\ (fst c <= fst c')%nat) /\
  weather_statistics w' = weather_statistics w /\
  log w' = log w /\
  (healthy w -> healthy w') /\
  Forall (fun row => refused (new_record row) (weather_data w') = true) data.
Proof.
  induction data as [| row rest IH]; intros c w w' c' Hn H; simpl in H.
  - step_monad. injection H as <- <-. repeat split; auto; try lia.
    exists []. rewrite app_nil_r. simpl. repeat split; lia.
  - apply bind_inv in H. destruct H as [(w1 & c1 & Hl & H) | (x & _ & Hx)];
      [| discriminate].
    destruct (load_record_inv _ _ _ _ _ Hn Hl) as (S1 & L1 & Hh1 & Hcases).
    assert (Hn1 : session_new w1 = []).
    { destruct Hcases as [(_ & _ & ? & _) | [(_ & _ & ? & _) | (x & ? & _)]];
        [assumption | assumption | discriminate]. }
    destruct (IH _ _ _ _ Hn1 H) as (N2 & Hcount & (added & Hadd & Hlen & Hle) & S2 & L2 & Hh2 & Hall).
    destruct Hcases as [(Ho & D1 & _ & _ & Hd) | [(Ho & D1 & _ & Hr) | (x & Ho & _)]];
      [| | discriminate]; injection Ho as ->; simpl in *.
    + repeat split; auto; try lia; try congruence.
      * exists (new_record row :: added). rewrite Hadd, D1, <- app_assoc. simpl.
        repeat split; lia.
      * constructor; [| assumption].
        rewrite Hadd, D1. apply refused_app, refused_self, Hd.
    + repeat split; auto; try lia; try congruence.
      * exists added. rewrite Hadd, D1. repeat split; lia.
      * constructor; [| assumption].
        rewrite Hadd, D1. apply refused_app, Hr.
Qed.

(** Over rows that the store refuses, a loop with a working connection
    counts every row as a duplicate and changes no table. *)
Lemma ingest_rows_refused (data : list Row) : forall c w,
  session_new w = [] ->
  healthy w ->
  Forall (fun row => refused (new_record row) (weather_data w) = true) data ->
  exists w', ingest_rows data c w = (w', Returns (fst c, (snd c + List.length data)%nat)) /\
    weather_data w' = weather_data w /\
    weather_statistics w' = weather_statistics w /\
    session_new w' = [] /\ healthy w' /\ log w' = log w.
Proof.
  induction data as [| row rest IH]; intros c w Hn Hh Hall; simpl.
  - exists w. unfold ret. rewrite Nat.add_0_r, <- surjective_pairing. repeat split; auto.
  - inversion Hall as [| ? ? Hr Hrest]; subst.
    destruct (load_record_healthy (new_record row) c w Hn Hh) as (w1 & Hh1 & L1 & S1 & Hl).
    rewrite (insert_data_refused _ (weather_data w, weather_statistics w) Hr) in Hl.
    simpl in Hl. destruct Hl as (Hl & D1 & N1).
    rewrite (bind_returns _ _ _ _ _ Hl).
    rewrite <- D1 in Hrest.
    destruct (IH (fst c, S (snd c)) w1 N1 Hh1 Hrest) as (w2 & Hi & D2 & S2 & N2 & Hh2 & L2).
    exists w2. simpl in Hi. rewrite Hi.
    rewrite <- plus_n_Sm.
    split; [reflexivity |]. repeat split; auto; congruence.
Qed.

(** However a loop over the rows ends, it has only added rows to
    [weather_data], and has left the statistics and the log alone. *)
Lemma ingest_rows_inv (data : list Row) : forall c w w' o,
  session_new w = [] ->
  ingest_rows data c w = (w', o) ->
  (exists added, weather_data w' = weather_data w ++ added) /\
  weather_statistics w' = weather_statistics w /\
  log w' = log w.
Proof.
  induction data as [| row rest IH]; intros c w w' o Hn H; simpl in H.
  - step_monad. injection H as <- <-. repeat split; auto.
    exists []. now rewrite app_nil_r.
  - apply bind_inv in H. destruct H as [(w1 & c1 & Hl & H) | (x & Hl & Hx)].
    + destruct (load_record_inv _ _ _ _ _ Hn Hl) as (S1 & L1 & _ & Hcases).
      assert (Hw1 : session_new w1 = [] /\ exists a, weather_data w1 = weather_data w ++ a).
      { destruct Hcases as [(_ & D & ? & _) | [(_ & D & ? & _) | (x & ? & _)]];
          [ | | discriminate]; split; auto.
        - now exists [new_record row].
        - exists []. now rewrite app_nil_r. }
      destruct Hw1 as (Hn1 & a & Da).
      destruct (IH _ _ _ _ Hn1 H) as ((added & Hadd) & S2 & L2).
      repeat split; try congruence.
      exists (a ++ added). rewrite Hadd, Da. now rewrite app_assoc.
    + destruct (load_record_inv _ _ _ _ _ Hn Hl) as (S1 & L1 & _ & Hcases).
      repeat split; auto.
      destruct Hcases as [(_ & D & _) | [(_ & D & _) | (y & _ & _ & D & _)]].
      * now exists [new_record row].
      * exists []. now rewrite app_nil_r.
      * exists []. now rewrite app_nil_r.
Qed.

(** The loop over the rows, split at any row: every row is handed to the
    loader, whatever its date, once the rows before it are through. *)
Lemma ingest_rows_app (pre post : list Row) : forall c w,
  ingest_rows (pre ++ post) c w =
  bind (ingest_rows pre c) (fun c' => ingest_rows post c') w.
Proof.
  induction pre as [| row rest IH]; intros c w; simpl.
  - reflexivity.
  - destruct (load_record (new_record row) c w) as [w1 [c1 | x]] eqn:Hl;
      unfold bind; rewrite Hl.
    + rewrite IH. reflexivity.
    + reflexivity.
Qed.

(** ** One file, and the files of a run *)

Lemma logger_info_eq (m : log_message) w :
  logger_info m w = (add_log m w, Returns tt).
Proof. reflexivity. Qed.

(** A file that is ingested to its end. *)
Lemma ingest_file_returns (f : source_file) w w' c :
  ingest_file f w = (w', Returns c) ->
  exists data w1,
    parse_weather_data f = Returns data /\
    ingest_rows data (0%nat, 0%nat) (add_log (StartingFile (basename (file_path f))) w)
      = (w1, Returns c) /\
    w' = add_log (InsertedFromFile (basename (file_path f)) (fst c)) (add_log FinishedFile w1).
Proof.
  unfold ingest_file. rewrite (bind_returns _ _ _ _ _ (logger_info_eq _ w)).
  intro H. apply bind_inv in H. destruct H as [(w0 & data & Hp & H) | (x & _ & Hx)];
    [| discriminate].
  unfold lift in Hp. injection Hp as <- Hp.
  apply bind_inv in H. destruct H as [(w1 & c1 & Hi & H) | (x & _ & Hx)];
    [| discriminate].
  rewrite (bind_returns _ _ _ _ _ (logger_info_eq _ w1)) in H.
  rewrite (bind_returns _ _ _ _ _ (logger_info_eq _ _)) in H.
  unfold ret in H. injection H as <- <-.
  exists data, w1. repeat split; assumption.
Qed.

(** A file whose ingestion raises: nothing is logged after its start. *)
Lemma ingest_file_raises (f : source_file) w w' x :
  session_new w = [] ->
  ingest_file f w = (w', Raises x) ->
  log w' = log w ++ [StartingFile (basename (file_path f))] /\
  weather_statistics w' = weather_statistics w /\
  (exists added, weather_data w' = weather_data w ++ added) /\
  (parse_weather_data f = Raises x \/
   exists data, parse_weather_data f = Returns data /\
     ingest_rows data (0%nat, 0%nat) (add_log (StartingFile (basename (file_path f))) w)
       = (w', Raises x)).
Proof.
  intro Hn.
  unfold ingest_file. rewrite (bind_returns _ _ _ _ _ (logger_info_eq _ w)).
  intro H. apply bind_inv in H. destruct H as [(w0 & data & Hp & H) | (y & Hp & Hy)].
  - unfold lift in Hp. injection Hp as <- Hp.
    apply bind_inv in H. destruct H as [(w1 & c1 & Hi & H) | (y & Hi & Hy)].
    + rewrite (bind_returns _ _ _ _ _ (logger_info_eq _ w1)) in H.
      rewrite (bind_returns _ _ _ _ _ (logger_info_eq _ _)) in H.
      unfold ret in H. discriminate.
    + injection Hy as ->.
      assert (Hna : session_new (add_log (StartingFile (basename (file_path f))) w) = [])
        by exact Hn.
      destruct (ingest_rows_inv _ _ _ _ _ Hna Hi) as (D & S1 & L1).
      repeat split; auto. right. exists data. split; assumption.
  - unfold lift in Hp. injection Hp as <- Hp. injection Hy as ->.
    repeat split; auto. exists []. simpl. now rewrite app_nil_r.
Qed.

Lemma ingest_file_session (f : source_file) w w' c :
  session_new w = [] ->
  ingest_file f w = (w', Returns c) ->
  session_new w' = [] /\
  (healthy w -> healthy w') /\
  weather_statistics w' = weather_statistics w /\
  exists data added,
    parse_weather_data f = Returns data /\
    (fst c + snd c = List.length data)%nat /\
    weather_data w' = weather_data w ++ added /\
    List.length added = fst c /\
    Forall (fun row => refused (new_record row) (weather_data w') = true) data.
Proof.
  intros Hn H. apply ingest_file_returns in H.
  destruct H as (data & w1 & Hp & Hi & ->).
  apply ingest_rows_returns in Hi; [| exact Hn].
  destruct Hi as (N1 & Hc & (added & Hadd & Hlen & _) & S1 & _ & Hh & Hall).
  simpl in *. repeat split; auto.
  exists data, added. repeat split; auto; lia.
Qed.

Lemma ingest_files_cons (f : source_file) (rest : list source_file) (t : nat * nat) w :
  ingest_files (f :: rest) t w =
  match ingest_file f w with
  | (w1, Returns c) =>
      ingest_files rest ((fst t + fst c)%nat, (snd t + snd c)%nat) w1
  | (w1, Raises x) => (w1, Raises x)
  end.
Proof. reflexivity. Qed.

(** The run totals of a loop over the files that runs to its end. *)
Lemma ingest_files_returns (files : list source_file) : forall t w w' t',
  session_new w = [] ->
  ingest_files files t w = (w', Returns t') ->
  session_new w' = [] /\
  List.length (file_counts files w) = List.length files /\
  Forall2 (fun f c => exists data, parse_weather_data f = Returns data /\
                        (fst c + snd c = List.length data)%nat)
          files (file_counts files w) /\
  fst t' = (fst t + sum_nat (map fst (file_counts files w)))%nat /\
  snd t' = (snd t + sum_nat (map snd (file_counts files w)))%nat.
Proof.
  induction files as [| f rest IH]; intros t w w' t' Hn H.
  - simpl in H. unfold ret in H. injection H as <- <-. simpl.
    repeat split; auto.
  - rewrite ingest_files_cons in H. simpl file_counts.
    destruct (ingest_file f w) as [w1 [c | x]] eqn:Hf; [| discriminate].
    destruct (ingest_file_session _ _ _ _ Hn Hf)
      as (N1 & _ & _ & data & added & Hp & Hc & _).
    destruct (IH _ _ _ _ N1 H) as (N2 & Hlen & Hall & Hfst & Hsnd).
    simpl in *. repeat split; auto; try lia.
    constructor; [| assumption]. exists data. split; assumption.
Qed.

(** An exception raised by the loader in the middle of a file leaves the
    loop over the rows, the loop over the files and [ingest_data]. *)
Lemma ingest_rows_abort (pre post : list Row) (row : Row) c0 w0 c w w' x :
  ingest_rows pre c0 w0 = (w, Returns c) ->
  load_record (new_record row) c w = (w', Raises x) ->
  ingest_rows (pre ++ row :: post) c0 w0 = (w', Raises x).
Proof.
  intros Hpre Hl. rewrite ingest_rows_app, (bind_returns _ _ _ _ _ Hpre).
  simpl. now rewrite (bind_raises _ _ _ _ _ Hl).
Qed.

Lemma ingest_files_app (pre post : list source_file) : forall t w,
  ingest_files (pre ++ post) t w =
  bind (ingest_files pre t) (fun t' => ingest_files post t') w.
Proof.
  induction pre as [| f rest IH]; intros t w.
  - reflexivity.
  - simpl app. rewrite ingest_files_cons. simpl ingest_files. unfold bind.
    destruct (ingest_file f w) as [w1 [c | x]].
    + rewrite IH. reflexivity.
    + reflexivity.
Qed.

Lemma ingest_files_abort (pre post : list source_file) (f : source_file) t0 w0 t w w' x :
  ingest_files pre t0 w0 = (w, Returns t) ->
  ingest_file f w = (w', Raises x) ->
  ingest_files (pre ++ f :: post) t0 w0 = (w', Raises x).
Proof.
  intros Hpre Hf. rewrite ingest_files_app, (bind_returns _ _ _ _ _ Hpre).
  rewrite ingest_files_cons. now rewrite Hf.
Qed.

Lemma ingest_data_eq (files : list source_file) w :
  ingest_data files w =
  match ingest_files files (0%nat, 0%nat) (run_start w) with
  | (w1, Returns totals) =>
      (add_log (TotalIngested (fst totals))
         (add_log FinishedIngestion
            (add_log (TotalDuplicates (snd totals)) w1)), Returns totals)
  | (w1, Raises x) => (w1, Raises x)
  end.
Proof.
  unfold ingest_data. step_monad. simpl. unfold run_start.
  destruct (ingest_files files (0%nat, 0%nat) _) as [w1 [totals | x]]; reflexivity.
Qed.

Lemma ingest_file_parse_raises (f : source_file) (x : py_exception) w :
  parse_weather_data f = Raises x ->
  ingest_file f w = (add_log (StartingFile (basename (file_path f))) w, Raises x).
Proof.
  intro Hp. unfold ingest_file.
  rewrite (bind_returns _ _ _ _ _ (logger_info_eq _ w)).
  unfold bind, lift. now rewrite Hp.
Qed.

Lemma ingest_file_rows_raise (f : source_file) (data : list Row) (x : py_exception) w w' :
  parse_weather_data f = Returns data ->
  ingest_rows data (0%nat, 0%nat) (add_log (StartingFile (basename (file_path f))) w)
    = (w', Raises x) ->
  ingest_file f w = (w', Raises x).
Proof.
  intros Hp Hi. unfold ingest_file.
  rewrite (bind_returns _ _ _ _ _ (logger_info_eq _ w)).
  unfold bind at 1, lift. rewrite Hp.
  now rewrite (bind_raises _ _ _ _ _ Hi).
Qed.

Lemma ingest_file_rows_return (f : source_file) (data : list Row) c w w1 :
  parse_weather_data f = Returns data ->
  ingest_rows data (0%nat, 0%nat) (add_log (StartingFile (basename (file_path f))) w)
    = (w1, Returns c) ->
  ingest_file f w =
  (add_log (InsertedFromFile (basename (file_path f)) (fst c)) (add_log FinishedFile w1),
   Returns c).
Proof.
  intros Hp Hi. unfold ingest_file.
  rewrite (bind_returns _ _ _ _ _ (logger_info_eq _ w)).
  unfold bind at 1, lift. rewrite Hp.
  rewrite (bind_returns _ _ _ _ _ Hi). reflexivity.
Qed.

(** ** Properties of the parser *)

Lemma binary_round_aux_opp (s : bool) (m e : Z) (l : location) :
  binary_round_aux prec emax (negb s) m e l
  = SFopp (binary_round_aux prec emax s m e l).
Proof.
  unfold binary_round_aux.
  destruct (shr_fexp prec emax m e l) as [mrs' e'].
  destruct (shr_fexp prec emax _ e' loc_Exact) as [mrs'' e''].
  destruct (shr_m mrs''); try reflexivity.
  destruct (e'' <=? emax - prec); reflexivity.
Qed.

(** Rounding an integer to a double commutes with the change of sign. *)
Lemma binary_normalize_opp (z : Z) :
  z <> 0 ->
  binary_normalize prec emax (- z) 0 false
  = SFopp (binary_normalize prec emax z 0 false).
Proof.
  destruct z as [| p | p]; intros Hz; [congruence | |];
    cbn [Z.opp binary_normalize]; unfold binary_round;
    destruct (shl_align p 0 _) as [mz ez].
  - apply (binary_round_aux_opp false).
  - apply (binary_round_aux_opp true).
Qed.

(** On an [int64], [float_of_Z] is the rounding to the nearest double of the
    IEEE specification. *)
Lemma float_of_Z_spec (z : Z) :
  int64 z -> Prim2SF (float_of_Z z) = binary_normalize prec emax z 0 false.
Proof.
  unfold int64. intros Hz. unfold float_of_Z.
  assert (Hpos : forall n, 0 <= n < 2 ^ 63 ->
            binary_normalize prec emax n 0 false
            = Prim2SF (of_uint63 (Uint63.of_Z n))).
  { intros n Hn. rewrite of_uint63_spec. f_equal. rewrite Uint63.of_Z_spec.
    symmetry. apply Z.mod_small.
    unfold wB, size. change (2 ^ Z.of_nat 63) with (2 ^ 63). lia. }
  destruct (Z_lt_le_dec z 0) as [Hneg | Hnn].
  - destruct (Z.eq_dec z (- 2 ^ 63)) as [-> | Hne].
    + vm_compute. reflexivity.
    + replace z with (- (- z)) by lia.
      rewrite binary_normalize_opp by lia.
      rewrite (Hpos (- z)) by lia.
      rewrite <- FloatAxioms.opp_spec, SF2Prim_Prim2SF. reflexivity.
  - rewrite (Hpos z) by lia. rewrite SF2Prim_Prim2SF. reflexivity.
Qed.

Lemma scale_replace_sentinel (raw : Z) :
  int64 raw -> cleaned_as_specified raw (scale (replace_sentinel raw)).
Proof.
  intro Hraw. unfold cleaned_as_specified, replace_sentinel. split; intro H.
  - subst raw. reflexivity.
  - apply Z.eqb_neq in H. rewrite H. cbn [scale].
    eexists. split; [reflexivity |].
    rewrite FloatAxioms.div_spec, (float_of_Z_spec raw Hraw). reflexivity.
Qed.




(** C3. In the data frame of a file, each of the three numeric fields of the
    row made from a line is cleaned on its own.  For a raw value that
    [read_csv] holds as an [int64]: the sentinel -9999 gives a null; any other
    raw value gives the double that the IEEE division of the raw value by
    10.0 gives.  The record built from the row carries the three values on
    unchanged. *)
Theorem parse_cleans_each_field (f : source_file) (frame : list raw_line)
    (i : nat) (l : raw_line) :
  read_csv f = Returns frame ->
  nth_error frame i = Some l ->
  int64 (raw_max_temp l) ->
  int64 (raw_min_temp l) ->
  int64 (raw_precipitation l) ->
  exists data row,
    parse_weather_data f = Returns data /\
    nth_error data i = Some row /\
    cleaned_as_specified (raw_max_temp l) (row_max_temp row) /\
    cleaned_as_specified (raw_min_temp l) (row_min_temp row) /\
    cleaned_as_specified (raw_precipitation l) (row_precipitation row) /\
    max_temp (new_record row) = row_max_temp row /\
    min_temp (new_record row) = row_min_temp row /\
    precipitation (new_record row) = row_precipitation row.
Proof.
  intros Hr Hl Hmax Hmin Hp. unfold parse_weather_data. rewrite Hr.
  exists (map (clean_line (station_id_of_path (file_path f))) frame),
         (clean_line (station_id_of_path (file_path f)) l).
  split; [reflexivity |]. split; [now apply map_nth_error |].
  cbn [clean_line row_max_temp row_min_temp row_precipitation new_record
       max_temp min_temp precipitation].
  split; [now apply scale_replace_sentinel |].
  split; [now apply scale_replace_sentinel |].
  split; [now apply scale_replace_sentinel |].
  repeat split.
Qed.


(** ** Properties of the ingestion run *)

(** C9. In a run of [ingest_data] that reaches its end, every file has been
    parsed, its ingested and duplicate counts add up to the number of records
    parsed from it, and the two run totals are the sums of the counts of the
    files. *)
Theorem counters_are_conserved (files : list source_file) (w w' : World)
    (totals : nat * nat) :
  ingest_data files w = (w', Returns totals) ->
  let counts := file_counts files (run_start w) in
  List.length counts = List.length files /\
  Forall2 (fun f c => exists data, parse_weather_data f = Returns data /\
                        (fst c + snd c = List.length data)%nat /\
                        List.length data = parsed_count f)
          files counts /\
  fst totals = sum_nat (map fst counts) /\
  snd totals = sum_nat (map snd counts).
Proof.
  rewrite ingest_data_eq.
  destruct (ingest_files files (0%nat, 0%nat) (run_start w)) as [w1 [t | x]] eqn:Hf;
    [| discriminate].
  intro H. injection H as _ <-.
  apply ingest_files_returns in Hf; [| reflexivity].
  destruct Hf as (_ & Hlen & Hall & Hfst & Hsnd). simpl in *.
  repeat split; auto.
  eapply Forall2_impl; [| exact Hall].
  intros f c (data & Hp & Hc). exists data. repeat split; auto.
  unfold parsed_count. now rewrite Hp.
Qed.

(** C1 (amended). After a file has been ingested to its end, ingesting it
    again over the same observation rows, with a working connection, adds no
    row and changes none; it ingests nothing and counts every record parsed
    from the file as a duplicate: the second duplicate count is the first
    run's ingested count plus the first run's duplicate count. *)
Theorem reingestion_adds_nothing (f : source_file) (w0 w1 w1' : World)
    (c1 : nat * nat) :
  session_new w0 = [] ->
  ingest_file f w0 = (w1, Returns c1) ->
  weather_data w1' = weather_data w1 ->
  session_new w1' = [] ->
  healthy w1' ->
  (exists added, weather_data w1 = weather_data w0 ++ added /\
                 List.length added = fst c1) /\
  exists w2,
    ingest_file f w1' = (w2, Returns (0%nat, (fst c1 + snd c1)%nat)) /\
    weather_data w2 = weather_data w1 /\
    (fst c1 + snd c1)%nat = parsed_count f.
Proof.
  intros Hn0 H1 Hd Hn1 Hh.
  destruct (ingest_file_session _ _ _ _ Hn0 H1)
    as (_ & _ & _ & data & added & Hp & Hc & Hadd & Hlen & Hall).
  split; [now exists added |].
  rewrite <- Hd in Hall.
  destruct (ingest_rows_refused data (0%nat, 0%nat)
              (add_log (StartingFile (basename (file_path f))) w1') Hn1 Hh Hall)
    as (w2 & Hi & D2 & _).
  rewrite (ingest_file_rows_return _ _ _ _ _ Hp Hi). simpl.
  eexists. split; [rewrite Hc; reflexivity |]. simpl in D2 |- *.
  split; [congruence |]. unfold parsed_count. now rewrite Hp.
Qed.

(** C2. The code does not do what the specification asks for a line whose
    date does not parse.  [errors='coerce'] turns the date into [NaT] and the
    row goes on to the loader, but [NaT] is not a date the store accepts:
    the commit of the record raises, and where this is not an
    [IntegrityError] (with psycopg2 it is a [DataError]) nothing catches it.
    A file whose first line has such a date, at the head of a run with a
    working connection, ends the run with that exception: no row is dropped
    and counted, no later line of the file and no later file is loaded, and
    the observations are as they were. *)
Theorem invalid_date_aborts_the_run (f : source_file) (bad : raw_line)
    (later : list raw_line) (others : list source_file) (w : World) :
  read_csv f = Returns (bad :: later) ->
  to_datetime (raw_date bad) = None ->
  null_date_error <> IntegrityError ->
  healthy w ->
  exists w',
    ingest_data (f :: others) w = (w', Raises null_date_error) /\
    weather_data w' = weather_data w /\
    log w' = log w ++ [StartingIngestion; StartingFile (basename (file_path f))].
Proof.
  intros Hr Hbad Hne Hh.
  set (station := station_id_of_path (file_path f)).
  set (r_bad := new_record (clean_line station bad)).
  assert (Hp : parse_weather_data f
               = Returns (clean_line station bad :: map (clean_line station) later)).
  { unfold parse_weather_data. now rewrite Hr. }
  assert (Hib : forall t, insert (NewData r_bad) t = Raises null_date_error).
  { intro t. unfold insert. cbn [r_bad new_record clean_line date row_date].
    now rewrite Hbad. }
  set (wa := add_log (StartingFile (basename (file_path f))) (run_start w)).
  assert (Hna : session_new wa = []) by reflexivity.
  assert (Hha : healthy wa) by exact Hh.
  destruct (load_record_healthy r_bad (0%nat, 0%nat) wa Hna Hha)
    as (w1 & _ & L1 & _ & Hl).
  rewrite Hib in Hl. apply is_IntegrityError_false in Hne. rewrite Hne in Hl.
  destruct Hl as (Hl & D1).
  assert (Hi : ingest_rows (clean_line station bad :: map (clean_line station) later)
                 (0%nat, 0%nat) wa = (w1, Raises null_date_error)).
  { cbn [ingest_rows]. fold r_bad. now rewrite (bind_raises _ _ _ _ _ Hl). }
  pose proof (ingest_file_rows_raise f _ _ (run_start w) w1 Hp Hi) as Hf.
  exists w1. rewrite ingest_data_eq, ingest_files_cons, Hf.
  split; [reflexivity |]. split; [exact D1 |].
  rewrite L1. unfold wa, run_start. cbn [log add_log set_session_new].
  now rewrite <- app_assoc.
Qed.


(** What leaves the loop over the rows is never an [IntegrityError]: those
    are all caught, record by record. *)
Lemma ingest_rows_raises (data : list Row) : forall c w w' x,
  session_new w = [] ->
  ingest_rows data c w = (w', Raises x) ->
  x <> IntegrityError.
Proof.
  induction data as [| row rest IH]; intros c w w' x Hn H; simpl in H.
  - unfold ret in H. discriminate.
  - apply bind_inv in H. destruct H as [(w1 & c1 & Hl & H) | (y & Hl & Hy)].
    + destruct (load_record_inv _ _ _ _ _ Hn Hl) as (_ & _ & _ & Hcases).
      assert (Hn1 : session_new w1 = []).
      { destruct Hcases as [(_ & _ & ? & _) | [(_ & _ & ? & _) | (y & ? & _)]];
          [assumption | assumption | discriminate]. }
      eapply IH; eassumption.
    + injection Hy as ->.
      destruct (load_record_inv _ _ _ _ _ Hn Hl) as (_ & _ & _ & Hcases).
      destruct Hcases as [(? & _) | [(? & _) | (z & Ho & Hne & _)]];
        [discriminate | discriminate |].
      injection Ho as ->. exact Hne.
Qed.

(** C5. In one pass of the loop over the rows, with nothing else added to
    the session: a record whose [(station_id, date)] is taken is rolled back
    (no table changes, nothing is left added to the session) and counted as
    a duplicate, and the pass returns; an exception of the commit other than
    [IntegrityError] leaves the pass with the tables as they were, and with
    it the loop over the rows, the loop over the files and [ingest_data];
    a lost connection is such an exception. *)
Theorem conflict_is_counted_other_failures_propagate (r : WeatherData)
    (c : nat * nat) (w : World) :
  session_new w = [] ->
  (forall d, date r = Some d ->
     station_date_taken (station_id r) d (weather_data w) = true ->
     healthy w ->
     exists w', load_record r c w = (w', Returns (fst c, S (snd c))) /\
       weather_data w' = weather_data w /\
       weather_statistics w' = weather_statistics w /\
       session_new w' = []) /\
  (forall w' x, x <> IntegrityError ->
     bind (session_add (NewData r)) (fun _ => session_commit) w = (w', Raises x) ->
     load_record r c w = (w', Raises x) /\
     weather_data w' = weather_data w /\
     forall row rows_pre rows_post f files_pre files_post w_run w_file t,
       new_record row = r ->
       parse_weather_data f = Returns (rows_pre ++ row :: rows_post) ->
       ingest_files files_pre (0%nat, 0%nat) (run_start w_run) = (w_file, Returns t) ->
       ingest_rows rows_pre (0%nat, 0%nat)
         (add_log (StartingFile (basename (file_path f))) w_file) = (w, Returns c) ->
       ingest_data (files_pre ++ f :: files_post) w_run = (w', Raises x)) /\
  (forall l, link w = true :: l ->
     exists w', load_record r c w = (w', Raises OperationalError) /\
       weather_data w' = weather_data w).
Proof.
  intro Hn. split; [| split].
  - intros d Hd Htaken Hh.
    destruct (load_record_healthy r c w Hn Hh) as (w' & _ & _ & S1 & Hl).
    unfold insert in Hl. rewrite Hd in Hl. simpl in Hl. rewrite Htaken in Hl.
    simpl in Hl. destruct Hl as (Hl & D1 & N1). exists w'. repeat split; auto.
  - intros w' x Hne Hc.
    assert (Hl : load_record r c w = (w', Raises x)).
    { unfold load_record, try_except.
      unfold bind in Hc |- *. simpl in Hc |- *.
      destruct (session_commit _) as [wb [[] | y]]; [discriminate |].
      injection Hc as <- <-. apply is_IntegrityError_false in Hne. now rewrite Hne. }
    split; [exact Hl |].
    destruct (load_record_inv _ _ _ _ _ Hn Hl) as (_ & _ & _ & Hcases).
    split.
    { destruct Hcases as [(? & _) | [(? & _) | (y & _ & _ & D & _)]];
        [discriminate | discriminate | exact D]. }
    intros row rows_pre rows_post f files_pre files_post w_run w_file t Hr Hp Hfiles Hrows.
    subst r. rewrite ingest_data_eq.
    assert (Hf : ingest_file f w_file = (w', Raises x)).
    { eapply ingest_file_rows_raise; [exact Hp |].
      eapply ingest_rows_abort; eassumption. }
    now rewrite (ingest_files_abort _ files_post _ _ _ _ _ _ _ Hfiles Hf).
  - intros l Hl.
    destruct w as [wd ws sn ln lg]. simpl in Hn, Hl. subst sn ln.
    eexists. split; reflexivity.
Qed.

(** C8 (amended). An exception that leaves the ingestion of one file leaves
    [ingest_data] too: the run ends there, and the files after it are not
    attempted (the last message logged is the start of the failing file).
    This holds for a file that cannot be parsed as for a failure of the
    store; the only exceptions a run survives are the [IntegrityError]s of
    single records, which never leave the file. *)
Theorem failure_in_a_file_aborts_the_run (pre post : list source_file)
    (f : source_file) (w0 wa w' : World) (t : nat * nat) (x : py_exception) :
  ingest_files pre (0%nat, 0%nat) (run_start w0) = (wa, Returns t) ->
  ingest_file f wa = (w', Raises x) ->
  ingest_data (pre ++ f :: post) w0 = (w', Raises x) /\
  log w' = log wa ++ [StartingFile (basename (file_path f))] /\
  (forall g, attempted g w' ->
     attempted g wa \/ basename (file_path g) = basename (file_path f)) /\
  (parse_weather_data f = Raises x \/ x <> IntegrityError) /\
  (forall y w, body f = Unreadable y ->
     ingest_file f w = (add_log (StartingFile (basename (file_path f))) w, Raises y)).
Proof.
  intros Hpre Hf.
  assert (Hn : session_new wa = []).
  { apply ingest_files_returns in Hpre; [tauto | reflexivity]. }
  destruct (ingest_file_raises _ _ _ _ Hn Hf) as (L & _ & _ & Hwhy).
  split; [| split; [exact L | split; [| split]]].
  - rewrite ingest_data_eq.
    now rewrite (ingest_files_abort _ post _ _ _ _ _ _ _ Hpre Hf).
  - intros g Hg. unfold attempted in *. rewrite L in Hg.
    apply in_app_or in Hg. destruct Hg as [Hg | [Hg | []]]; [now left | right].
    congruence.
  - destruct Hwhy as [Hp | (data & Hp & Hi)]; [now left | right].
    eapply ingest_rows_raises; [| exact Hi]. exact Hn.
  - intros y w Hb. apply ingest_file_parse_raises.
    unfold parse_weather_data, read_csv. now rewrite Hb.
Qed.

(** ** The aggregates *)

Lemma non_null_cons_some (x : float) (vs : list (option float)) :
  non_null (Some x :: vs) = x :: non_null vs.
Proof. reflexivity. Qed.

Lemma non_null_cons_none (vs : list (option float)) :
  non_null (None :: vs) = non_null vs.
Proof. reflexivity. Qed.


(** What the transition of [avg] does to the count and to the sum, when it
    does not raise; and it raises a [DataError] only. *)
Lemma float8_accum_inv (n : Z) (Sx0 Sxx0 newval : float) :
  match float8_accum (n, Sx0, Sxx0) newval with
  | Returns st => fst (fst st) = n + 1 /\ snd (fst st) = (Sx0 + newval)%float
  | Raises e => e = DataError
  end.
Proof.
  unfold float8_accum. destruct (0 <? n).
  - destruct (is_infinity (Sx0 + newval) || is_infinity _).
    + destruct (negb (is_infinity Sx0) && negb (is_infinity newval)).
      * reflexivity.
      * split; reflexivity.
    + split; reflexivity.
  - destruct (is_nan newval || is_infinity newval); split; reflexivity.
Qed.

Lemma avg_from_inv (vs : list (option float)) : forall n Sx0 Sxx0,
  match avg_from vs (n, Sx0, Sxx0) with
  | Returns st =>
      fst (fst st) = n + Z.of_nat (List.length (non_null vs)) /\
      snd (fst st) = fold_left PrimFloat.add (non_null vs) Sx0
  | Raises e => e = DataError
  end.
Proof.
  induction vs as [| [x |] vs IH]; intros n Sx0 Sxx0.
  - cbn. split; [lia | reflexivity].
  - rewrite non_null_cons_some. cbn [avg_from].
    pose proof (float8_accum_inv n Sx0 Sxx0 x) as Ha.
    destruct (float8_accum (n, Sx0, Sxx0) x) as [[[n' Sx'] Sxx'] | e];
      [| exact Ha].
    cbn [fst snd] in Ha. destruct Ha as [-> ->].
    specialize (IH (n + 1) (Sx0 + x)%float Sxx').
    destruct (avg_from vs (n + 1, (Sx0 + x)%float, Sxx')) as [st | e]; [| exact IH].
    destruct IH as [-> ->]. cbn [fold_left List.length]. split; [lia | reflexivity].
  - rewrite non_null_cons_none. cbn [avg_from]. apply IH.
Qed.


Lemma sum_from_inv (vs : list (option float)) : forall s,
  match sum_from vs (Some s) with
  | Returns a => a = Some (fold_left PrimFloat.add (non_null vs) s)
  | Raises e => e = DataError
  end.
Proof.
  induction vs as [| [x |] vs IH]; intro s.
  - reflexivity.
  - rewrite non_null_cons_some. cbn [sum_from fold_left]. unfold float8pl.
    destruct (is_infinity (s + x) && negb (is_infinity s) && negb (is_infinity x));
      [reflexivity | apply IH].
  - rewrite non_null_cons_none. cbn [sum_from]. apply IH.
Qed.


Lemma sql_avg_raises (vs : list (option float)) (e : py_exception) :
  sql_avg vs = Raises e -> e = DataError.
Proof.
  unfold sql_avg. pose proof (avg_from_inv vs 0 0%float 0%float) as Hinv.
  destruct (avg_from vs (0, 0%float, 0%float)) as [st | e']; [discriminate |].
  congruence.
Qed.

Lemma sql_sum_raises (vs : list (option float)) (e : py_exception) :
  sql_sum vs = Raises e -> e = DataError.
Proof.
  unfold sql_sum. induction vs as [| [x |] vs IH].
  - discriminate.
  - cbn [sum_from]. pose proof (sum_from_inv vs x) as Hs.
    destruct (sum_from vs (Some x)) as [a' | e']; [discriminate | congruence].
  - cbn [sum_from]. exact IH.
Qed.




(** ** The groups *)

Lemma option_Z_eqb_eq (a b : option Z) : option_Z_eqb a b = true <-> a = b.
Proof.
  destruct a as [x |], b as [y |]; simpl; split; intro H; try congruence.
  - apply Z.eqb_eq in H. now subst.
  - injection H as ->. apply Z.eqb_refl.
Qed.

Lemma key_eqb_eq (a b : group_key) : key_eqb a b = true <-> a = b.
Proof.
  unfold key_eqb. destruct a as [s1 y1], b as [s2 y2]. simpl.
  rewrite andb_true_iff, String.eqb_eq, option_Z_eqb_eq.
  split; [intros [-> ->]; reflexivity | intro H; injection H as -> ->; auto].
Qed.

Lemma distinct_In (ks : list group_key) (k : group_key) :
  In k (distinct ks) <-> In k ks.
Proof.
  induction ks as [| k0 ks IH]; simpl; [tauto |].
  rewrite filter_In, IH. cbv beta. split.
  - intros [-> | [H _]]; auto.
  - intros [-> | H]; auto.
    destruct (key_eqb k k0) eqn:E.
    + apply key_eqb_eq in E. now left.
    + right. split; [assumption | reflexivity].
Qed.

Lemma distinct_NoDup (ks : list group_key) : NoDup (distinct ks).
Proof.
  induction ks as [| k0 ks IH]; simpl; constructor.
  - rewrite filter_In. cbv beta. intros [_ H].
    assert (E : key_eqb k0 k0 = true) by now apply key_eqb_eq.
    rewrite E in H. discriminate.
  - now apply NoDup_filter.
Qed.

Lemma group_of_partition (k : group_key) (table : list WeatherData) :
  group_of k table = partition_of (fst k) (snd k) table.
Proof. reflexivity. Qed.

Lemma partition_nonempty (station : string) (y : option Z) (table : list WeatherData) :
  partition_of station y table <> [] <-> In (station, y) (map key_of table).
Proof.
  rewrite in_map_iff. split.
  - intro H. destruct (partition_of station y table) as [| r rest] eqn:E; [congruence |].
    assert (Hin : In r (partition_of station y table)) by (rewrite E; now left).
    unfold partition_of in Hin. apply filter_In in Hin. destruct Hin as [Hin Hk].
    exists r. split; [| exact Hin].
    change (key_eqb (key_of r) (station, y) = true) in Hk. now apply key_eqb_eq.
  - intros (r & Hk & Hin) E.
    assert (Hr : In r (partition_of station y table)).
    { unfold partition_of. apply filter_In. split; [exact Hin |].
      change (key_eqb (key_of r) (station, y) = true). now apply key_eqb_eq. }
    rewrite E in Hr. exact Hr.
Qed.


(** The row of a group that is computed. *)
Lemma aggregate_returns (table : list WeatherData) (k : group_key) (result : result_row) :
  aggregate table k = Returns result ->
  stat_key (new_statistic result) = k /\
  sql_avg (map max_temp (partition_of (fst k) (snd k) table))
    = Returns (res_avg_max_temp result) /\
  sql_avg (map min_temp (partition_of (fst k) (snd k) table))
    = Returns (res_avg_min_temp result) /\
  sql_sum (map precipitation (partition_of (fst k) (snd k) table))
    = Returns (res_total_precipitation result).
Proof.
  unfold aggregate. rewrite group_of_partition.
  destruct (sql_avg (map max_temp _)) as [a |]; [| discriminate].
  destruct (sql_avg (map min_temp _)) as [b |]; [| discriminate].
  destruct (sql_sum (map precipitation _)) as [c |]; [| discriminate].
  intro H. injection H as <-. cbn. destruct k. repeat split.
Qed.

Lemma aggregate_raises (table : list WeatherData) (k : group_key) (e : py_exception) :
  aggregate table k = Raises e -> e = DataError.
Proof.
  unfold aggregate.
  destruct (sql_avg (map max_temp _)) as [a | e1] eqn:E1.
  - destruct (sql_avg (map min_temp _)) as [b | e2] eqn:E2.
    + destruct (sql_sum (map precipitation _)) as [c | e3] eqn:E3; [discriminate |].
      intro H. injection H as <-. now apply sql_sum_raises in E3.
    + intro H. injection H as <-. now apply sql_avg_raises in E2.
  - intro H. injection H as <-. now apply sql_avg_raises in E1.
Qed.

Lemma aggregate_all_returns (table : list WeatherData) (ks : list group_key) :
  forall results,
  aggregate_all table ks = Returns results ->
  Forall2 (fun k result => aggregate table k = Returns result) ks results.
Proof.
  induction ks as [| k ks IH]; intros results H; cbn [aggregate_all] in H.
  - injection H as <-. constructor.
  - destruct (aggregate table k) as [result |] eqn:E; [| discriminate].
    destruct (aggregate_all table ks) as [rest |]; [| discriminate].
    injection H as <-. constructor; [exact E | now apply IH].
Qed.

Lemma aggregate_all_raises (table : list WeatherData) (ks : list group_key)
    (e : py_exception) :
  aggregate_all table ks = Raises e ->
  e = DataError /\ exists k, In k ks /\ returned (aggregate table k) = false.
Proof.
  induction ks as [| k ks IH]; cbn [aggregate_all]; [discriminate |].
  destruct (aggregate table k) as [result | e1] eqn:E.
  - destruct (aggregate_all table ks) as [rest | e2]; [discriminate |].
    intro H. injection H as <-. destruct (IH eq_refl) as (He & k' & Hin & Hk).
    split; [exact He |]. exists k'. split; [now right | exact Hk].
  - intro H. injection H as <-. split; [now apply aggregate_raises in E |].
    exists k. split; [now left | now rewrite E].
Qed.

Lemma group_order_In (table : list WeatherData) (k : group_key) :
  In k (group_order table (distinct (map key_of table))) <-> In k (map key_of table).
Proof.
  rewrite <- (distinct_In (map key_of table) k). split; apply Permutation_in.
  - apply group_order_permutes.
  - apply Permutation_sym, group_order_permutes.
Qed.

(** The query of the run returns exactly when no aggregate overflows, and
    what it raises is the [DataError] of the overflow. *)
Lemma select_yearly_in_range (table : list WeatherData) :
  aggregates_in_range table <-> exists results, select_yearly table = Returns results.
Proof.
  unfold aggregates_in_range, select_yearly. rewrite forallb_forall. split.
  - intro H.
    destruct (aggregate_all table (group_order table (distinct (map key_of table))))
      as [results | e] eqn:E; [now exists results |].
    apply aggregate_all_raises in E. destruct E as (_ & k & Hin & Hk).
    apply group_order_In in Hin. rewrite (H k Hin) in Hk. discriminate.
  - intros (results & H) k Hin. apply group_order_In in Hin.
    apply aggregate_all_returns in H.
    revert Hin. induction H as [| k' r ks rs Hk _ IH]; intros [].
    + subst k'. now rewrite Hk.
    + now apply IH.
Qed.

Lemma select_yearly_raises (table : list WeatherData) (e : py_exception) :
  select_yearly table = Raises e -> e = DataError /\ ~ aggregates_in_range table.
Proof.
  intro H. split.
  - unfold select_yearly in H. now apply aggregate_all_raises in H.
  - intro Hr. apply select_yearly_in_range in Hr. destruct Hr as (results & Hr).
    congruence.
Qed.

(** The keys of the rows of the result are the groups, in the order of the
    server. *)
Lemma stat_keys (table : list WeatherData) (results : list result_row) :
  select_yearly table = Returns results ->
  map stat_key (map new_statistic results)
  = group_order table (distinct (map key_of table)).
Proof.
  unfold select_yearly. intro H. apply aggregate_all_returns in H.
  induction H as [| k r ks rs Hk _ IH]; cbn [map]; [reflexivity |].
  rewrite IH. f_equal. now apply aggregate_returns in Hk.
Qed.

Lemma yearly_statistics_returns (table : list WeatherData) (results : list result_row) :
  select_yearly table = Returns results ->
  yearly_statistics table = map new_statistic results.
Proof. intro H. unfold yearly_statistics. now rewrite H. Qed.

(** The statistic rows computed from a table: at most one for a station and
    year, each for a partition that has observations and with the aggregates
    of that partition; and, when no aggregate overflows, one for each
    partition that has observations. *)
Lemma yearly_statistics_spec (table : list WeatherData) :
  NoDup (map stat_key (yearly_statistics table)) /\
  (forall s, In s (yearly_statistics table) ->
     partition_of (ws_station_id s) (year s) table <> [] /\
     sql_avg (map max_temp (partition_of (ws_station_id s) (year s) table))
       = Returns (avg_max_temp s) /\
     sql_avg (map min_temp (partition_of (ws_station_id s) (year s) table))
       = Returns (avg_min_temp s) /\
     sql_sum (map precipitation (partition_of (ws_station_id s) (year s) table))
       = Returns (total_precipitation s)) /\
  (aggregates_in_range table ->
   forall station y, partition_of station y table <> [] ->
     exists s, In s (yearly_statistics table) /\ stat_key s = (station, y)).
Proof.
  unfold yearly_statistics.
  destruct (select_yearly table) as [results | e] eqn:E.
  - pose proof (stat_keys table results E) as Hkeys.
    split; [| split].
    + rewrite Hkeys.
      apply (Permutation_NoDup (Permutation_sym (group_order_permutes _ _))).
      apply distinct_NoDup.
    + intros s Hs. apply in_map_iff in Hs. destruct Hs as (r & <- & Hr).
      unfold select_yearly in E. apply aggregate_all_returns in E.
      assert (Hk : exists k, In k (group_order table (distinct (map key_of table))) /\
                             aggregate table k = Returns r).
      { clear Hkeys. induction E as [| k r' ks rs Hk _ IH]; [destruct Hr |].
        destruct Hr as [-> | Hr].
        - exists k. split; [now left | exact Hk].
        - destruct (IH Hr) as (k' & Hin & Hk'). exists k'. split; [now right | exact Hk']. }
      destruct Hk as (k & Hin & Hk). apply group_order_In in Hin.
      apply aggregate_returns in Hk. destruct Hk as (Hkey & Ha & Hb & Hc).
      destruct k as [station y]. cbn [fst snd] in Ha, Hb, Hc.
      unfold stat_key in Hkey. injection Hkey as Hst Hy.
      cbn [new_statistic ws_station_id year avg_max_temp avg_min_temp
           total_precipitation] in *.
      rewrite Hst, Hy.
      split; [exact (proj2 (partition_nonempty station y table) Hin) |].
      split; [exact Ha |]. split; [exact Hb | exact Hc].
    + intros _ station y Hne. apply (proj1 (partition_nonempty _ _ _)) in Hne.
      apply group_order_In in Hne. rewrite <- Hkeys in Hne.
      apply in_map_iff in Hne. destruct Hne as (s & Hk & Hs).
      apply in_map_iff in Hs. destruct Hs as (r & <- & Hr).
      exists (new_statistic r). split; [now apply in_map | exact Hk].
  - split; [constructor | split].
    + intros s [].
    + intro Hr. apply select_yearly_raises in E. tauto.
Qed.

(** ** The aggregation run *)

Lemma add_statistics_eq (results : list result_row) : forall w,
  add_statistics results w =
  (set_session_new (session_new w ++ map (fun r => NewStat (new_statistic r)) results) w,
   Returns tt).
Proof.
  induction results as [| r rest IH]; intro w; simpl.
  - rewrite app_nil_r. destruct w; reflexivity.
  - unfold bind, session_add, modify. rewrite IH. simpl.
    rewrite <- app_assoc. reflexivity.
Qed.

Lemma insert_all_statistics (ss : list WeatherStatistics) : forall wd ws t,
  insert_all (map NewStat ss) (wd, ws) = Returns t -> t = (wd, ws ++ ss).
Proof.
  induction ss as [| s ss IH]; intros wd ws t H; simpl in H.
  - rewrite app_nil_r. congruence.
  - destruct (year s); [| discriminate]. simpl in H.
    apply IH in H. rewrite H, <- app_assoc. reflexivity.
Qed.

Lemma insert_all_statistics_valid (ss : list WeatherStatistics) : forall wd ws,
  Forall (fun s => year s <> None) ss ->
  insert_all (map NewStat ss) (wd, ws) = Returns (wd, ws ++ ss).
Proof.
  induction ss as [| s ss IH]; intros wd ws H; simpl.
  - now rewrite app_nil_r.
  - inversion H as [| ? ? Hy Hrest]; subst.
    destruct (year s); [| congruence]. simpl.
    rewrite IH by assumption. now rewrite <- app_assoc.
Qed.

Lemma yearly_statistics_years (table : list WeatherData) :
  Forall (fun r => date r <> None) table ->
  Forall (fun s => year s <> None) (yearly_statistics table).
Proof.
  intro H. apply Forall_forall. intros s Hs.
  destruct (yearly_statistics_spec table) as (_ & Hin & _).
  destruct (Hin s Hs) as (Hne & _).
  apply (proj1 (partition_nonempty _ _ _)) in Hne.
  apply in_map_iff in Hne. destruct Hne as (r & Hk & Hr).
  rewrite Forall_forall in H. specialize (H r Hr).
  unfold key_of in Hk. injection Hk as _ Hy. rewrite <- Hy.
  destruct (date r); [discriminate | congruence].
Qed.

(** The state in which [calculate_statistics] enters its [try]. *)
Lemma calculate_statistics_eq w :
  calculate_statistics w =
  let wa := set_session_new [] (add_log StartingStatistics w) in
  match execute wa with
  | (wb, Raises x) =>
      (add_log (ErrorCalculatingStatistics x) (set_session_new [] wb), Returns tt)
  | (wb, Returns _) =>
      match select_yearly (weather_data wb) with
      | Raises x =>
          (add_log (ErrorCalculatingStatistics x) (set_session_new [] wb), Returns tt)
      | Returns results =>
          let wc := set_session_new
                      (map (fun r => NewStat (new_statistic r)) results) wb in
          match session_commit wc with
          | (wd, Returns _) => (add_log FinishedStatistics wd, Returns tt)
          | (wd, Raises x) =>
              (add_log (ErrorCalculatingStatistics x) (set_session_new [] wd), Returns tt)
          end
      end
  end.
Proof.
  unfold calculate_statistics, run_query. step_monad. simpl.
  destruct (execute _) as [wb [[] | x]] eqn:He; [| reflexivity].
  destruct (select_yearly (weather_data wb)) as [results | x]; [| reflexivity].
  rewrite add_statistics_eq.
  destruct (execute_inv _ _ _ He) as (_ & _ & Hs & _). simpl in Hs. rewrite Hs. simpl.
  destruct (session_commit _) as [wd [[] | x]]; reflexivity.
Qed.

(** However a run of [calculate_statistics] goes, it returns, it leaves the
    observations alone, and it has added either all the statistic rows it
    computed or none. *)
Lemma calculate_statistics_inv w :
  exists w',
    calculate_statistics w = (w', Returns tt) /\
    weather_data w' = weather_data w /\
    session_new w' = [] /\
    (healthy w -> healthy w') /\
    ((weather_statistics w' =
        weather_statistics w ++ yearly_statistics (weather_data w) /\
      log w' = log w ++ [StartingStatistics; FinishedStatistics]) \/
     (weather_statistics w' = weather_statistics w /\
      exists x, log w' = log w ++ [StartingStatistics; ErrorCalculatingStatistics x])).
Proof.
  rewrite calculate_statistics_eq. cbv zeta.
  destruct (execute _) as [wb [[] | x]] eqn:He;
    destruct (execute_inv _ _ _ He) as (D1 & S1 & N1 & L1 & Hh1); simpl in D1, S1, N1, L1.
  - destruct (select_yearly (weather_data wb)) as [results | x] eqn:Hq.
    + rewrite D1 in Hq. pose proof (yearly_statistics_returns _ _ Hq) as Hy.
      destruct (session_commit _) as [wd [[] | x]] eqn:Hc;
        destruct (session_commit_inv _ _ _ Hc) as (L2 & Hh2 & Hcases); simpl in L2, Hcases.
      * destruct Hcases as [(t & _ & Hi & D2 & S2 & N2) | (x & Hx & _)]; [| discriminate].
        rewrite <- map_map in Hi. apply insert_all_statistics in Hi. subst t. simpl in *.
        eexists. split; [reflexivity |]. simpl. repeat split; try congruence.
        -- intro Hh. apply Hh2. apply Hh1. exact Hh.
        -- left. split.
           ++ rewrite S2, S1, Hy. reflexivity.
           ++ rewrite L2, L1, <- app_assoc. reflexivity.
      * destruct Hcases as [(t & Hx & _) | (y & Hx & _ & D2 & S2 & N2)]; [discriminate |].
        eexists. split; [reflexivity |]. simpl. repeat split; try congruence.
        -- intro Hh. apply Hh2. apply Hh1. exact Hh.
        -- right. split; [congruence |]. exists x.
           rewrite L2, L1, <- app_assoc. reflexivity.
    + eexists. split; [reflexivity |]. simpl. repeat split; try congruence.
      * intro Hh. apply Hh1. exact Hh.
      * right. split; [congruence |]. exists x. rewrite L1, <- app_assoc. reflexivity.
  - eexists. split; [reflexivity |]. simpl. repeat split; try congruence.
    + intro Hh. destruct (Hh1 Hh). discriminate.
    + right. split; [congruence |]. exists x. rewrite L1, <- app_assoc. reflexivity.
Qed.

(** With a working connection, dated observations and no aggregate that
    overflows, the run succeeds. *)
Lemma calculate_statistics_healthy w :
  healthy w ->
  Forall (fun r => date r <> None) (weather_data w) ->
  aggregates_in_range (weather_data w) ->
  exists w',
    calculate_statistics w = (w', Returns tt) /\
    healthy w' /\
    weather_data w' = weather_data w /\
    weather_statistics w' =
      weather_statistics w ++ yearly_statistics (weather_data w) /\
    log w' = log w ++ [StartingStatistics; FinishedStatistics].
Proof.
  intros Hh Hv Hr. rewrite calculate_statistics_eq. cbv zeta.
  set (wa := set_session_new [] (add_log StartingStatistics w)).
  assert (Hha : healthy wa) by exact Hh.
  destruct (execute_healthy wa Hha) as (wb & He & Hhb & D1 & S1 & N1 & L1).
  rewrite He. cbv iota.
  change (weather_data wa) with (weather_data w) in D1.
  change (weather_statistics wa) with (weather_statistics w) in S1.
  change (log wa) with (log w ++ [StartingStatistics]) in L1.
  apply select_yearly_in_range in Hr. destruct Hr as (results & Hq).
  pose proof (yearly_statistics_returns _ _ Hq) as Hy.
  rewrite D1, Hq.
  set (wc := set_session_new _ wb).
  assert (Hhc : healthy wc) by exact Hhb.
  assert (Hi : insert_all (session_new wc) (weather_data wc, weather_statistics wc)
               = Returns (weather_data w,
                          weather_statistics w ++ yearly_statistics (weather_data w))).
  { subst wc. cbn [session_new weather_data weather_statistics set_session_new].
    rewrite D1, S1, <- map_map, <- Hy.
    apply insert_all_statistics_valid, yearly_statistics_years, Hv. }
  destruct (session_commit_healthy wc Hhc) as (wd & Hhd & L2 & Hc).
  rewrite Hi in Hc. destruct Hc as (Hc & D2 & S2 & N2). rewrite Hc.
  cbn [fst snd] in D2, S2. change (log wc) with (log wb) in L2.
  eexists. split; [reflexivity |].
  cbn [weather_data weather_statistics log add_log link healthy].
  repeat split; auto.
  rewrite L2, L1, <- app_assoc. reflexivity.
Qed.

(** With a working connection, an aggregate that overflows fails the run:
    the error is logged and no statistic row is added. *)
Lemma calculate_statistics_overflow w :
  healthy w ->
  ~ aggregates_in_range (weather_data w) ->
  exists w',
    calculate_statistics w = (w', Returns tt) /\
    weather_data w' = weather_data w /\
    weather_statistics w' = weather_statistics w /\
    log w' = log w ++ [StartingStatistics; ErrorCalculatingStatistics DataError].
Proof.
  intros Hh Hr. rewrite calculate_statistics_eq. cbv zeta.
  set (wa := set_session_new [] (add_log StartingStatistics w)).
  assert (Hha : healthy wa) by exact Hh.
  destruct (execute_healthy wa Hha) as (wb & He & Hhb & D1 & S1 & N1 & L1).
  rewrite He. cbv iota.
  change (weather_data wa) with (weather_data w) in D1.
  change (weather_statistics wa) with (weather_statistics w) in S1.
  change (log wa) with (log w ++ [StartingStatistics]) in L1.
  rewrite D1.
  destruct (select_yearly (weather_data w)) as [results | x] eqn:Hq.
  - exfalso. apply Hr. apply select_yearly_in_range. now exists results.
  - apply select_yearly_raises in Hq. destruct Hq as [-> _].
    eexists. split; [reflexivity |].
    cbn [weather_data weather_statistics log add_log set_session_new].
    split; [exact D1 |]. split; [exact S1 |].
    rewrite L1, <- app_assoc. reflexivity.
Qed.


Lemma rows_for_app (station : string) (y : option Z) (a b : list WeatherStatistics) :
  rows_for station y (a ++ b) = rows_for station y a ++ rows_for station y b.
Proof. apply filter_app. Qed.

Lemma rows_for_absent (station : string) (y : option Z) (stats : list WeatherStatistics) :
  ~ In (station, y) (map stat_key stats) -> rows_for station y stats = [].
Proof.
  induction stats as [| s stats IH]; intro H; simpl; [reflexivity |].
  destruct (key_eqb (stat_key s) (station, y)) eqn:E.
  - apply key_eqb_eq in E. exfalso. apply H. simpl. now left.
  - apply IH. intro Hin. apply H. simpl. now right.
Qed.

Lemma rows_for_once (station : string) (y : option Z) (stats : list WeatherStatistics) :
  NoDup (map stat_key stats) ->
  In (station, y) (map stat_key stats) ->
  List.length (rows_for station y stats) = 1%nat.
Proof.
  induction stats as [| s stats IH]; intros Hnd Hin; simpl in *; [contradiction |].
  inversion Hnd as [| ? ? Hnotin Hnd']; subst.
  destruct (key_eqb (stat_key s) (station, y)) eqn:E.
  - apply key_eqb_eq in E. rewrite E in Hnotin.
    simpl. now rewrite (rows_for_absent _ _ _ Hnotin).
  - destruct Hin as [Hin | Hin].
    + apply key_eqb_eq in Hin. congruence.
    + now apply IH.
Qed.

(** ** Properties of the aggregation run *)


(** C6. A run of [calculate_statistics] returns in every case; it never
    changes the observations; and the statistic rows after it are either the
    rows before it followed by every row it computed, or, when anything
    failed (the error is logged), exactly the rows before it. *)
Theorem aggregation_is_all_or_nothing (w : World) :
  exists w',
    calculate_statistics w = (w', Returns tt) /\
    weather_data w' = weather_data w /\
    ((weather_statistics w' =
        weather_statistics w ++ yearly_statistics (weather_data w) /\
      log w' = log w ++ [StartingStatistics; FinishedStatistics]) \/
     (weather_statistics w' = weather_statistics w /\
      exists x, log w' = log w ++ [StartingStatistics; ErrorCalculatingStatistics x])).
Proof.
  destruct (calculate_statistics_inv w) as (w' & Hc & Hd & _ & _ & Hcases).
  exists w'. repeat split; assumption.
Qed.

(** C7. With a working connection, over dated observations that do not
    change and of which no aggregate overflows, a second run of
    [calculate_statistics] keeps the rows of the first and adds a row for
    each station and year once more: the rows that were there before the two
    runs are still there, in their places; each run adds exactly one row for
    each station and year that has observations and none for any other, the
    rows of the second run being those of the first; and after the two runs every station and year that has observations has two
    statistic rows more than before them. *)
Theorem rerun_duplicates_statistics (w : World) :
  healthy w ->
  Forall (fun r => date r <> None) (weather_data w) ->
  aggregates_in_range (weather_data w) ->
  exists w1 w2 added1 added2,
    calculate_statistics w = (w1, Returns tt) /\
    calculate_statistics w1 = (w2, Returns tt) /\
    weather_data w2 = weather_data w /\
    weather_statistics w1 = weather_statistics w ++ added1 /\
    weather_statistics w2 = weather_statistics w1 ++ added2 /\
    Permutation added1 added2 /\
    (forall station y,
       List.length (rows_for station y added1) =
         match partition_of station y (weather_data w) with [] => 0 | _ :: _ => 1 end%nat /\
       List.length (rows_for station y added2) =
         match partition_of station y (weather_data w) with [] => 0 | _ :: _ => 1 end%nat) /\
    (forall station y, partition_of station y (weather_data w) <> [] ->
       List.length (rows_for station y (weather_statistics w1)) =
         S (List.length (rows_for station y (weather_statistics w))) /\
       List.length (rows_for station y (weather_statistics w2)) =
         S (S (List.length (rows_for station y (weather_statistics w))))).
Proof.
  intros Hh Hv Hr.
  destruct (calculate_statistics_healthy w Hh Hv Hr) as (w1 & Hc1 & Hh1 & D1 & S1 & _).
  rewrite <- D1 in Hv, Hr.
  destruct (calculate_statistics_healthy w1 Hh1 Hv Hr) as (w2 & Hc2 & _ & D2 & S2 & _).
  rewrite D1 in S2, Hr.
  destruct (yearly_statistics_spec (weather_data w)) as (Hnd & Hin & Hex).
  assert (Hone : forall station y,
            List.length (rows_for station y (yearly_statistics (weather_data w))) =
            match partition_of station y (weather_data w) with [] => 0 | _ :: _ => 1 end%nat).
  { intros station y.
    destruct (partition_of station y (weather_data w)) as [| r part] eqn:Ep.
    - rewrite rows_for_absent; [reflexivity |].
      intro Hk. apply in_map_iff in Hk. destruct Hk as (s & Hk & Hs).
      destruct (Hin s Hs) as (Hne & _).
      unfold stat_key in Hk. injection Hk as Hst Hy. rewrite Hst, Hy in Hne.
      now apply Hne.
    - apply (rows_for_once station y _ Hnd).
      assert (Hne : partition_of station y (weather_data w) <> [])
        by (rewrite Ep; discriminate).
      destruct (Hex Hr station y Hne) as (s & Hs & Hk). rewrite <- Hk. now apply in_map. }
  exists w1, w2, (yearly_statistics (weather_data w)),
         (yearly_statistics (weather_data w)).
  split; [exact Hc1 |]. split; [exact Hc2 |]. split; [congruence |].
  split; [exact S1 |]. split; [exact S2 |]. split; [apply Permutation_refl |]. split.
  - intros station y. split; apply Hone.
  - intros station y Hne.
    pose proof (Hone station y) as H1.
    destruct (partition_of station y (weather_data w)); [congruence |].
    split.
    + rewrite S1, rows_for_app, length_app, H1. lia.
    + rewrite S2, S1, !rows_for_app, !length_app, H1. lia.
Qed.

(** ** The constraints of the observations table *)

Lemma Timestamp_eqb_eq (a b : Timestamp) : Timestamp_eqb a b = true <-> a = b.
Proof.
  destruct a as [y1 m1 d1], b as [y2 m2 d2]. unfold Timestamp_eqb. simpl.
  rewrite !andb_true_iff, !Z.eqb_eq. split.
  - intros [[-> ->] ->]. reflexivity.
  - intro H. injection H as -> -> ->. auto.
Qed.

Lemma same_station_date_key (s : string) (d : Timestamp) (r : WeatherData) :
  same_station_date s d r = true <-> store_key r = (s, Some d).
Proof.
  unfold same_station_date, store_key. rewrite andb_true_iff, String.eqb_eq.
  destruct (date r) as [d' |].
  - rewrite Timestamp_eqb_eq. split.
    + intros [-> ->]. reflexivity.
    + intro H. injection H as -> ->. auto.
  - split; [intros [_ H]; discriminate | intro H; discriminate].
Qed.

Lemma station_date_taken_In (s : string) (d : Timestamp) (table : list WeatherData) :
  station_date_taken s d table = true <-> In (s, Some d) (map store_key table).
Proof.
  unfold station_date_taken. rewrite existsb_exists, in_map_iff. split.
  - intros (r & Hin & H). exists r. split; [now apply same_station_date_key | exact Hin].
  - intros (r & H & Hin). exists r. split; [exact Hin | now apply same_station_date_key].
Qed.

Lemma store_ok_insert (r : WeatherData) (table : list WeatherData) :
  store_ok table ->
  refused r table = false ->
  date r <> None ->
  store_ok (table ++ [r]).
Proof.
  intros [Hd Hu] Hr Hdr. split.
  - apply Forall_app. split; [exact Hd | now constructor].
  - rewrite map_app. simpl. apply NoDup_app.
    + exact Hu.
    + constructor; [intros [] | constructor].
    + intros k Hk [<- | []]. unfold refused in Hr.
      destruct (date r) as [d |] eqn:Ed; [| congruence].
      assert (Ht : station_date_taken (station_id r) d table = true).
      { apply station_date_taken_In. unfold store_key in Hk. now rewrite Ed in Hk. }
      congruence.
Qed.

(** ** The loops, however they end *)

Lemma rows_table_refused (data : list Row) (t : list WeatherData) :
  Forall (fun row => refused (new_record row) t = true) data ->
  rows_table data t = (t, None).
Proof.
  induction data as [| row rest IH]; intro H; cbn [rows_table]; [reflexivity |].
  inversion H as [| ? ? Hr Hrest]; subst.
  rewrite (insert_data_refused _ (t, []) Hr). cbn [is_IntegrityError]. now apply IH.
Qed.

Lemma rows_table_step_refused (row : Row) (rest : list Row) (t : list WeatherData) :
  refused (new_record row) t = true ->
  rows_table (row :: rest) t = rows_table rest t.
Proof. intro Hr. cbn [rows_table]. now rewrite (insert_data_refused _ (t, []) Hr). Qed.

Lemma rows_table_step_accepted (row : Row) (rest : list Row) (t : list WeatherData) :
  refused (new_record row) t = false ->
  date (new_record row) <> None ->
  rows_table (row :: rest) t = rows_table rest (t ++ [new_record row]).
Proof.
  intros Hr Hd. cbn [rows_table]. unfold insert. unfold refused in Hr.
  destruct (date (new_record row)) as [d |]; [| congruence].
  cbn [fst]. now rewrite Hr.
Qed.

(** Whatever the outcome of a loop over the rows: the table has grown by
    records of these rows only, its constraints still hold, and going
    through the same rows again from the table it left leads where going
    through them from the table it found leads. *)
Lemma ingest_rows_any (data : list Row) : forall c w w' o,
  session_new w = [] ->
  ingest_rows data c w = (w', o) ->
  (exists added, weather_data w' = weather_data w ++ added /\
                 incl added (map new_record data)) /\
  (store_ok (weather_data w) -> store_ok (weather_data w')) /\
  rows_table data (weather_data w') = rows_table data (weather_data w).
Proof.
  induction data as [| row rest IH]; intros c w w' o Hn H; simpl in H.
  - step_monad. injection H as <- <-. split; [| split; [tauto | reflexivity]].
    exists []. rewrite app_nil_r. split; [reflexivity | intros ? []].
  - apply bind_inv in H. destruct H as [(w1 & c1 & Hl & H) | (x & Hl & Hx)].
    + destruct (load_record_inv _ _ _ _ _ Hn Hl) as (_ & _ & _ & Hcases).
      destruct Hcases as [(_ & D1 & N1 & Hr & Hd) | [(_ & D1 & N1 & Hr) | (y & Ho & _)]];
        [| | discriminate].
      * destruct (IH _ _ _ _ N1 H) as ((added & Hadd & Hincl) & Hok & Htab).
        rewrite D1 in Hadd, Hok, Htab. split; [| split].
        -- exists (new_record row :: added). rewrite Hadd, <- app_assoc. split; [reflexivity |].
           intros r [<- | Hin]; [now left | right; now apply Hincl].
        -- intro Hok0. apply Hok. now apply store_ok_insert.
        -- rewrite (rows_table_step_accepted _ _ _ Hr Hd), <- Htab.
           apply rows_table_step_refused. rewrite Hadd.
           apply refused_app, refused_self, Hd.
      * destruct (IH _ _ _ _ N1 H) as ((added & Hadd & Hincl) & Hok & Htab).
        rewrite D1 in Hadd, Hok, Htab. split; [| split].
        -- exists added. split; [exact Hadd |].
           intros r Hin. right. now apply Hincl.
        -- exact Hok.
        -- rewrite (rows_table_step_refused _ _ _ Hr), <- Htab.
           apply rows_table_step_refused. rewrite Hadd. now apply refused_app.
    + destruct (load_record_inv _ _ _ _ _ Hn Hl) as (_ & _ & _ & Hcases).
      destruct Hcases as [(Ho & _) | [(Ho & _) | (y & _ & _ & D1 & _)]];
        [discriminate | discriminate |].
      rewrite D1. split; [| split; [tauto | reflexivity]].
      exists []. rewrite app_nil_r. split; [reflexivity | intros ? []].
Qed.

(** A loop over the rows that runs to its end has reached the table that
    [rows_table] computes. *)
Lemma ingest_rows_returns_table (data : list Row) : forall c w w' c',
  session_new w = [] ->
  ingest_rows data c w = (w', Returns c') ->
  rows_table data (weather_data w) = (weather_data w', None).
Proof.
  intros c w w' c' Hn H.
  destruct (ingest_rows_any _ _ _ _ _ Hn H) as (_ & _ & <-).
  apply rows_table_refused.
  apply ingest_rows_returns in H; [| exact Hn]. tauto.
Qed.

(** With a working connection the loop over the rows ends as [rows_table]
    says. *)
Lemma ingest_rows_healthy (data : list Row) : forall c w,
  session_new w = [] ->
  healthy w ->
  exists w' o,
    ingest_rows data c w = (w', o) /\
    healthy w' /\
    weather_data w' = fst (rows_table data (weather_data w)) /\
    match snd (rows_table data (weather_data w)) with
    | None => session_new w' = [] /\ exists c', o = Returns c'
    | Some x => o = Raises x
    end.
Proof.
  induction data as [| row rest IH]; intros c w Hn Hh.
  - exists w, (Returns c). simpl. repeat split; auto. now exists c.
  - destruct (load_record_healthy (new_record row) c w Hn Hh) as (w1 & Hh1 & _ & _ & Hl).
    cbn [rows_table ingest_rows].
    assert (Hins : insert (NewData (new_record row)) (weather_data w, [])
                   = match insert (NewData (new_record row))
                             (weather_data w, weather_statistics w) with
                     | Returns t => Returns (fst t, [])
                     | Raises x => Raises x
                     end).
    { unfold insert. destruct (date (new_record row)); [| reflexivity].
      cbn [fst snd]. destruct (station_date_taken _ _ _); reflexivity. }
    rewrite Hins.
    destruct (insert (NewData (new_record row)) (weather_data w, weather_statistics w))
      as [t | x] eqn:Hi.
    + destruct Hl as (Hl & D1 & N1).
      apply insert_data_returns in Hi. destruct Hi as (-> & _). cbn [fst].
      rewrite (bind_returns _ _ _ _ _ Hl).
      destruct (IH (S (fst c), snd c) w1 N1 Hh1) as (w' & o & Hi & Hh' & D' & Ho).
      rewrite D1 in D', Ho. exists w', o. repeat split; assumption.
    + destruct (is_IntegrityError x).
      * destruct Hl as (Hl & D1 & N1).
        rewrite (bind_returns _ _ _ _ _ Hl).
        destruct (IH (fst c, S (snd c)) w1 N1 Hh1) as (w' & o & Hi' & Hh' & D' & Ho).
        rewrite D1 in D', Ho. exists w', o. repeat split; assumption.
      * destruct Hl as (Hl & D1).
        rewrite (bind_raises _ _ _ _ _ Hl).
        exists w1, (Raises x). repeat split; auto.
Qed.

Lemma file_records_In (f : source_file) (data : list Row) (r : WeatherData) :
  parse_weather_data f = Returns data ->
  In r (map new_record data) -> In r (file_records f).
Proof. intros Hp Hin. unfold file_records. now rewrite Hp. Qed.

(** The same for one file. *)
Lemma ingest_file_any (f : source_file) w w' o :
  session_new w = [] ->
  ingest_file f w = (w', o) ->
  (exists added, weather_data w' = weather_data w ++ added /\
                 incl added (file_records f)) /\
  weather_statistics w' = weather_statistics w /\
  (store_ok (weather_data w) -> store_ok (weather_data w')) /\
  (forall c, o = Returns c -> session_new w' = []) /\
  match parse_weather_data f with
  | Raises x => o = Raises x /\ weather_data w' = weather_data w
  | Returns data =>
      rows_table data (weather_data w') = rows_table data (weather_data w) /\
      (forall c, o = Returns c ->
         rows_table data (weather_data w) = (weather_data w', None) /\
         Forall (fun row => refused (new_record row) (weather_data w') = true) data)
  end.
Proof.
  intros Hn H.
  set (wa := add_log (StartingFile (basename (file_path f))) w) in *.
  assert (Hna : session_new wa = []) by exact Hn.
  destruct o as [c | x].
  - destruct (ingest_file_returns _ _ _ _ H) as (data & w1 & Hp & Hi & ->).
    fold wa in Hi. rewrite Hp.
    destruct (ingest_rows_any _ _ _ _ _ Hna Hi) as ((added & Hadd & Hincl) & Hok & Htab).
    pose proof (ingest_rows_returns_table _ _ _ _ _ Hna Hi) as Hret.
    destruct (ingest_rows_returns _ _ _ _ _ Hna Hi) as (N1 & _ & _ & S1 & _ & _ & Hall).
    cbn [weather_data weather_statistics session_new add_log] in *.
    split; [| split; [exact S1 | split; [exact Hok | split; [intros; exact N1 |]]]].
    + exists added. split; [exact Hadd |].
      intros r Hin. eapply file_records_In; [exact Hp | now apply Hincl].
    + split; [exact Htab |]. intros c0 _. split; [exact Hret | exact Hall].
  - destruct (ingest_file_raises _ _ _ _ Hn H) as (_ & S1 & _ & Hwhy).
    destruct Hwhy as [Hp | (data & Hp & Hi)].
    + rewrite (ingest_file_parse_raises _ _ w Hp) in H. injection H as <-.
      rewrite Hp. cbn [weather_data weather_statistics session_new add_log].
      split; [| split; [reflexivity | split; [tauto | split; [discriminate |]]]].
      * exists []. rewrite app_nil_r. split; [reflexivity | intros ? []].
      * split; reflexivity.
    + fold wa in Hi. rewrite Hp.
      destruct (ingest_rows_any _ _ _ _ _ Hna Hi) as ((added & Hadd & Hincl) & Hok & Htab).
      cbn [weather_data weather_statistics session_new add_log] in *.
      split; [| split; [exact S1 | split; [exact Hok | split; [discriminate |]]]].
      * exists added. split; [exact Hadd |].
        intros r Hin. eapply file_records_In; [exact Hp | now apply Hincl].
      * split; [exact Htab | discriminate].
Qed.

(** The same for the files of a run. *)
Lemma ingest_files_any (files : list source_file) : forall t w w' o,
  session_new w = [] ->
  ingest_files files t w = (w', o) ->
  (exists added, weather_data w' = weather_data w ++ added /\
                 Forall (fun r => exists f, In f files /\ In r (file_records f)) added) /\
  weather_statistics w' = weather_statistics w /\
  (store_ok (weather_data w) -> store_ok (weather_data w')) /\
  files_table files (weather_data w') = files_table files (weather_data w).
Proof.
  induction files as [| f rest IH]; intros t w w' o Hn H.
  - simpl in H. unfold ret in H. injection H as <- <-.
    split; [| split; [reflexivity | split; [tauto | reflexivity]]].
    exists []. rewrite app_nil_r. split; [reflexivity | constructor].
  - rewrite ingest_files_cons in H.
    destruct (ingest_file f w) as [w1 [c | x]] eqn:Hf.
    + destruct (ingest_file_any _ _ _ _ Hn Hf)
        as ((added1 & Hadd1 & Hincl1) & S1 & Hok1 & Hn1 & Hparse).
      specialize (Hn1 c eq_refl).
      destruct (IH _ _ _ _ Hn1 H) as ((added2 & Hadd2 & Hall2) & S2 & Hok2 & Htab2).
      split; [| split; [congruence | split; [auto |]]].
      * exists (added1 ++ added2). rewrite Hadd2, Hadd1, app_assoc. split; [reflexivity |].
        apply Forall_app. split.
        -- apply Forall_forall. intros r Hin. exists f. split; [now left | now apply Hincl1].
        -- eapply Forall_impl; [| exact Hall2].
           intros r (g & Hg & Hr). exists g. split; [now right | exact Hr].
      * cbn [files_table].
        destruct (parse_weather_data f) as [data | y]; [| destruct Hparse; discriminate].
        destruct Hparse as (_ & Hret). destruct (Hret c eq_refl) as (Hrt & Hall).
        rewrite Hrt.
        assert (Hall' : Forall (fun row => refused (new_record row) (weather_data w') = true)
                          data).
        { eapply Forall_impl; [| exact Hall]. intros row Hr. rewrite Hadd2.
          now apply refused_app. }
        rewrite (rows_table_refused _ _ Hall'). exact Htab2.
    + injection H as <- <-.
      destruct (ingest_file_any _ _ _ _ Hn Hf)
        as ((added1 & Hadd1 & Hincl1) & S1 & Hok1 & _ & Hparse).
      split; [| split; [exact S1 | split; [exact Hok1 |]]].
      * exists added1. split; [exact Hadd1 |].
        apply Forall_forall. intros r Hin. exists f. split; [now left | now apply Hincl1].
      * cbn [files_table].
        destruct (parse_weather_data f) as [data | y].
        -- destruct Hparse as (Htab & _). now rewrite Htab.
        -- destruct Hparse as (_ & ->). reflexivity.
Qed.

(** With a working connection one file, and the files of a run, end as
    [rows_table] and [files_table] say. *)
Lemma ingest_file_healthy (f : source_file) w :
  session_new w = [] ->
  healthy w ->
  exists w' o,
    ingest_file f w = (w', o) /\
    healthy w' /\
    match parse_weather_data f with
    | Raises x => o = Raises x /\ weather_data w' = weather_data w
    | Returns data =>
        weather_data w' = fst (rows_table data (weather_data w)) /\
        match snd (rows_table data (weather_data w)) with
        | None => session_new w' = [] /\ exists c, o = Returns c
        | Some x => o = Raises x
        end
    end.
Proof.
  intros Hn Hh.
  set (wa := add_log (StartingFile (basename (file_path f))) w).
  destruct (parse_weather_data f) as [data | x] eqn:Hp.
  - destruct (ingest_rows_healthy data (0%nat, 0%nat) wa Hn Hh)
      as (w1 & o & Hi & Hh1 & D1 & Ho).
    change (weather_data wa) with (weather_data w) in D1, Ho.
    destruct (snd (rows_table data (weather_data w))) as [x |].
    + subst o. exists w1, (Raises x).
      rewrite (ingest_file_rows_raise _ _ _ _ _ Hp Hi). repeat split; auto.
    + destruct Ho as (N1 & c & ->).
      rewrite (ingest_file_rows_return _ _ _ _ _ Hp Hi).
      eexists. eexists. split; [reflexivity |]. simpl. repeat split; auto. now exists c.
  - rewrite (ingest_file_parse_raises _ _ w Hp).
    eexists. eexists. split; [reflexivity |]. simpl. repeat split; auto.
Qed.

Lemma ingest_files_healthy (files : list source_file) : forall t w,
  session_new w = [] ->
  healthy w ->
  exists w' o,
    ingest_files files t w = (w', o) /\
    healthy w' /\
    weather_data w' = fst (files_table files (weather_data w)) /\
    match snd (files_table files (weather_data w)) with
    | None => exists t', o = Returns t'
    | Some x => o = Raises x
    end.
Proof.
  induction files as [| f rest IH]; intros t w Hn Hh.
  - exists w, (Returns t). simpl. repeat split; auto. now exists t.
  - rewrite ingest_files_cons. cbn [files_table].
    destruct (ingest_file_healthy f w Hn Hh) as (w1 & o1 & Hf & Hh1 & Hparse).
    rewrite Hf.
    destruct (parse_weather_data f) as [data | x].
    + destruct Hparse as (D1 & Ho).
      destruct (rows_table data (weather_data w)) as [t1 [x |]]; cbn [fst snd] in *.
      * subst o1. exists w1, (Raises x). repeat split; auto.
      * destruct Ho as (N1 & c & ->).
        destruct (IH ((fst t + fst c)%nat, (snd t + snd c)%nat) w1 N1 Hh1)
          as (w' & o & Hi & Hh' & D' & Ho').
        rewrite D1 in D', Ho'. exists w', o. repeat split; assumption.
    + destruct Hparse as (-> & D1). exists w1, (Raises x). repeat split; auto.
Qed.

Lemma ingest_data_any (files : list source_file) w w' o :
  ingest_data files w = (w', o) ->
  (exists added, weather_data w' = weather_data w ++ added /\
                 Forall (fun r => exists f, In f files /\ In r (file_records f)) added) /\
  weather_statistics w' = weather_statistics w /\
  (store_ok (weather_data w) -> store_ok (weather_data w')) /\
  files_table files (weather_data w') = files_table files (weather_data w).
Proof.
  rewrite ingest_data_eq.
  destruct (ingest_files files (0%nat, 0%nat) (run_start w)) as [w1 o1] eqn:Hf.
  assert (Hn : session_new (run_start w) = []) by reflexivity.
  pose proof (ingest_files_any _ _ _ _ _ Hn Hf) as Hany.
  change (weather_data (run_start w)) with (weather_data w) in Hany.
  change (weather_statistics (run_start w)) with (weather_statistics w) in Hany.
  destruct o1 as [totals | x]; intro H; injection H as <- <-; exact Hany.
Qed.

Lemma ingest_data_healthy (files : list source_file) w :
  healthy w ->
  exists w' o,
    ingest_data files w = (w', o) /\
    healthy w' /\
    weather_data w' = fst (files_table files (weather_data w)) /\
    match snd (files_table files (weather_data w)) with
    | None => exists totals, o = Returns totals
    | Some x => o = Raises x
    end.
Proof.
  intro Hh. rewrite ingest_data_eq.
  assert (Hn : session_new (run_start w) = []) by reflexivity.
  assert (Hh0 : healthy (run_start w)) by exact Hh.
  destruct (ingest_files_healthy files (0%nat, 0%nat) (run_start w) Hn Hh0)
    as (w1 & o1 & Hf & Hh1 & D1 & Ho).
  change (weather_data (run_start w)) with (weather_data w) in D1, Ho.
  rewrite Hf. destruct o1 as [totals | x].
  - eexists. eexists. split; [reflexivity |].
    cbn [weather_data add_log]. split; [exact Hh1 | split; [exact D1 | exact Ho]].
  - exists w1, (Raises x). split; [reflexivity |].
    split; [exact Hh1 | split; [exact D1 | exact Ho]].
Qed.

Lemma ingest_files_count (files : list source_file) : forall t w w' t',
  session_new w = [] ->
  ingest_files files t w = (w', Returns t') ->
  (List.length (weather_data w') + fst t = List.length (weather_data w) + fst t')%nat.
Proof.
  induction files as [| f rest IH]; intros t w w' t' Hn H.
  - simpl in H. unfold ret in H. injection H as <- <-. reflexivity.
  - rewrite ingest_files_cons in H.
    destruct (ingest_file f w) as [w1 [c | x]] eqn:Hf; [| discriminate].
    destruct (ingest_file_session _ _ _ _ Hn Hf)
      as (N1 & _ & _ & data & added & _ & _ & Hadd & Hlen & _).
    specialize (IH _ _ _ _ N1 H). cbn [fst] in IH.
    rewrite Hadd, length_app in IH. lia.
Qed.

Lemma stored_rows_of_one_key_are_equal (table : list WeatherData) (a b : WeatherData) :
  NoDup (map store_key table) ->
  In a table -> In b table -> store_key a = store_key b -> a = b.
Proof.
  induction table as [| r table IH]; intros Hu Ha Hb Hk; [destruct Ha |].
  cbn [map] in Hu. apply NoDup_cons_iff in Hu. destruct Hu as [Hfresh Hu].
  destruct Ha as [-> | Ha], Hb as [-> | Hb].
  - reflexivity.
  - exfalso. apply Hfresh. rewrite Hk. now apply in_map.
  - exfalso. apply Hfresh. rewrite <- Hk. now apply in_map.
  - now apply IH.
Qed.

(** ** Further properties of the ingestion run *)

(** X1. However a run of [ingest_data] ends, the observations it found are
    still there, unchanged and in their places; what it has added after them
    are records of lines of the files it was given; and the statistics are
    untouched. *)
Theorem ingest_data_only_appends_file_records (files : list source_file)
    (w w' : World) (o : outcome (nat * nat)) :
  ingest_data files w = (w', o) ->
  (exists added,
     weather_data w' = weather_data w ++ added /\
     Forall (fun r => exists f, In f files /\ In r (file_records f)) added) /\
  weather_statistics w' = weather_statistics w.
Proof.
  intro H. destruct (ingest_data_any _ _ _ _ H) as (Hadd & Hs & _).
  split; assumption.
Qed.

(** X2. A run of [ingest_data] keeps the constraints of the observations
    table, however it ends: if every row had a date and no two rows had the
    same station and date before it, so it is after it. *)
Theorem ingest_data_keeps_the_constraints (files : list source_file)
    (w w' : World) (o : outcome (nat * nat)) :
  ingest_data files w = (w', o) ->
  store_ok (weather_data w) ->
  store_ok (weather_data w').
Proof.
  intros H Hok. destruct (ingest_data_any _ _ _ _ H) as (_ & _ & Hkeep & _).
  now apply Hkeep.
Qed.

(** X3. The total that a run of [ingest_data] reports as ingested is the
    number of rows by which the observations table has grown. *)
Theorem ingested_total_is_the_growth_of_the_table (files : list source_file)
    (w w' : World) (totals : nat * nat) :
  ingest_data files w = (w', Returns totals) ->
  List.length (weather_data w') = (List.length (weather_data w) + fst totals)%nat.
Proof.
  rewrite ingest_data_eq.
  destruct (ingest_files files (0%nat, 0%nat) (run_start w)) as [w1 [t | x]] eqn:Hf;
    [| discriminate].
  intro H. injection H as <- <-.
  apply ingest_files_count in Hf; [| reflexivity].
  cbn [weather_data add_log run_start set_session_new fst] in *. lia.
Qed.

(** X4. An interrupted run can be made up for.  Let a run of [ingest_data]
    over some files end in any way, for instance by a lost connection in the
    middle of a file.  Running [ingest_data] over the same files again, with
    a working connection, from the observations the first run left, ends
    with the same observations, and with the same exception if any, as a run
    with a working connection from the observations the first run found. *)
Theorem interrupted_run_can_be_resumed (files : list source_file)
    (w w1 wa wb : World) (o : outcome (nat * nat)) :
  ingest_data files w = (w1, o) ->
  healthy wa -> weather_data wa = weather_data w ->
  healthy wb -> weather_data wb = weather_data w1 ->
  exists wa' oa wb' ob,
    ingest_data files wa = (wa', oa) /\
    ingest_data files wb = (wb', ob) /\
    weather_data wb' = weather_data wa' /\
    (forall x, ob = Raises x <-> oa = Raises x).
Proof.
  intros H Hha Hda Hhb Hdb.
  destruct (ingest_data_any _ _ _ _ H) as (_ & _ & _ & Htab).
  destruct (ingest_data_healthy files wa Hha) as (wa' & oa & Ha & _ & Da & Hoa).
  destruct (ingest_data_healthy files wb Hhb) as (wb' & ob & Hb & _ & Db & Hob).
  rewrite Hda in Da, Hoa. rewrite Hdb, Htab in Db, Hob.
  exists wa', oa, wb', ob. split; [exact Ha |]. split; [exact Hb |].
  split; [congruence |].
  intro x. destruct (snd (files_table files (weather_data w))) as [y |].
  - subst oa ob. tauto.
  - destruct Hoa as (ta & ->), Hob as (tb & ->). split; discriminate.
Qed.

(** X5. The first line of a day wins.  When the rows of a file are loaded to
    the end into a table that keeps its constraints, and a row has a date
    that no stored row and no earlier row of the file has for that station,
    then the record of this row is stored, and it is the only stored row of
    its station and date: no later line replaces it. *)
Theorem first_line_of_a_day_wins (pre post : list Row) (row : Row)
    (c c' : nat * nat) (w w' : World) (d : Timestamp) :
  session_new w = [] ->
  store_ok (weather_data w) ->
  ingest_rows (pre ++ row :: post) c w = (w', Returns c') ->
  date (new_record row) = Some d ->
  station_date_taken (station_id (new_record row)) d (weather_data w) = false ->
  Forall (fun p => store_key (new_record p) <> store_key (new_record row)) pre ->
  In (new_record row) (weather_data w') /\
  forall r, In r (weather_data w') ->
    store_key r = store_key (new_record row) -> r = new_record row.
Proof.
  intros Hn Hok H Hd Hfree Hpre.
  assert (Hok' : store_ok (weather_data w')).
  { destruct (ingest_rows_any _ _ _ _ _ Hn H) as (_ & Hkeep & _). now apply Hkeep. }
  rewrite ingest_rows_app in H.
  apply bind_inv in H. destruct H as [(w1 & c1 & Hp & H) | (x & _ & Hx)]; [| discriminate].
  cbn [ingest_rows] in H.
  apply bind_inv in H. destruct H as [(w2 & c2 & Hl & H) | (x & _ & Hx)]; [| discriminate].
  destruct (ingest_rows_any _ _ _ _ _ Hn Hp) as ((added1 & Hadd1 & Hincl1) & _ & _).
  destruct (ingest_rows_returns _ _ _ _ _ Hn Hp) as (N1 & _).
  assert (Hnot : refused (new_record row) (weather_data w1) = false).
  { unfold refused. rewrite Hd. apply not_true_is_false. intro Ht.
    apply station_date_taken_In in Ht. rewrite Hadd1, map_app in Ht.
    apply in_app_or in Ht. destruct Ht as [Ht | Ht].
    - apply station_date_taken_In in Ht. congruence.
    - apply in_map_iff in Ht. destruct Ht as (r & Hk & Hin).
      apply Hincl1 in Hin. apply in_map_iff in Hin. destruct Hin as (p & <- & Hin).
      rewrite Forall_forall in Hpre. apply (Hpre p Hin).
      rewrite Hk. unfold store_key. now rewrite Hd. }
  destruct (load_record_inv _ _ _ _ _ N1 Hl) as (_ & _ & _ & Hcases).
  destruct Hcases as [(_ & D2 & N2 & _) | [(_ & _ & _ & Hr) | (x & Ho & _)]];
    [| congruence | discriminate].
  destruct (ingest_rows_any _ _ _ _ _ N2 H) as ((added3 & Hadd3 & _) & _ & _).
  assert (Hin : In (new_record row) (weather_data w')).
  { rewrite Hadd3, D2. apply in_or_app. left. apply in_or_app. right. now left. }
  split; [exact Hin |].
  intros r Hr Hk. destruct Hok' as [_ Hnd].
  exact (stored_rows_of_one_key_are_equal _ _ _ Hnd Hr Hin Hk).
Qed.

(** X6. Statistics after ingestion.  After a run of [ingest_data], however
    it ended, over a table that kept its constraints, a run of
    [calculate_statistics] with a working connection, over observations of
    which no aggregate overflows, succeeds: it adds the statistic rows of
    all the observations now stored and logs its end. *)
Theorem statistics_after_ingestion_succeed (files : list source_file)
    (w w1 : World) (o : outcome (nat * nat)) :
  store_ok (weather_data w) ->
  ingest_data files w = (w1, o) ->
  healthy w1 ->
  aggregates_in_range (weather_data w1) ->
  exists w2,
    calculate_statistics w1 = (w2, Returns tt) /\
    weather_data w2 = weather_data w1 /\
    weather_statistics w2 =
      weather_statistics w ++ yearly_statistics (weather_data w1) /\
    log w2 = log w1 ++ [StartingStatistics; FinishedStatistics].
Proof.
  intros Hok H Hh Hr.
  destruct (ingest_data_any _ _ _ _ H) as (_ & Hs & Hkeep & _).
  destruct (Hkeep Hok) as [Hdated _].
  destruct (calculate_statistics_healthy w1 Hh Hdated Hr) as (w2 & Hc & _ & D & S2 & L).
  exists w2. rewrite <- Hs. repeat split; assumption.
Qed.

(** ** Further properties of the aggregation run *)

Lemma distinct_length (ks : list group_key) :
  (List.length (distinct ks) <= List.length ks)%nat.
Proof.
  induction ks as [| k ks IH]; simpl; [lia |].
  pose proof (filter_length_le (fun k' => negb (key_eqb k' k)) (distinct ks)). lia.
Qed.

(** X7. A run of [calculate_statistics] never adds more statistic rows than
    there are observations, and over an empty observations table it adds
    none. *)
Theorem statistics_rows_are_bounded (w w' : World) :
  calculate_statistics w = (w', Returns tt) ->
  (List.length (weather_statistics w') <=
     List.length (weather_statistics w) + List.length (weather_data w))%nat /\
  (weather_data w = [] -> weather_statistics w' = weather_statistics w).
Proof.
  intro H. destruct (calculate_statistics_inv w) as (w2 & Hc & _ & _ & _ & Hcases).
  rewrite H in Hc. injection Hc as <-.
  assert (Hlen : (List.length (yearly_statistics (weather_data w))
                  <= List.length (weather_data w))%nat).
  { unfold yearly_statistics.
    destruct (select_yearly (weather_data w)) as [results | x] eqn:E;
      [| cbn [List.length]; lia].
    rewrite <- (length_map stat_key), (stat_keys _ _ E).
    rewrite (Permutation_length (group_order_permutes _ _)).
    rewrite <- (length_map key_of (weather_data w)). apply distinct_length. }
  destruct Hcases as [(Hs & _) | (Hs & _)]; rewrite Hs.
  - rewrite length_app. split; [lia |]. intros Hnil.
    assert (Hz : List.length (weather_data w) = 0%nat) by now rewrite Hnil.
    destruct (yearly_statistics (weather_data w)); [apply app_nil_r |].
    cbn [List.length] in Hlen. lia.
  - split; [lia | reflexivity].
Qed.

(** X8. The statistic row of a station and year depends on the observations
    of that station and year only: two tables that agree on them give the
    same row for them, whatever else they hold. *)
Theorem statistic_row_depends_on_its_partition_only (t1 t2 : list WeatherData)
    (s1 s2 : WeatherStatistics) :
  In s1 (yearly_statistics t1) ->
  In s2 (yearly_statistics t2) ->
  stat_key s1 = stat_key s2 ->
  partition_of (ws_station_id s1) (year s1) t1 =
    partition_of (ws_station_id s1) (year s1) t2 ->
  s1 = s2.
Proof.
  intros H1 H2 Hk Hp.
  destruct (yearly_statistics_spec t1) as (_ & Hin1 & _).
  destruct (yearly_statistics_spec t2) as (_ & Hin2 & _).
  destruct (Hin1 s1 H1) as (_ & A1 & B1 & C1).
  destruct (Hin2 s2 H2) as (_ & A2 & B2 & C2).
  unfold stat_key in Hk. injection Hk as Hst Hy.
  rewrite <- Hst, <- Hy, <- Hp in A2, B2, C2.
  rewrite A1 in A2. rewrite B1 in B2. rewrite C1 in C2.
  injection A2 as A2. injection B2 as B2. injection C2 as C2.
  destruct s1, s2. simpl in *. congruence.
Qed.
End Pipeline.

(** ** Scenarios *)

Lemma groups_as_found_permutes (table : list WeatherData) (ks : list group_key) :
  Permutation (groups_as_found table ks) ks.
Proof. apply Permutation_refl. Defined.


(** The station is the file name up to its first dot. *)
Example station_of_USC00111280 :
  station_id_of_path (file_path USC00111280) = "USC00111280"%string.
Proof. reflexivity. Qed.

(** Raw [-22] is cleaned to [-2.2], the sentinel to a null. *)
Example scale_minus_22 :
  scale (replace_sentinel (-22)) = Some (-2.2)%float /\
  scale (replace_sentinel (-9999)) = None /\
  scale (replace_sentinel 0) = Some 0%float.
Proof. repeat split; vm_compute; reflexivity. Qed.

(** The ends of the range of [int64], and the first integer that is not a
    double. *)
Example float_of_Z_samples :
  float_of_Z (- 2 ^ 63) = (-0x1p+63)%float /\
  float_of_Z (2 ^ 63 - 1) = 0x1p+63%float /\
  float_of_Z (2 ^ 53 + 1) = 0x1p+53%float /\
  scale (replace_sentinel (- 2 ^ 63)) = Some (-922337203685477580.8)%float.
Proof. repeat split; vm_compute; reflexivity. Qed.

(** An empty line gives no row: three lines, two rows. *)
Example frame_of_USC00112140 :
  read_csv USC00112140
  = Returns [mkLine "20030101" 150 (-9999) 0; mkLine "20030102" 161 44 12].
Proof. reflexivity. Qed.

(** A file without any line gives a frame without rows, and the run goes
    on. *)
Example empty_file_is_no_failure :
  let empty := mkFile "/srv/weather/src/../wx_data/USC00113879.txt" (Text []) in
  let run := ingest_data to_datetime_of_samples DataError [empty; USC00111280] no_data in
  parse_weather_data to_datetime_of_samples empty = Returns [] /\
  snd run = Returns (1%nat, 0%nat).
Proof. split; vm_compute; reflexivity. Qed.

(** The end-to-end scenario: the line [20030101 211 -9999 5] of
    [USC00111280.txt] is stored once, and ingesting the file again counts one
    duplicate and leaves the row as it is. *)
Example end_to_end :
  let stored := mkWeatherData (Some (mkTimestamp 2003 1 1)) "USC00111280"
                  (Some 21.1%float) None (Some 0.5%float) in
  let run1 := ingest_data to_datetime_of_samples DataError [USC00111280] no_data in
  let run2 := ingest_data to_datetime_of_samples DataError [USC00111280] (fst run1) in
  snd run1 = Returns (1%nat, 0%nat) /\
  weather_data (fst run1) = [stored] /\
  snd run2 = Returns (0%nat, 1%nat) /\
  weather_data (fst run2) = [stored].
Proof. repeat split; vm_compute; reflexivity. Qed.

(** Nulls are left out of an average, and a sum without a value is null. *)
Example null_safe_aggregates :
  sql_avg [Some 20%float; None; Some 30%float] = Returns (Some 25%float) /\
  sql_sum [None; None; None] = Returns None /\
  yearly_statistics groups_as_found (weather_data three_days) =
    [mkWeatherStatistics (Some 2003) "USC00111280" (Some 25%float) (Some 6%float) None].
Proof. repeat split; vm_compute; reflexivity. Qed.

(** Finite values whose sum, or whose squared distance to the mean, is more
    than a double holds: the server raises, and a run of
    [calculate_statistics] logs the error and adds no row. *)
Example overflow_fails_the_run :
  let w' := fst (calculate_statistics DataError groups_as_found two_floods) in
  sql_sum [Some 0x1p+1023%float; Some 0x1p+1023%float] = Raises DataError /\
  sql_avg [Some 0x1p+1023%float; Some 0x1p+1023%float] = Raises DataError /\
  sql_avg [Some 1e200%float; Some (-1e200)%float] = Raises DataError /\
  weather_statistics w' = [] /\
  log w' = [StartingStatistics; ErrorCalculatingStatistics DataError].
Proof. repeat split; vm_compute; reflexivity. Qed.

(** A connection lost between the inserts of the statistic rows leaves the
    table of statistics without any of them. *)
Example lost_connection_in_the_flush :
  let w := fst (ingest_data to_datetime_of_samples DataError
                  [USC00111280; USC00110072] no_data) in
  let w' := fst (calculate_statistics DataError groups_as_found
                   (set_link [false; false; true] w)) in
  List.length (yearly_statistics groups_as_found (weather_data w)) = 2%nat /\
  weather_statistics w' = [] /\
  weather_data w' = weather_data w /\
  last (log w') StartingStatistics = ErrorCalculatingStatistics OperationalError.
Proof. repeat split; vm_compute; reflexivity. Qed.

(** ** The theorems at sample data *)

Lemma parse_cleans_each_field_witness :
  let line := mkLine "20030101" 211 (-9999) 5 in
  read_csv USC00111280 = Returns [line] /\
  nth_error [line] 0 = Some line /\
  int64 211 /\ int64 (-9999) /\ int64 5 /\
  parse_weather_data to_datetime_of_samples USC00111280
    = Returns [mkRow (Some (mkTimestamp 2003 1 1)) (Some 21.1%float) None
                 (Some 0.5%float) "USC00111280"] /\
  exists data row,
    parse_weather_data to_datetime_of_samples USC00111280 = Returns data /\
    nth_error data 0 = Some row /\
    cleaned_as_specified 211 (row_max_temp row) /\
    cleaned_as_specified (-9999) (row_min_temp row) /\
    cleaned_as_specified 5 (row_precipitation row) /\
    max_temp (new_record row) = row_max_temp row /\
    min_temp (new_record row) = row_min_temp row /\
    precipitation (new_record row) = row_precipitation row.
Proof.
  cbv zeta.
  split; [vm_compute; reflexivity |]. split; [vm_compute; reflexivity |].
  split; [unfold int64; lia |]. split; [unfold int64; lia |].
  split; [unfold int64; lia |]. split; [vm_compute; reflexivity |].
  apply (parse_cleans_each_field to_datetime_of_samples USC00111280
           [mkLine "20030101" 211 (-9999) 5] 0%nat (mkLine "20030101" 211 (-9999) 5)).
  - vm_compute; reflexivity.
  - vm_compute; reflexivity.
  - unfold int64; cbn [raw_max_temp]; lia.
  - unfold int64; cbn [raw_min_temp]; lia.
  - unfold int64; cbn [raw_precipitation]; lia.
Defined.


Lemma counters_are_conserved_witness :
  let files := [USC00111280; USC00110072] in
  let run := ingest_data to_datetime_of_samples DataError files no_data in
  run = (fst run, Returns (2%nat, 1%nat)) /\
  file_counts to_datetime_of_samples DataError files (run_start no_data)
    = [(1%nat, 0%nat); (1%nat, 1%nat)] /\
  let counts := file_counts to_datetime_of_samples DataError files (run_start no_data) in
  List.length counts = List.length files /\
  Forall2 (fun f c => exists data,
             parse_weather_data to_datetime_of_samples f = Returns data /\
             (fst c + snd c = List.length data)%nat /\
             List.length data = parsed_count to_datetime_of_samples f)
          files counts /\
  fst (2%nat, 1%nat) = sum_nat (map fst counts) /\
  snd (2%nat, 1%nat) = sum_nat (map snd counts).
Proof.
  cbv zeta. split; [vm_compute; reflexivity |]. split; [vm_compute; reflexivity |].
  apply (counters_are_conserved to_datetime_of_samples DataError
           [USC00111280; USC00110072] no_data
           (fst (ingest_data to_datetime_of_samples DataError
                   [USC00111280; USC00110072] no_data))
           (2%nat, 1%nat)).
  vm_compute; reflexivity.
Defined.

Lemma reingestion_adds_nothing_witness :
  let w1 := fst (ingest_file to_datetime_of_samples DataError USC00110072 no_data) in
  session_new no_data = [] /\
  ingest_file to_datetime_of_samples DataError USC00110072 no_data
    = (w1, Returns (1%nat, 1%nat)) /\
  session_new w1 = [] /\
  healthy w1 /\
  (exists added, weather_data w1 = weather_data no_data ++ added /\
                 List.length added = 1%nat) /\
  exists w2,
    ingest_file to_datetime_of_samples DataError USC00110072 w1
      = (w2, Returns (0%nat, 2%nat)) /\
    weather_data w2 = weather_data w1 /\
    2%nat = parsed_count to_datetime_of_samples USC00110072.
Proof.
  cbv zeta.
  split; [vm_compute; reflexivity |]. split; [vm_compute; reflexivity |].
  split; [vm_compute; reflexivity |]. split; [vm_compute; reflexivity |].
  apply (reingestion_adds_nothing to_datetime_of_samples DataError USC00110072 no_data
           (fst (ingest_file to_datetime_of_samples DataError USC00110072 no_data))
           (fst (ingest_file to_datetime_of_samples DataError USC00110072 no_data))
           (1%nat, 1%nat)); vm_compute; reflexivity.
Defined.

(** A file of one line whose date is not numeric and one valid line: with
    the [DataError] of psycopg2 the run ends at the first line; the valid
    line is not stored, nothing is counted, and the file that comes next is
    never attempted. *)
Lemma invalid_date_aborts_the_run_witness :
  let bad := mkLine "2003010x" 100 50 0 in
  let good := mkLine "20030102" 211 (-9999) 5 in
  let run := ingest_data to_datetime_of_samples DataError
               [USC00110187; USC00111280] no_data in
  read_csv USC00110187 = Returns [bad; good] /\
  to_datetime_of_samples (raw_date bad) = None /\
  DataError <> IntegrityError /\
  healthy no_data /\
  snd run = Raises DataError /\
  weather_data (fst run) = [] /\
  ~ attempted USC00111280 (fst run) /\
  exists w',
    ingest_data to_datetime_of_samples DataError [USC00110187; USC00111280] no_data
      = (w', Raises DataError) /\
    weather_data w' = weather_data no_data /\
    log w' = log no_data ++
             [StartingIngestion; StartingFile (basename (file_path USC00110187))].
Proof.
  cbv zeta. split; [vm_compute; reflexivity |]. split; [vm_compute; reflexivity |].
  split; [discriminate |]. split; [vm_compute; reflexivity |].
  split; [vm_compute; reflexivity |]. split; [vm_compute; reflexivity |].
  split; [unfold attempted; vm_compute; intros [H | [H | []]]; discriminate |].
  apply (invalid_date_aborts_the_run to_datetime_of_samples DataError USC00110187
           (mkLine "2003010x" 100 50 0) [mkLine "20030102" 211 (-9999) 5]
           [USC00111280] no_data).
  - vm_compute; reflexivity.
  - vm_compute; reflexivity.
  - discriminate.
  - vm_compute; reflexivity.
Defined.

Lemma conflict_is_counted_other_failures_propagate_witness :
  let w := fst (ingest_file to_datetime_of_samples DataError USC00111280 no_data) in
  let r := mkWeatherData (Some (mkTimestamp 2003 1 1)) "USC00111280"
             (Some 21.1%float) None (Some 0.5%float) in
  session_new w = [] /\
  weather_data w = [r] /\
  (exists w', load_record DataError r (0%nat, 0%nat) w = (w', Returns (0%nat, 1%nat)) /\
     weather_data w' = weather_data w /\
     weather_statistics w' = weather_statistics w /\
     session_new w' = []) /\
  (exists w', load_record DataError r (0%nat, 0%nat) (set_link [true] w)
                = (w', Raises OperationalError) /\
     weather_data w' = weather_data w) /\
  (exists w', ingest_data to_datetime_of_samples DataError
                ([] ++ USC00111280 :: [USC00110072])
                (set_link [true] no_data) = (w', Raises OperationalError) /\
     weather_data w' = []).
Proof.
  cbv zeta. split; [vm_compute; reflexivity |]. split; [vm_compute; reflexivity |].
  split; [| split].
  - apply (proj1 (conflict_is_counted_other_failures_propagate
                    to_datetime_of_samples DataError
                    (mkWeatherData (Some (mkTimestamp 2003 1 1)) "USC00111280"
                       (Some 21.1%float) None (Some 0.5%float))
                    (0%nat, 0%nat)
                    (fst (ingest_file to_datetime_of_samples DataError
                            USC00111280 no_data))
                    ltac:(vm_compute; reflexivity))
                 (mkTimestamp 2003 1 1)); vm_compute; reflexivity.
  - apply (proj2 (proj2 (conflict_is_counted_other_failures_propagate
                    to_datetime_of_samples DataError
                    (mkWeatherData (Some (mkTimestamp 2003 1 1)) "USC00111280"
                       (Some 21.1%float) None (Some 0.5%float))
                    (0%nat, 0%nat)
                    (set_link [true]
                       (fst (ingest_file to_datetime_of_samples DataError
                               USC00111280 no_data)))
                    ltac:(vm_compute; reflexivity))) []).
    vm_compute; reflexivity.
  - pose (w_run := set_link [true] no_data).
    pose (w := add_log (StartingFile (basename (file_path USC00111280))) (run_start w_run)).
    pose (row := clean_line to_datetime_of_samples
                   (station_id_of_path (file_path USC00111280))
                   (mkLine "20030101" 211 (-9999) 5)).
    pose (w' := fst (bind (session_add (NewData (new_record row)))
                       (fun _ => session_commit DataError) w)).
    assert (Hne : OperationalError <> IntegrityError) by discriminate.
    destruct (proj1 (proj2 (conflict_is_counted_other_failures_propagate
                              to_datetime_of_samples DataError
                              (new_record row) (0%nat, 0%nat) w
                              ltac:(vm_compute; reflexivity)))
                w' OperationalError Hne ltac:(vm_compute; reflexivity))
      as (_ & Hd & Hrun).
    exists w'. split.
    + apply (Hrun row [] [] USC00111280 [] [USC00110072] w_run (run_start w_run)
               (0%nat, 0%nat)); vm_compute; reflexivity.
    + vm_compute. reflexivity.
Defined.

Lemma failure_in_a_file_aborts_the_run_witness :
  let wa := fst (ingest_files to_datetime_of_samples DataError [USC00111280]
                   (0%nat, 0%nat) (run_start no_data)) in
  let w' := fst (ingest_file to_datetime_of_samples DataError USC00110338 wa) in
  ingest_files to_datetime_of_samples DataError [USC00111280] (0%nat, 0%nat)
    (run_start no_data) = (wa, Returns (1%nat, 0%nat)) /\
  ingest_file to_datetime_of_samples DataError USC00110338 wa
    = (w', Raises ParserError) /\
  ingest_data to_datetime_of_samples DataError
    ([USC00111280] ++ USC00110338 :: [USC00110072]) no_data
    = (w', Raises ParserError) /\
  log w' = log wa ++ [StartingFile (basename (file_path USC00110338))].
Proof.
  cbv zeta. split; [vm_compute; reflexivity |]. split; [vm_compute; reflexivity |].
  destruct (failure_in_a_file_aborts_the_run to_datetime_of_samples DataError
              [USC00111280] [USC00110072] USC00110338 no_data
              (fst (ingest_files to_datetime_of_samples DataError [USC00111280]
                      (0%nat, 0%nat) (run_start no_data)))
              (fst (ingest_file to_datetime_of_samples DataError USC00110338
                      (fst (ingest_files to_datetime_of_samples DataError
                              [USC00111280] (0%nat, 0%nat) (run_start no_data)))))
              (1%nat, 0%nat) ParserError
              ltac:(vm_compute; reflexivity) ltac:(vm_compute; reflexivity))
    as (Hrun & Hlog & _).
  split; [exact Hrun | exact Hlog].
Defined.


Lemma rerun_duplicates_statistics_witness :
  healthy three_days /\
  Forall (fun r => date r <> None) (weather_data three_days) /\
  aggregates_in_range (weather_data three_days) /\
  exists w1 w2 added1 added2,
    calculate_statistics DataError groups_as_found three_days = (w1, Returns tt) /\
    calculate_statistics DataError groups_as_found w1 = (w2, Returns tt) /\
    weather_data w2 = weather_data three_days /\
    weather_statistics w1 = weather_statistics three_days ++ added1 /\
    weather_statistics w2 = weather_statistics w1 ++ added2 /\
    Permutation added1 added2 /\
    (forall station y,
       List.length (rows_for station y added1) =
         match partition_of station y (weather_data three_days) with
         | [] => 0 | _ :: _ => 1 end%nat /\
       List.length (rows_for station y added2) =
         match partition_of station y (weather_data three_days) with
         | [] => 0 | _ :: _ => 1 end%nat) /\
    (forall station y, partition_of station y (weather_data three_days) <> [] ->
       List.length (rows_for station y (weather_statistics w1)) =
         S (List.length (rows_for station y (weather_statistics three_days))) /\
       List.length (rows_for station y (weather_statistics w2)) =
         S (S (List.length (rows_for station y (weather_statistics three_days))))).
Proof.
  assert (Hdated : Forall (fun r => date r <> None) (weather_data three_days))
    by (repeat constructor; discriminate).
  split; [vm_compute; reflexivity |]. split; [exact Hdated |].
  split; [vm_compute; reflexivity |].
  exact (rerun_duplicates_statistics DataError groups_as_found groups_as_found_permutes
           three_days ltac:(vm_compute; reflexivity) Hdated
           ltac:(vm_compute; reflexivity)).
Defined.

(** Two runs over [three_days]: the one statistic row, twice. *)
Example two_runs_two_rows :
  let w1 := fst (calculate_statistics DataError groups_as_found three_days) in
  let w2 := fst (calculate_statistics DataError groups_as_found w1) in
  let row := mkWeatherStatistics (Some 2003) "USC00111280"
               (Some 25%float) (Some 6%float) None in
  weather_statistics w1 = [row] /\ weather_statistics w2 = [row; row].
Proof. repeat split; vm_compute; reflexivity. Qed.

(** ** Where the code departs from the specification *)

(** Against C1: [USC00110072] gives the same day twice.  Its first ingestion
    ingests one record and counts one duplicate; its second counts two
    duplicates, not one. *)
Lemma repeated_day_breaks_the_duplicate_count :
  let run1 := ingest_file to_datetime_of_samples DataError USC00110072 no_data in
  let run2 := ingest_file to_datetime_of_samples DataError USC00110072 (fst run1) in
  snd run1 = Returns (1%nat, 1%nat) /\
  snd run2 = Returns (0%nat, 2%nat) /\
  ~ (exists ingested1 duplicates1 ingested2 duplicates2,
       snd run1 = Returns (ingested1, duplicates1) /\
       snd run2 = Returns (ingested2, duplicates2) /\
       duplicates2 = ingested1).
Proof.
  cbv zeta. split; [vm_compute; reflexivity |]. split; [vm_compute; reflexivity |].
  intros (i1 & d1 & i2 & d2 & H1 & H2 & Heq).
  vm_compute in H1, H2. injection H1 as <- <-. injection H2 as <- <-. discriminate.
Qed.

(** Against C8: [read_csv] cannot split [USC00110338] into the four columns,
    which is no failure of the store.  The run ends with its [ParserError];
    [USC00111280], which comes after it, is never attempted and none of its
    records is stored. *)
Lemma unreadable_file_stops_the_run :
  let run := ingest_data to_datetime_of_samples DataError
               [USC00110338; USC00111280] no_data in
  snd run = Raises ParserError /\
  weather_data (fst run) = [] /\
  ~ attempted USC00111280 (fst run).
Proof.
  cbv zeta. split; [vm_compute; reflexivity |]. split; [vm_compute; reflexivity |].
  unfold attempted. vm_compute. intros [H | [H | []]]; discriminate.
Qed.


(** ** The station of a file *)

Lemma contains_app (c : ascii) (a b : string) :
  contains c (a ++ b)%string = contains c a || contains c b.
Proof.
  induction a as [| x a IH]; simpl; [reflexivity |].
  now rewrite IH, orb_assoc.
Qed.

Lemma append_cons_assoc (u : string) (c : ascii) (r : string) :
  ((u ++ String c EmptyString) ++ r)%string = (u ++ String c r)%string.
Proof. induction u as [| x u IH]; simpl; [reflexivity | now rewrite IH]. Qed.

Lemma append_nil_r (u : string) : (u ++ EmptyString)%string = u.
Proof. induction u as [| x u IH]; simpl; [reflexivity | now rewrite IH]. Qed.

Lemma basename_from_no_slash (p cur : string) :
  contains "/"%char p = false -> basename_from p cur = cur.
Proof.
  revert cur. induction p as [| c r IH]; intros cur H; simpl in *; [reflexivity |].
  apply orb_false_iff in H. destruct H as [Hc Hr]. rewrite Hc. now apply IH.
Qed.

Lemma basename_from_app (a b cur : string) :
  basename_from (a ++ String "/"%char b) cur = basename_from b b.
Proof.
  revert cur. induction a as [| c a IH]; intro cur; simpl.
  - reflexivity.
  - destruct (Ascii.eqb c "/"%char); apply IH.
Qed.

Lemma basename_from_has_no_slash (p : string) : forall u,
  contains "/"%char u = false ->
  contains "/"%char (basename_from p (u ++ p)) = false.
Proof.
  induction p as [| c r IH]; intros u Hu; simpl.
  - now rewrite append_nil_r.
  - destruct (Ascii.eqb c "/"%char) eqn:Hc.
    + apply (IH EmptyString). reflexivity.
    + rewrite <- append_cons_assoc. apply IH.
      rewrite contains_app. simpl. now rewrite Hu, Hc.
Qed.

Lemma split_first_app (sep : ascii) (name ext : string) :
  contains sep name = false ->
  split_first sep (name ++ String sep ext) = name.
Proof.
  induction name as [| c r IH]; intro H; simpl in *.
  - now rewrite Ascii.eqb_refl.
  - apply orb_false_iff in H. destruct H as [Hc Hr]. rewrite Hc. now rewrite IH.
Qed.

Lemma split_first_has_no_sep (sep : ascii) (s : string) :
  contains sep (split_first sep s) = false.
Proof.
  induction s as [| c r IH]; simpl; [reflexivity |].
  destruct (Ascii.eqb c sep) eqn:Hc; simpl; [reflexivity | now rewrite Hc].
Qed.

Lemma split_first_keeps_absent (sep c : ascii) (s : string) :
  contains c s = false -> contains c (split_first sep s) = false.
Proof.
  induction s as [| x r IH]; simpl; [reflexivity |].
  intro H. apply orb_false_iff in H. destruct H as [Hx Hr].
  destruct (Ascii.eqb x sep); simpl; [reflexivity |]. now rewrite Hx, IH.
Qed.

(** X9. The station is read back from the path of its file: for a file
    [name.ext] in any directory, where [name] has neither a dot nor a slash
    and [ext] has no slash, the station is [name]; what follows the first
    dot, and the directory, do not matter. *)
Theorem station_of_a_path_is_the_file_name (dir name ext : string) :
  contains "/"%char name = false ->
  contains "."%char name = false ->
  contains "/"%char ext = false ->
  station_id_of_path (dir ++ String "/"%char (name ++ String "."%char ext)) = name /\
  station_id_of_path (name ++ String "."%char ext) = name.
Proof.
  intros Hs Hd He.
  assert (Hb : contains "/"%char (name ++ String "."%char ext) = false).
  { rewrite contains_app. simpl. now rewrite Hs, He. }
  unfold station_id_of_path, basename. split.
  - rewrite basename_from_app, (basename_from_no_slash _ _ Hb).
    now apply split_first_app.
  - rewrite (basename_from_no_slash _ _ Hb). now apply split_first_app.
Qed.

(** X10. Whatever the path, the station read from it has no dot and no
    slash in it. *)
Theorem station_has_no_dot_and_no_slash (path : string) :
  contains "."%char (station_id_of_path path) = false /\
  contains "/"%char (station_id_of_path path) = false.
Proof.
  unfold station_id_of_path. split.
  - apply split_first_has_no_sep.
  - apply split_first_keeps_absent. unfold basename.
    apply (basename_from_has_no_slash path EmptyString). reflexivity.
Qed.

(** ** The query layer *)

Lemma bigint_count_true (n : Z) : bigint_count n = true <-> 0 <= n < 2 ^ 63.
Proof.
  unfold bigint_count. rewrite andb_true_iff, Z.leb_le, Z.ltb_lt. tauto.
Qed.

Lemma In_firstn_skipn {A : Type} (n m : nat) (l : list A) (x : A) :
  In x (firstn n (skipn m l)) -> In x l.
Proof.
  intro H. rewrite <- (firstn_skipn m l). apply in_or_app. right.
  rewrite <- (firstn_skipn n (skipn m l)). apply in_or_app. now left.
Qed.

Lemma length_firstn_skipn {A : Type} (n m : nat) (l : list A) :
  (List.length (firstn n (skipn m l)) <= n)%nat /\
  (List.length (firstn n (skipn m l)) <= List.length l)%nat.
Proof.
  rewrite length_firstn, length_skipn. lia.
Qed.

Lemma limit_offset_returns {A : Type} (limit offset : Z) (rows items : list A) :
  limit_offset limit offset rows = Returns items ->
  0 <= limit /\ 0 <= offset /\
  items = firstn (Z.to_nat limit) (skipn (Z.to_nat offset) rows).
Proof.
  unfold limit_offset.
  destruct (bigint_count limit && bigint_count offset) eqn:E; [| discriminate].
  apply andb_true_iff in E. destruct E as [E1 E2].
  apply bigint_count_true in E1, E2. intro H. injection H as <-.
  repeat split; [lia | lia].
Qed.

Lemma stats_get_eq (request : stats_request) w :
  stats_get request w =
  let page := arg_or_default (sreq_page request) DEFAULT_PAGE in
  let page_size := arg_or_default (sreq_page_size request) DEFAULT_PAGE_SIZE in
  match execute (set_session_new [] w) with
  | (wb, Raises x) => (wb, Raises x)
  | (wb, Returns _) =>
      match execute wb with
      | (wc, Raises x) => (wc, Raises x)
      | (wc, Returns _) =>
          match limit_offset page_size ((page - 1) * page_size)
                  (stats_matching request (weather_statistics wc)) with
          | Returns items =>
              (wc, Returns (items,
                            mkPagination
                              (List.length (stats_matching request (weather_statistics wb)))
                              page page_size))
          | Raises x => (wc, Raises x)
          end
      end
  end.
Proof.
  unfold stats_get. step_monad. cbv zeta. simpl.
  destruct (execute _) as [wb [[] | x]]; [| reflexivity].
  destruct (execute wb) as [wc [[] | x]]; [| reflexivity].
  destruct (limit_offset _ _ _); reflexivity.
Qed.

(** What a request for statistics leaves and gives, however it ends. *)
Lemma stats_get_inv (request : stats_request) w w' o :
  stats_get request w = (w', o) ->
  weather_data w' = weather_data w /\
  weather_statistics w' = weather_statistics w /\
  forall items meta, o = Returns (items, meta) ->
    let page := arg_or_default (sreq_page request) DEFAULT_PAGE in
    let page_size := arg_or_default (sreq_page_size request) DEFAULT_PAGE_SIZE in
    0 <= page_size /\ 0 <= (page - 1) * page_size /\
    items = firstn (Z.to_nat page_size) (skipn (Z.to_nat ((page - 1) * page_size))
                     (stats_matching request (weather_statistics w))) /\
    meta = mkPagination (List.length (stats_matching request (weather_statistics w)))
             page page_size.
Proof.
  rewrite stats_get_eq. cbv zeta.
  destruct (execute (set_session_new [] w)) as [wb [[] | x]] eqn:E1;
    destruct (execute_inv _ _ _ E1) as (D1 & S1 & _); simpl in D1, S1.
  - destruct (execute wb) as [wc [[] | x]] eqn:E2;
      destruct (execute_inv _ _ _ E2) as (D2 & S2 & _).
    + destruct (limit_offset _ _ _) as [its | x] eqn:El; intro H; injection H as <- <-.
      * split; [congruence |]. split; [congruence |].
        intros items meta Ho. injection Ho as <- <-.
        apply limit_offset_returns in El. destruct El as (L1 & L2 & ->).
        rewrite S2, S1. auto.
      * split; [congruence |]. split; [congruence | discriminate].
    + intro H. injection H as <- <-.
      split; [congruence |]. split; [congruence | discriminate].
  - intro H. injection H as <- <-. split; [congruence |]. split; [congruence | discriminate].
Qed.

Lemma stats_get_healthy (request : stats_request) w :
  healthy w ->
  exists w',
    weather_statistics w' = weather_statistics w /\
    stats_get request w =
    (w', let page := arg_or_default (sreq_page request) DEFAULT_PAGE in
         let page_size := arg_or_default (sreq_page_size request) DEFAULT_PAGE_SIZE in
         match limit_offset page_size ((page - 1) * page_size)
                 (stats_matching request (weather_statistics w)) with
         | Returns items =>
             Returns (items,
                      mkPagination
                        (List.length (stats_matching request (weather_statistics w)))
                        page page_size)
         | Raises x => Raises x
         end).
Proof.
  intro Hh. rewrite stats_get_eq. cbv zeta.
  assert (Hh0 : healthy (set_session_new [] w)) by exact Hh.
  destruct (execute_healthy _ Hh0) as (wb & E1 & Hh1 & _ & S1 & _).
  destruct (execute_healthy _ Hh1) as (wc & E2 & _ & _ & S2 & _).
  rewrite E1, E2. simpl in S1. rewrite S2, S1.
  exists wc. split; [congruence |].
  destruct (limit_offset _ _ _); reflexivity.
Qed.

Lemma stats_matching_In (request : stats_request) (table : list WeatherStatistics)
    (s : WeatherStatistics) :
  In s (stats_matching request table) ->
  In s table /\
  (forall y, truthy_int (sreq_year request) = Some y -> year s = Some y) /\
  (forall station, truthy_string (sreq_station_id request) = Some station ->
     ws_station_id s = station).
Proof.
  unfold stats_matching.
  destruct (truthy_int (sreq_year request)) as [y |];
    destruct (truthy_string (sreq_station_id request)) as [station |];
    rewrite ?filter_In; intro H.
  - destruct H as [[Hin Hy] Hs]. apply option_Z_eqb_eq in Hy. apply String.eqb_eq in Hs.
    repeat split; auto; congruence.
  - destruct H as [Hin Hy]. apply option_Z_eqb_eq in Hy.
    repeat split; auto; congruence.
  - destruct H as [Hin Hs]. apply String.eqb_eq in Hs.
    repeat split; auto; congruence.
  - repeat split; auto; congruence.
Qed.

(** X11. What a request for statistics is answered with.  When
    [WeatherStatsAPI.get] returns, no table has changed; every row it
    returns is a stored statistic row of the year and of the station asked
    for, where they are asked for; there are at most [page_size] of them;
    and [total_items] is the number of all the stored rows that match,
    whatever the page. *)
Theorem stats_get_returns_matching_rows (request : stats_request) (w w' : World)
    (items : list WeatherStatistics) (meta : pagination) :
  stats_get request w = (w', Returns (items, meta)) ->
  weather_data w' = weather_data w /\
  weather_statistics w' = weather_statistics w /\
  total_items meta = List.length (stats_matching request (weather_statistics w)) /\
  (List.length items <= total_items meta)%nat /\
  Z.of_nat (List.length items) <= page_size meta /\
  page_size meta = arg_or_default (sreq_page_size request) DEFAULT_PAGE_SIZE /\
  forall s, In s items ->
    In s (weather_statistics w) /\
    (forall y, truthy_int (sreq_year request) = Some y -> year s = Some y) /\
    (forall station, truthy_string (sreq_station_id request) = Some station ->
       ws_station_id s = station).
Proof.
  intro H. destruct (stats_get_inv _ _ _ _ H) as (D & S & Hr).
  destruct (Hr items meta eq_refl) as (L1 & L2 & -> & ->). cbn [total_items page_size].
  destruct (length_firstn_skipn
              (Z.to_nat (arg_or_default (sreq_page_size request) DEFAULT_PAGE_SIZE))
              (Z.to_nat ((arg_or_default (sreq_page request) DEFAULT_PAGE - 1)
                         * arg_or_default (sreq_page_size request) DEFAULT_PAGE_SIZE))
              (stats_matching request (weather_statistics w))) as (Hl1 & Hl2).
  split; [exact D |]. split; [exact S |]. split; [reflexivity |].
  split; [exact Hl2 |]. split; [lia |]. split; [reflexivity |].
  intros s Hs. apply In_firstn_skipn in Hs. now apply stats_matching_In.
Qed.

(** X13. Which pages can be asked for.  With a working connection a request
    for statistics is answered exactly when [page_size] and the offset
    [(page - 1) * page_size] are both at least 0 and below [2 ^ 63]; any
    other request (a negative [page_size], a [page] below 1 with a positive
    [page_size], a number too large for a [bigint]) ends in the [DataError]
    of the server.  In both cases the statistics are as they were. *)
Theorem paging_out_of_range_is_refused (request : stats_request) (w : World) :
  healthy w ->
  let page := arg_or_default (sreq_page request) DEFAULT_PAGE in
  let page_size := arg_or_default (sreq_page_size request) DEFAULT_PAGE_SIZE in
  let offset := (page - 1) * page_size in
  exists w',
    weather_statistics w' = weather_statistics w /\
    (0 <= page_size < 2 ^ 63 /\ 0 <= offset < 2 ^ 63 ->
       exists items meta, stats_get request w = (w', Returns (items, meta))) /\
    (~ (0 <= page_size < 2 ^ 63 /\ 0 <= offset < 2 ^ 63) ->
       stats_get request w = (w', Raises DataError)) /\
    (page_size < 0 \/ (page < 1 /\ 0 < page_size) ->
       stats_get request w = (w', Raises DataError)).
Proof.
  intros Hh page page_size offset.
  destruct (stats_get_healthy request w Hh) as (w' & S & Hg).
  cbv zeta in Hg. fold page page_size in Hg. fold offset in Hg.
  assert (Hbad : ~ (0 <= page_size < 2 ^ 63 /\ 0 <= offset < 2 ^ 63) ->
            stats_get request w = (w', Raises DataError)).
  { intro Hn. rewrite Hg. unfold limit_offset.
    destruct (bigint_count page_size && bigint_count offset) eqn:E; [| reflexivity].
    exfalso. apply Hn. apply andb_true_iff in E. destruct E as [E1 E2].
    apply bigint_count_true in E1, E2. tauto. }
  exists w'. split; [exact S |]. split; [| split; [exact Hbad |]].
  - intros [H1 H2]. rewrite Hg. unfold limit_offset.
    rewrite (proj2 (bigint_count_true page_size) H1),
            (proj2 (bigint_count_true offset) H2).
    eexists. eexists. reflexivity.
  - intro H. apply Hbad. intros [H1 H2]. unfold offset in H2.
    destruct H as [H | [Hp Hps]]; [lia | nia].
Qed.

Lemma selected_rows_keep_unique_keys (keep : WeatherData -> bool)
    (table : list WeatherData) :
  NoDup (map store_key table) -> NoDup (map store_key (filter keep table)).
Proof.
  induction table as [| r table IH]; cbn [filter map]; intro Hu; [constructor |].
  apply NoDup_cons_iff in Hu. destruct Hu as [Hfresh Hu].
  destruct (keep r); cbn [map]; [| exact (IH Hu)].
  apply NoDup_cons; [| exact (IH Hu)].
  intro Hin. apply Hfresh. apply in_map_iff in Hin. destruct Hin as (r' & Hk & Hin).
  apply filter_In in Hin. apply in_map_iff. exists r'. tauto.
Qed.

Lemma rows_of_one_key_are_at_most_one (k : string * option Timestamp)
    (rows : list WeatherData) :
  NoDup (map store_key rows) ->
  (forall r, In r rows -> store_key r = k) ->
  (List.length rows <= 1)%nat.
Proof.
  destruct rows as [| a [| b rows]]; intros Hu Hk; cbn [List.length]; try lia.
  exfalso. cbn [map] in Hu. apply NoDup_cons_iff in Hu. destruct Hu as [Hfresh _].
  apply Hfresh. left. rewrite (Hk a), (Hk b); cbn [In]; auto.
Qed.

Section QueryLayerFacts.

Variable date_literal : string -> option Timestamp.

Lemma weather_get_eq (request : weather_request) w :
  weather_get date_literal request w =
  let page := arg_or_default (req_page request) DEFAULT_PAGE in
  let page_size := arg_or_default (req_page_size request) DEFAULT_PAGE_SIZE in
  match execute (set_session_new [] w) with
  | (wb, Raises x) => (wb, Raises x)
  | (wb, Returns _) =>
      match weather_matching date_literal request (weather_data wb) with
      | Raises x => (wb, Raises x)
      | Returns matching =>
          match execute wb with
          | (wc, Raises x) => (wc, Raises x)
          | (wc, Returns _) =>
              match weather_matching date_literal request (weather_data wc) with
              | Raises x => (wc, Raises x)
              | Returns matching' =>
                  match limit_offset page_size ((page - 1) * page_size) matching' with
                  | Returns items =>
                      (wc, Returns (items,
                                    mkPagination (List.length matching) page page_size))
                  | Raises x => (wc, Raises x)
                  end
              end
          end
      end
  end.
Proof.
  unfold weather_get. step_monad. cbv zeta. simpl.
  destruct (execute _) as [wb [[] | x]]; [| reflexivity].
  destruct (weather_matching date_literal request (weather_data wb)); [| reflexivity].
  destruct (execute wb) as [wc [[] | x]]; [| reflexivity].
  destruct (weather_matching date_literal request (weather_data wc)); [| reflexivity].
  destruct (limit_offset _ _ _); reflexivity.
Qed.

Lemma weather_get_inv (request : weather_request) w w' items meta :
  weather_get date_literal request w = (w', Returns (items, meta)) ->
  weather_data w' = weather_data w /\
  weather_statistics w' = weather_statistics w /\
  exists matching,
    weather_matching date_literal request (weather_data w) = Returns matching /\
    total_items meta = List.length matching /\
    items = firstn (Z.to_nat (page_size meta))
              (skipn (Z.to_nat ((page meta - 1) * page_size meta)) matching).
Proof.
  rewrite weather_get_eq. cbv zeta.
  destruct (execute (set_session_new [] w)) as [wb [[] | x]] eqn:E1; [| discriminate].
  destruct (execute_inv _ _ _ E1) as (D1 & S1 & _). simpl in D1, S1.
  rewrite D1.
  destruct (weather_matching date_literal request (weather_data w)) as [matching | x] eqn:Hm;
    [| discriminate].
  destruct (execute wb) as [wc [[] | x]] eqn:E2; [| discriminate].
  destruct (execute_inv _ _ _ E2) as (D2 & S2 & _).
  rewrite D2, D1, Hm.
  destruct (limit_offset _ _ _) as [its | x] eqn:El; [| discriminate].
  intro H. injection H as <- <- <-.
  apply limit_offset_returns in El. destruct El as (_ & _ & ->).
  split; [congruence |]. split; [congruence |].
  exists matching. cbn [total_items page page_size]. auto.
Qed.

(** X14. A station and a date select at most one observation.  Over a table
    that keeps its constraints, a request to [WeatherAPI.get] that names a
    station and a date is answered, when it is answered, with at most one
    row, and [total_items] is at most 1; the row is a stored row of that
    station and of the date the server reads from the text. *)
Theorem station_and_date_select_at_most_one_row (request : weather_request)
    (w w' : World) (items : list WeatherData) (meta : pagination)
    (station text : string) :
  store_ok (weather_data w) ->
  weather_get date_literal request w = (w', Returns (items, meta)) ->
  truthy_string (req_station_id request) = Some station ->
  truthy_string (req_date request) = Some text ->
  (total_items meta <= 1)%nat /\
  (List.length items <= 1)%nat /\
  forall r, In r items ->
    In r (weather_data w) /\ station_id r = station /\
    date r = date_literal text /\ date r <> None.
Proof.
  intros [_ Hnd] H Hst Hdt.
  destruct (weather_get_inv _ _ _ _ _ H) as (_ & _ & matching & Hm & Ht & ->).
  unfold weather_matching in Hm. rewrite Hst, Hdt in Hm.
  destruct (date_literal text) as [d |]; [| discriminate].
  injection Hm as <-.
  set (matching := filter _ (filter _ _)) in *.
  assert (Hall : forall r, In r matching ->
            In r (weather_data w) /\ store_key r = (station, Some d)).
  { intros r Hr. subst matching. apply filter_In in Hr. destruct Hr as [Hr Hs].
    apply filter_In in Hr. destruct Hr as [Hr Hd].
    split; [exact Hr |]. apply same_station_date_key.
    unfold same_station_date. unfold date_is in Hd. now rewrite Hs, Hd. }
  assert (Hlen : (List.length matching <= 1)%nat).
  { apply (rows_of_one_key_are_at_most_one (station, Some d)).
    - subst matching. now do 2 apply selected_rows_keep_unique_keys.
    - intros r Hr. now apply Hall. }
  split; [lia |]. split.
  - pose proof (length_firstn_skipn (Z.to_nat (page_size meta))
                  (Z.to_nat ((page meta - 1) * page_size meta)) matching). lia.
  - intros r Hr. apply In_firstn_skipn in Hr. destruct (Hall r Hr) as [Hin Hk].
    unfold store_key in Hk. injection Hk as Hs Hd.
    repeat split; auto; congruence.
Qed.

End QueryLayerFacts.

(** ** [create_database] *)

Lemma server_step_working (s : Server) :
  forallb negb (server_link s) = true ->
  exists l, server_step s = (mkServer (databases s) (connections s) l (server_log s), false) /\
            forallb negb l = true.
Proof.
  unfold server_step. destruct s as [dbs n ln lg]. simpl.
  destruct ln as [| [] l]; simpl; intro H; [| discriminate |].
  - exists []. split; reflexivity.
  - exists l. split; [reflexivity | exact H].
Qed.

Lemma database_exists_In (name : string) (s : Server) :
  database_exists name s = true <-> In name (databases s).
Proof.
  unfold database_exists. rewrite existsb_exists. split.
  - intros (x & Hin & Hx). apply String.eqb_eq in Hx. now subst.
  - intro Hin. exists name. split; [exact Hin | apply String.eqb_refl].
Qed.

(** X15. With a server that answers, [create_database] returns with the
    database [weather_db] in place: an existing one is kept as it is, a
    missing one is added; no other database changes and no connection stays
    open.  A second call then changes nothing and logs that the database
    already exists. *)
Theorem create_database_makes_the_database_once (s : Server) :
  forallb negb (server_link s) = true ->
  exists s1 s2,
    create_database s = (s1, SetupReturns) /\
    create_database s1 = (s2, SetupReturns) /\
    In DB_NAME (databases s1) /\
    databases s1 = (if database_exists DB_NAME s then databases s
                    else databases s ++ [DB_NAME]) /\
    connections s1 = connections s /\
    databases s2 = databases s1 /\
    connections s2 = connections s1 /\
    server_log s2 = server_log s1 ++ [DatabaseAlreadyExists DB_NAME].
Proof.
  intro Hh.
  assert (Hrun : forall s0, forallb negb (server_link s0) = true ->
            exists l, forallb negb l = true /\
              create_database s0 =
              (if database_exists DB_NAME s0
               then mkServer (databases s0) (connections s0) l
                      (server_log s0 ++ [DatabaseAlreadyExists DB_NAME])
               else mkServer (databases s0 ++ [DB_NAME]) (connections s0) l
                      (server_log s0 ++ [DatabaseCreated DB_NAME]),
               SetupReturns)).
  { intros s0 H0. unfold create_database.
    destruct (server_step_working s0 H0) as (l1 & -> & H1).
    set (s2 := connection_opened _).
    destruct (server_step_working s2 H1) as (l2 & -> & H2).
    cbn [databases connections server_link server_log s2 connection_opened].
    change (database_exists DB_NAME
              (mkServer (databases s0) (S (connections s0)) l2 (server_log s0)))
      with (database_exists DB_NAME s0).
    destruct (database_exists DB_NAME s0).
    - exists l2. split; [exact H2 | reflexivity].
    - set (s3 := mkServer _ _ l2 _).
      destruct (server_step_working s3 H2) as (l3 & -> & H3).
      exists l3. split; [exact H3 | reflexivity]. }
  destruct (Hrun s Hh) as (l1 & H1 & Hc1).
  set (s1 := fst (create_database s)).
  assert (Hs1 : create_database s = (s1, SetupReturns)).
  { subst s1. rewrite Hc1. reflexivity. }
  assert (Hd1 : databases s1 = (if database_exists DB_NAME s then databases s
                                else databases s ++ [DB_NAME])).
  { subst s1. rewrite Hc1. cbn [fst]. destruct (database_exists DB_NAME s); reflexivity. }
  assert (Hin : In DB_NAME (databases s1)).
  { rewrite Hd1. destruct (database_exists DB_NAME s) eqn:E.
    - now apply database_exists_In.
    - apply in_or_app. right. now left. }
  assert (Hl1 : forallb negb (server_link s1) = true).
  { subst s1. rewrite Hc1. cbn [fst]. destruct (database_exists DB_NAME s); exact H1. }
  assert (Hn1 : connections s1 = connections s).
  { subst s1. rewrite Hc1. cbn [fst]. destruct (database_exists DB_NAME s); reflexivity. }
  destruct (Hrun s1 Hl1) as (l2 & _ & Hc2).
  rewrite (proj2 (database_exists_In DB_NAME s1) Hin) in Hc2.
  eexists s1, _. split; [exact Hs1 |]. split; [exact Hc2 |].
  cbn [databases connections server_log]. repeat split; auto.
Qed.

Lemma server_step_inv (s s' : Server) (b : bool) :
  server_step s = (s', b) ->
  databases s' = databases s /\ connections s' = connections s /\
  server_log s' = server_log s.
Proof.
  unfold server_step. destruct (server_link s) as [| b' l]; intro H;
    injection H as <- <-; repeat split; reflexivity.
Qed.

Lemma server_step_fails (s : Server) :
  snd (server_step s) = true <-> exists l, server_link s = true :: l.
Proof.
  unfold server_step. destruct (server_link s) as [| [] l]; cbn [snd]; split;
    try discriminate; try (intros (l' & Hl); discriminate).
  - intros _. now exists l.
  - reflexivity.
Qed.

Lemma create_database_outcome (s : Server) :
  snd (create_database s) =
  if snd (server_step s) then SetupRaisesUnboundLocalError else SetupReturns.
Proof.
  unfold create_database.
  destruct (server_step s) as [s1 []]; cbn [snd]; [reflexivity |].
  destruct (server_step (connection_opened s1)) as [s3 []]; [reflexivity |].
  destruct (database_exists DB_NAME s3); [reflexivity |].
  destruct (server_step s3) as [s4 []]; reflexivity.
Qed.

(** X16. Without a server, [create_database] does not return: the failed
    connection is logged, and the [finally] clause, reading [conn] which was
    never assigned, raises [UnboundLocalError].  This is the only way the
    call raises; no database and no connection changes. *)
Theorem create_database_without_a_server (s : Server) :
  (snd (create_database s) = SetupRaisesUnboundLocalError <->
   exists l, server_link s = true :: l) /\
  (forall l, server_link s = true :: l ->
     create_database s =
     (mkServer (databases s) (connections s) l
        (server_log s ++ [ErrorCreatingDatabase]),
      SetupRaisesUnboundLocalError)).
Proof.
  split.
  - rewrite create_database_outcome, <- server_step_fails.
    destruct (snd (server_step s)); split; congruence.
  - intros l Hl. unfold create_database, server_step. rewrite Hl. reflexivity.
Qed.

(** X17. However [create_database] ends, it has closed the connection it
    opened, it has removed or renamed no database, and it has added at most
    [weather_db], and that only where it was missing: a list of databases
    without repetition stays one. *)
Theorem create_database_touches_nothing_else (s : Server) :
  let s' := fst (create_database s) in
  connections s' = connections s /\
  (databases s' = databases s \/
   (~ In DB_NAME (databases s) /\ databases s' = databases s ++ [DB_NAME])) /\
  (NoDup (databases s) -> NoDup (databases s')).
Proof.
  cbv zeta.
  assert (Hcases : connections (fst (create_database s)) = connections s /\
            (databases (fst (create_database s)) = databases s \/
             (database_exists DB_NAME s = false /\
              databases (fst (create_database s)) = databases s ++ [DB_NAME]))).
  { unfold create_database.
    destruct (server_step s) as [s1 b1] eqn:E1.
    destruct (server_step_inv _ _ _ E1) as (D1 & N1 & _).
    destruct b1; cbn [fst]; [cbn; auto |].
    destruct (server_step (connection_opened s1)) as [s3 b3] eqn:E3.
    destruct (server_step_inv _ _ _ E3) as (D3 & N3 & _).
    cbn [connection_opened databases connections] in D3, N3.
    assert (Hex : database_exists DB_NAME s3 = database_exists DB_NAME s).
    { unfold database_exists. now rewrite D3, D1. }
    destruct b3; cbn [fst].
    - cbn. rewrite N3, N1, D3, D1. auto.
    - destruct (database_exists DB_NAME s3) eqn:E; cbn [fst].
      + cbn. rewrite N3, N1, D3, D1. auto.
      + destruct (server_step s3) as [s4 b4] eqn:E4.
        destruct (server_step_inv _ _ _ E4) as (D4 & N4 & _).
        destruct b4; cbn; rewrite N4, N3, N1, D4, D3, D1; auto. }
  destruct Hcases as (Hn & Hd). split; [exact Hn |]. split.
  - destruct Hd as [Hd | [He Hd]]; [now left | right].
    split; [| exact Hd]. intro Hin. apply database_exists_In in Hin. congruence.
  - intro Hnd. destruct Hd as [-> | [He ->]]; [exact Hnd |].
    apply NoDup_app; [exact Hnd | constructor; [intros [] | constructor] |].
    intros x Hx [<- | []]. apply database_exists_In in Hx. congruence.
Qed.

(** ** The further properties at sample data *)

(** A run that loses its connection at the first insert of its second
    file. *)
Lemma ingest_data_only_appends_file_records_witness :
  let w := set_link [false; false; true] no_data in
  let run := ingest_data to_datetime_of_samples DataError [USC00111280; USC00110072] w in
  snd run = Raises OperationalError /\
  (exists added,
     weather_data (fst run) = weather_data w ++ added /\
     Forall (fun r => exists f, In f [USC00111280; USC00110072] /\
                                In r (file_records to_datetime_of_samples f)) added) /\
  weather_statistics (fst run) = weather_statistics w.
Proof.
  cbv zeta. split; [vm_compute; reflexivity |].
  apply (ingest_data_only_appends_file_records to_datetime_of_samples DataError
           [USC00111280; USC00110072] (set_link [false; false; true] no_data)
           (fst (ingest_data to_datetime_of_samples DataError [USC00111280; USC00110072]
                   (set_link [false; false; true] no_data)))
           (Raises OperationalError)).
  vm_compute; reflexivity.
Defined.

Lemma store_ok_no_data : store_ok (weather_data no_data).
Proof. split; constructor. Defined.

Lemma ingest_data_keeps_the_constraints_witness :
  let run := ingest_data to_datetime_of_samples DataError [USC00111280; USC00110072; USC00112140] no_data in
  snd run = Returns (4%nat, 1%nat) /\
  store_ok (weather_data no_data) /\
  store_ok (weather_data (fst run)).
Proof.
  cbv zeta. split; [vm_compute; reflexivity |]. split; [exact store_ok_no_data |].
  apply (ingest_data_keeps_the_constraints to_datetime_of_samples DataError
           [USC00111280; USC00110072; USC00112140] no_data
           (fst (ingest_data to_datetime_of_samples DataError
                   [USC00111280; USC00110072; USC00112140] no_data))
           (Returns (4%nat, 1%nat))).
  - vm_compute; reflexivity.
  - exact store_ok_no_data.
Defined.

Lemma ingested_total_is_the_growth_of_the_table_witness :
  let w := fst (ingest_file to_datetime_of_samples DataError USC00111280 no_data) in
  let run := ingest_data to_datetime_of_samples DataError [USC00111280; USC00110072; USC00112140] w in
  snd run = Returns (3%nat, 2%nat) /\
  List.length (weather_data (fst run)) = (List.length (weather_data w) + 3)%nat.
Proof.
  cbv zeta. split; [vm_compute; reflexivity |].
  apply (ingested_total_is_the_growth_of_the_table to_datetime_of_samples DataError
           [USC00111280; USC00110072; USC00112140]
           (fst (ingest_file to_datetime_of_samples DataError USC00111280 no_data))
           (fst (ingest_data to_datetime_of_samples DataError [USC00111280; USC00110072; USC00112140]
                   (fst (ingest_file to_datetime_of_samples DataError USC00111280 no_data))))
           (3%nat, 2%nat)).
  vm_compute; reflexivity.
Defined.

(** A run that loses its connection in its second file, made up for by a
    second run; the file at the end has a date that is not numeric, so that
    both the second run and a run from scratch end with its [DataError]. *)
Lemma interrupted_run_can_be_resumed_witness :
  let files := [USC00111280; USC00110072; USC00110187] in
  let w := set_link [false; false; true] no_data in
  let w1 := fst (ingest_data to_datetime_of_samples DataError files w) in
  let wb := set_link [] w1 in
  ingest_data to_datetime_of_samples DataError files w = (w1, Raises OperationalError) /\
  List.length (weather_data w1) = 1%nat /\
  snd (ingest_data to_datetime_of_samples DataError files wb) = Raises DataError /\
  List.length (weather_data (fst (ingest_data to_datetime_of_samples DataError files wb))) = 2%nat /\
  exists wa' oa wb' ob,
    ingest_data to_datetime_of_samples DataError files no_data = (wa', oa) /\
    ingest_data to_datetime_of_samples DataError files wb = (wb', ob) /\
    weather_data wb' = weather_data wa' /\
    (forall x, ob = Raises x <-> oa = Raises x).
Proof.
  cbv zeta. split; [vm_compute; reflexivity |]. split; [vm_compute; reflexivity |].
  split; [vm_compute; reflexivity |]. split; [vm_compute; reflexivity |].
  apply (interrupted_run_can_be_resumed to_datetime_of_samples DataError
           [USC00111280; USC00110072; USC00110187]
           (set_link [false; false; true] no_data)
           (fst (ingest_data to_datetime_of_samples DataError [USC00111280; USC00110072; USC00110187]
                   (set_link [false; false; true] no_data)))
           no_data
           (set_link [] (fst (ingest_data to_datetime_of_samples DataError
                                [USC00111280; USC00110072; USC00110187]
                                (set_link [false; false; true] no_data))))
           (Raises OperationalError));
    vm_compute; reflexivity.
Defined.

Lemma first_line_of_a_day_wins_witness :
  let first := clean_line to_datetime_of_samples "USC00110072" (mkLine "19850101" (-22) (-128) 94) in
  let second := clean_line to_datetime_of_samples "USC00110072" (mkLine "19850101" 17 (-50) 0) in
  let w' := fst (ingest_rows DataError ([] ++ first :: [second])
                   (0%nat, 0%nat) no_data) in
  ingest_rows DataError ([] ++ first :: [second]) (0%nat, 0%nat) no_data
    = (w', Returns (1%nat, 1%nat)) /\
  In (new_record first) (weather_data w') /\
  forall r, In r (weather_data w') ->
    store_key r = store_key (new_record first) -> r = new_record first.
Proof.
  cbv zeta. split; [vm_compute; reflexivity |].
  apply (first_line_of_a_day_wins DataError []
           [clean_line to_datetime_of_samples "USC00110072" (mkLine "19850101" 17 (-50) 0)]
           (clean_line to_datetime_of_samples "USC00110072" (mkLine "19850101" (-22) (-128) 94))
           (0%nat, 0%nat) (1%nat, 1%nat) no_data
           (fst (ingest_rows DataError
                   ([] ++ clean_line to_datetime_of_samples "USC00110072" (mkLine "19850101" (-22) (-128) 94)
                       :: [clean_line to_datetime_of_samples "USC00110072" (mkLine "19850101" 17 (-50) 0)])
                   (0%nat, 0%nat) no_data))
           (mkTimestamp 1985 1 1)).
  - reflexivity.
  - exact store_ok_no_data.
  - vm_compute; reflexivity.
  - vm_compute; reflexivity.
  - vm_compute; reflexivity.
  - constructor.
Defined.

Lemma statistics_after_ingestion_succeed_witness :
  let w1 := fst (ingest_data to_datetime_of_samples DataError [USC00111280; USC00110338] no_data) in
  snd (ingest_data to_datetime_of_samples DataError [USC00111280; USC00110338] no_data)
    = Raises ParserError /\
  healthy w1 /\
  aggregates_in_range (weather_data w1) /\
  exists w2,
    calculate_statistics DataError groups_as_found w1 = (w2, Returns tt) /\
    weather_data w2 = weather_data w1 /\
    weather_statistics w2 =
      weather_statistics no_data ++ yearly_statistics groups_as_found (weather_data w1) /\
    log w2 = log w1 ++ [StartingStatistics; FinishedStatistics].
Proof.
  cbv zeta. split; [vm_compute; reflexivity |]. split; [vm_compute; reflexivity |].
  split; [vm_compute; reflexivity |].
  apply (statistics_after_ingestion_succeed to_datetime_of_samples DataError
           groups_as_found groups_as_found_permutes
           [USC00111280; USC00110338] no_data
           (fst (ingest_data to_datetime_of_samples DataError [USC00111280; USC00110338] no_data))
           (Raises ParserError)).
  - exact store_ok_no_data.
  - vm_compute; reflexivity.
  - vm_compute; reflexivity.
  - vm_compute; reflexivity.
Defined.

Lemma statistics_rows_are_bounded_witness :
  let w' := fst (calculate_statistics DataError groups_as_found three_days) in
  calculate_statistics DataError groups_as_found three_days = (w', Returns tt) /\
  (List.length (weather_statistics w') <=
     List.length (weather_statistics three_days)
     + List.length (weather_data three_days))%nat /\
  (weather_data three_days = [] -> weather_statistics w' = weather_statistics three_days).
Proof.
  cbv zeta. split; [vm_compute; reflexivity |].
  apply (statistics_rows_are_bounded DataError groups_as_found groups_as_found_permutes three_days
           (fst (calculate_statistics DataError groups_as_found three_days))).
  vm_compute; reflexivity.
Defined.

Lemma statistic_row_depends_on_its_partition_only_witness :
  let other := mkWeatherData (Some (mkTimestamp 2003 1 1)) "USC00110072"
                 (Some 1%float) (Some 2%float) (Some 3%float) in
  let row := mkWeatherStatistics (Some 2003) "USC00111280"
               (Some 25%float) (Some 6%float) None in
  In row (yearly_statistics groups_as_found (weather_data three_days)) /\
  In row (yearly_statistics groups_as_found (weather_data three_days ++ [other])) /\
  row = row.
Proof.
  cbv zeta.
  assert (H1 : In (mkWeatherStatistics (Some 2003) "USC00111280"
                     (Some 25%float) (Some 6%float) None)
                  (yearly_statistics groups_as_found (weather_data three_days)))
    by (vm_compute; left; reflexivity).
  assert (H2 : In (mkWeatherStatistics (Some 2003) "USC00111280"
                     (Some 25%float) (Some 6%float) None)
                  (yearly_statistics groups_as_found
                     (weather_data three_days ++
                      [mkWeatherData (Some (mkTimestamp 2003 1 1)) "USC00110072"
                         (Some 1%float) (Some 2%float) (Some 3%float)])))
    by (vm_compute; left; reflexivity).
  split; [exact H1 |]. split; [exact H2 |].
  apply (statistic_row_depends_on_its_partition_only groups_as_found groups_as_found_permutes
           (weather_data three_days)
           (weather_data three_days ++
            [mkWeatherData (Some (mkTimestamp 2003 1 1)) "USC00110072"
               (Some 1%float) (Some 2%float) (Some 3%float)])
           _ _ H1 H2); vm_compute; reflexivity.
Defined.

Lemma station_of_a_path_is_the_file_name_witness :
  station_id_of_path "/srv/weather/src/../wx_data/USC00111280.txt" = "USC00111280"%string /\
  station_id_of_path "USC00111280.txt" = "USC00111280"%string.
Proof.
  apply (station_of_a_path_is_the_file_name
           "/srv/weather/src/../wx_data" "USC00111280" "txt"); reflexivity.
Defined.

(** The statistics of two stations, one row each. *)
Lemma stats_get_returns_matching_rows_witness :
  let w := fst (calculate_statistics DataError groups_as_found
                  (fst (ingest_data to_datetime_of_samples DataError [USC00111280; USC00110072] no_data))) in
  let request := mkStatsRequest (Some 2003) None None None in
  let row := mkWeatherStatistics (Some 2003) "USC00111280"
               (Some 21.1%float) None (Some 0.5%float) in
  stats_get request w = (set_session_new [] w, Returns ([row], mkPagination 1 1 10)) /\
  total_items (mkPagination 1 1 10)
    = List.length (stats_matching request (weather_statistics w)) /\
  forall s, In s [row] ->
    In s (weather_statistics w) /\
    (forall y, truthy_int (sreq_year request) = Some y -> year s = Some y) /\
    (forall station, truthy_string (sreq_station_id request) = Some station ->
       ws_station_id s = station).
Proof.
  cbv zeta.
  assert (H : stats_get (mkStatsRequest (Some 2003) None None None)
                (fst (calculate_statistics DataError groups_as_found
                        (fst (ingest_data to_datetime_of_samples DataError
                                [USC00111280; USC00110072] no_data))))
              = (set_session_new []
                   (fst (calculate_statistics DataError groups_as_found
                           (fst (ingest_data to_datetime_of_samples DataError
                                   [USC00111280; USC00110072] no_data)))),
                 Returns ([mkWeatherStatistics (Some 2003) "USC00111280"
                             (Some 21.1%float) None (Some 0.5%float)],
                          mkPagination 1 1 10)))
    by (vm_compute; reflexivity).
  split; [exact H |].
  destruct (stats_get_returns_matching_rows _ _ _ _ _ H) as (_ & _ & Ht & _ & _ & _ & Hin).
  split; [exact Ht | exact Hin].
Defined.

Lemma paging_out_of_range_is_refused_witness :
  let w := fst (calculate_statistics DataError groups_as_found three_days) in
  healthy w /\
  (exists w' items meta,
     stats_get (mkStatsRequest None None (Some 0) (Some 0)) w
     = (w', Returns (items, meta))) /\
  (exists w', stats_get (mkStatsRequest None None None (Some (2 ^ 63))) w
              = (w', Raises DataError)) /\
  (exists w', stats_get (mkStatsRequest None None (Some 0) None) w
              = (w', Raises DataError)) /\
  (exists w', stats_get (mkStatsRequest None None None (Some (-1))) w
              = (w', Raises DataError)).
Proof.
  cbv zeta.
  assert (Hh : healthy (fst (calculate_statistics DataError groups_as_found three_days)))
    by (vm_compute; reflexivity).
  split; [exact Hh |]. split; [| split; [| split]].
  - destruct (paging_out_of_range_is_refused
                (mkStatsRequest None None (Some 0) (Some 0)) _ Hh)
      as (w' & _ & Hgood & _).
    exists w'. apply Hgood. vm_compute. repeat split; discriminate.
  - destruct (paging_out_of_range_is_refused
                (mkStatsRequest None None None (Some (2 ^ 63))) _ Hh)
      as (w' & _ & _ & Hbad & _).
    exists w'. apply Hbad. vm_compute. intros [[_ H] _]. discriminate.
  - destruct (paging_out_of_range_is_refused
                (mkStatsRequest None None (Some 0) None) _ Hh)
      as (w' & _ & _ & _ & Hbad).
    exists w'. apply Hbad. right. vm_compute. split; reflexivity.
  - destruct (paging_out_of_range_is_refused
                (mkStatsRequest None None None (Some (-1))) _ Hh)
      as (w' & _ & _ & _ & Hbad).
    exists w'. apply Hbad. left. vm_compute. reflexivity.
Defined.

Lemma station_and_date_select_at_most_one_row_witness :
  let date_literal := fun text : string =>
    if String.eqb text "2003-01-01" then Some (mkTimestamp 2003 1 1) else None in
  let w := fst (ingest_data to_datetime_of_samples DataError [USC00111280; USC00110072] no_data) in
  let request := mkWeatherRequest (Some "2003-01-01"%string) (Some "USC00111280"%string)
                   None None in
  let row := mkWeatherData (Some (mkTimestamp 2003 1 1)) "USC00111280"
               (Some 21.1%float) None (Some 0.5%float) in
  store_ok (weather_data w) /\
  weather_get date_literal request w
    = (set_session_new [] w, Returns ([row], mkPagination 1 1 10)) /\
  (total_items (mkPagination 1 1 10) <= 1)%nat /\
  (List.length [row] <= 1)%nat /\
  forall r, In r [row] ->
    In r (weather_data w) /\ station_id r = "USC00111280"%string /\
    date r = date_literal "2003-01-01"%string /\ date r <> None.
Proof.
  cbv zeta.
  assert (Hok : store_ok (weather_data
                            (fst (ingest_data to_datetime_of_samples DataError
                                    [USC00111280; USC00110072] no_data)))).
  { assert (Hrun : ingest_data to_datetime_of_samples DataError [USC00111280; USC00110072] no_data
                   = (fst (ingest_data to_datetime_of_samples DataError
                             [USC00111280; USC00110072] no_data),
                      Returns (2%nat, 1%nat)))
      by (vm_compute; reflexivity).
    destruct (ingest_data_any _ _ _ _ _ _ Hrun) as (_ & _ & Hkeep & _).
    exact (Hkeep store_ok_no_data). }
  split; [exact Hok |].
  assert (H : weather_get
                (fun text : string =>
                   if String.eqb text "2003-01-01"
                   then Some (mkTimestamp 2003 1 1) else None)
                (mkWeatherRequest (Some "2003-01-01"%string)
                   (Some "USC00111280"%string) None None)
                (fst (ingest_data to_datetime_of_samples DataError [USC00111280; USC00110072] no_data))
              = (set_session_new []
                   (fst (ingest_data to_datetime_of_samples DataError [USC00111280; USC00110072] no_data)),
                 Returns ([mkWeatherData (Some (mkTimestamp 2003 1 1)) "USC00111280"
                             (Some 21.1%float) None (Some 0.5%float)],
                          mkPagination 1 1 10)))
    by (vm_compute; reflexivity).
  split; [exact H |].
  exact (station_and_date_select_at_most_one_row _ _ _ _ _ _
           "USC00111280" "2003-01-01" Hok H eq_refl eq_refl).
Defined.

Lemma create_database_makes_the_database_once_witness :
  let s := mkServer ["postgres"%string; "template1"%string] 0 [] [] in
  forallb negb (server_link s) = true /\
  exists s1 s2,
    create_database s = (s1, SetupReturns) /\
    create_database s1 = (s2, SetupReturns) /\
    In DB_NAME (databases s1) /\
    databases s1 = (if database_exists DB_NAME s then databases s
                    else databases s ++ [DB_NAME]) /\
    connections s1 = connections s /\
    databases s2 = databases s1 /\
    connections s2 = connections s1 /\
    server_log s2 = server_log s1 ++ [DatabaseAlreadyExists DB_NAME].
Proof.
  cbv zeta. split; [reflexivity |].
  apply (create_database_makes_the_database_once
           (mkServer ["postgres"%string; "template1"%string] 0 [] [])).
  reflexivity.
Defined.

(** The two calls of the preceding lemma, and a call without a server. *)
Example create_database_samples :
  let s := mkServer ["postgres"%string; "template1"%string] 0 [] [] in
  let s1 := fst (create_database s) in
  databases s1 = ["postgres"; "template1"; "weather_db"]%string /\
  server_log s1 = [DatabaseCreated "weather_db"] /\
  server_log (fst (create_database s1))
    = [DatabaseCreated "weather_db"; DatabaseAlreadyExists "weather_db"] /\
  create_database (mkServer ["postgres"%string] 0 [true] [])
    = (mkServer ["postgres"%string] 0 [] [ErrorCreatingDatabase],
       SetupRaisesUnboundLocalError).
Proof. repeat split; vm_compute; reflexivity. Qed.

(** ** The aggregation run and the query layer together *)

Lemma stats_matching_rows_for (y : Z) (station : string) (p s : option Z)
    (table : list WeatherStatistics) :
  y <> 0 ->
  station <> EmptyString ->
  stats_matching (mkStatsRequest (Some y) (Some station) p s) table
  = rows_for station (Some y) table.
Proof.
  intros Hy Hst. unfold stats_matching, rows_for.
  cbn [sreq_year sreq_station_id].
  assert (Ey : truthy_int (Some y) = Some y) by (destruct y; [congruence | | ]; reflexivity).
  assert (Es : truthy_string (Some station) = Some station)
    by (destruct station; [congruence | reflexivity]).
  rewrite Ey, Es.
  induction table as [| r table IH]; cbn [filter]; [reflexivity |].
  unfold key_eqb, stat_key. cbn [fst snd].
  destruct (option_Z_eqb (year r) (Some y)); cbn [filter];
    destruct (String.eqb (ws_station_id r) station); cbn [andb]; rewrite IH; reflexivity.
Qed.

(** X18. A second aggregation run shows in the answers of the query layer.
    With a working connection, over dated observations of which no aggregate
    overflows, let a station and a year (not 0) have observations.  After
    two runs of [calculate_statistics], a request to [WeatherStatsAPI.get]
    for that station and year is answered with a [total_items] that is 2
    more than the number of matching rows before the runs: the row of the
    partition, twice. *)
Theorem rerun_doubles_what_a_request_finds (e : py_exception)
    (order : list WeatherData -> list group_key -> list group_key)
    (w : World) (station : string) (y : Z) :
  (forall table ks, Permutation (order table ks) ks) ->
  healthy w ->
  Forall (fun r => date r <> None) (weather_data w) ->
  aggregates_in_range (weather_data w) ->
  partition_of station (Some y) (weather_data w) <> [] ->
  y <> 0 ->
  station <> EmptyString ->
  let request := mkStatsRequest (Some y) (Some station) None None in
  exists w1 w2 w3 items meta,
    calculate_statistics e order w = (w1, Returns tt) /\
    calculate_statistics e order w1 = (w2, Returns tt) /\
    stats_get request w2 = (w3, Returns (items, meta)) /\
    total_items meta =
      S (S (List.length (stats_matching request (weather_statistics w)))).
Proof.
  intros Hperm Hh Hv Hr Hne Hy Hst request.
  destruct (calculate_statistics_healthy e order Hperm w Hh Hv Hr)
    as (w1 & Hc1 & Hh1 & D1 & S1 & _).
  rewrite <- D1 in Hv, Hr.
  destruct (calculate_statistics_healthy e order Hperm w1 Hh1 Hv Hr)
    as (w2 & Hc2 & Hh2 & D2 & S2 & _).
  rewrite D1 in Hr.
  destruct (stats_get_healthy request w2 Hh2) as (w3 & _ & Hg).
  cbv zeta in Hg. cbn [request sreq_page sreq_page_size arg_or_default] in Hg.
  unfold limit_offset in Hg. cbn in Hg.
  exists w1, w2, w3. eexists. eexists.
  split; [exact Hc1 |]. split; [exact Hc2 |]. split; [exact Hg |].
  cbn [total_items]. unfold request.
  rewrite !(stats_matching_rows_for y station None None _ Hy Hst).
  rewrite S2, S1, D1, !rows_for_app, !length_app.
  destruct (yearly_statistics_spec order Hperm (weather_data w)) as (Hnd & _ & Hex).
  rewrite (rows_for_once station (Some y) _ Hnd); [lia |].
  destruct (Hex Hr station (Some y) Hne) as (s & Hs & Hk). rewrite <- Hk. now apply in_map.
Qed.

Lemma rerun_doubles_what_a_request_finds_witness :
  let request := mkStatsRequest (Some 2003) (Some "USC00111280"%string) None None in
  healthy three_days /\
  aggregates_in_range (weather_data three_days) /\
  partition_of "USC00111280" (Some 2003) (weather_data three_days) <> [] /\
  exists w1 w2 w3 items meta,
    calculate_statistics DataError groups_as_found three_days = (w1, Returns tt) /\
    calculate_statistics DataError groups_as_found w1 = (w2, Returns tt) /\
    stats_get request w2 = (w3, Returns (items, meta)) /\
    total_items meta =
      S (S (List.length (stats_matching request (weather_statistics three_days)))).
Proof.
  cbv zeta.
  assert (Hdated : Forall (fun r => date r <> None) (weather_data three_days))
    by (repeat constructor; discriminate).
  assert (Hne : partition_of "USC00111280" (Some 2003) (weather_data three_days) <> [])
    by (vm_compute; discriminate).
  split; [vm_compute; reflexivity |]. split; [vm_compute; reflexivity |].
  split; [exact Hne |].
  apply (rerun_doubles_what_a_request_finds DataError groups_as_found three_days
           "USC00111280" 2003 groups_as_found_permutes
           ltac:(vm_compute; reflexivity) Hdated ltac:(vm_compute; reflexivity) Hne);
    discriminate.
Defined.
